(** * domain-sublease: registrar abstraction and rental lifecycle

    A shallow embedding of the credential codec ([lib/encryption]), the
    three registrar clients ([lib/dns]), the availability route, the
    Stripe webhook handlers, and the routes that create and verify a
    listing and initiate and cancel a rental, with the properties the
    specification states about them and further properties read off the
    code.

    Conventions.  A JavaScript string is a [string].  The plaintext handed
    to the cipher is identified with its UTF-8 bytes, so the codec is
    modelled on well-formed text (a string with an unpaired surrogate has
    no such image: the cipher encodes the surrogate as U+FFFD).  The
    process key is read character by character, as [length] and [slice]
    read it, and reaches the cipher as its UTF-8 encoding.  A [Buffer] is
    a [list byte].
    A computation that may throw returns a [Result]; handlers thread a
    world (database tables, registrar call log, console) through a small
    state-and-exception monad.  Everything the process does not own (the
    AES-GCM primitive, the HTTP exchanges with a registrar, the Stripe
    client) enters as an explicit argument. *)

From Stdlib.Strings Require Import String Ascii Byte.
From Stdlib Require Import List Bool Arith NArith ZArith Lia DecimalString.
Import ListNotations.
Local Open Scope list_scope.
Local Open Scope string_scope.

(** ** Completions: a value or a thrown [Error] with its message *)

Inductive Result (A : Type) : Type :=
| Ok (a : A)
| Throw (msg : string).
Arguments Ok {A} a.
Arguments Throw {A} msg.

Definition is_ok {A} (r : Result A) : bool :=
  match r with Ok _ => true | Throw _ => false end.

Definition rbind {A B} (r : Result A) (k : A -> Result B) : Result B :=
  match r with
  | Ok a => k a
  | Throw m => Throw m
  end.

Declare Scope result_scope.
Delimit Scope result_scope with result.
Notation "x <- c ;; k" := (rbind c (fun x => k))
  (at level 61, c at next level, right associativity) : result_scope.

(** ** JavaScript string helpers *)

Module Js.

(** The double-quote character, for messages that embed one. *)
Definition dq : string := String (ascii_of_nat 34) EmptyString.

(** [s.includes(sub)] *)
Fixpoint includes (sub s : string) : bool :=
  String.prefix sub s ||
  match s with
  | EmptyString => false
  | String _ rest => includes sub rest
  end.

(** [s.startsWith(p)] *)
Definition startsWith (p s : string) : bool := String.prefix p s.

(** Truthiness of an optional string: [undefined], [null] and [""] are falsy. *)
Definition truthy (o : option string) : bool :=
  match o with
  | Some s => negb (String.eqb s "")
  | None => false
  end.

(** [a || b] on optional strings. *)
Definition or_else (a b : option string) : option string :=
  if truthy a then a else b.

(** Occurrence of a character. *)
Fixpoint mem_char (c : ascii) (s : string) : bool :=
  match s with
  | EmptyString => false
  | String d rest => Ascii.eqb d c || mem_char c rest
  end.

(** [s.split(sep)] for a one-character separator: never empty, the last
    element is what follows the last separator. *)
Fixpoint split (sep : ascii) (s : string) : list string :=
  match s with
  | EmptyString => [EmptyString]
  | String c rest =>
      let ps := split sep rest in
      if Ascii.eqb c sep then EmptyString :: ps
      else match ps with
           | p :: ps' => String c p :: ps'
           | [] => [String c EmptyString]
           end
  end.

(** [parts.join(sep)] *)
Definition join (sep : string) (parts : list string) : string :=
  String.concat sep parts.

(** [s.slice(0, n)] *)
Definition slice0 (n : nat) (s : string) : string := String.substring 0 n s.

(** [arr[i]], [undefined] out of range. *)
Definition at_index {A} (l : list A) (i : nat) : option A := nth_error l i.

(** An array with position [i] overwritten (unchanged when out of range). *)
Fixpoint set_index {A} (i : nat) (x : A) (l : list A) : list A :=
  match l, i with
  | [], _ => []
  | _ :: t, O => x :: t
  | h :: t, S j => h :: set_index j x t
  end.

End Js.

(** ** Credential codec ([lib/encryption.ts]) *)

Module Encryption.

Definition IV_LENGTH : nat := 16.
Definition SALT_LENGTH : nat := 64.
Definition TAG_LENGTH : nat := 16.

(** [getKey()]: [process.env.ENCRYPTION_KEY], refused when absent or
    shorter than 32, cut to its first 32 characters. *)
Definition getKey (env_key : option string) : Result string :=
  match env_key with
  | None => Throw "ENCRYPTION_KEY must be at least 32 characters"
  | Some key =>
      if String.eqb key "" || Nat.ltb (String.length key) 32
      then Throw "ENCRYPTION_KEY must be at least 32 characters"
      else Ok (Js.slice0 32 key)
  end.

(** Lower-case hexadecimal digit of a nibble. *)
Definition hex_digit (n : N) : ascii :=
  match n with
  | 0%N => "0" | 1%N => "1" | 2%N => "2" | 3%N => "3"
  | 4%N => "4" | 5%N => "5" | 6%N => "6" | 7%N => "7"
  | 8%N => "8" | 9%N => "9" | 10%N => "a" | 11%N => "b"
  | 12%N => "c" | 13%N => "d" | 14%N => "e" | _ => "f"
  end%char.

(** Value of a hexadecimal digit, either case. *)
Definition hex_value (c : ascii) : option N :=
  let n := N_of_ascii c in
  if ((48 <=? n) && (n <=? 57))%N then Some (n - 48)%N
  else if ((97 <=? n) && (n <=? 102))%N then Some (n - 87)%N
  else if ((65 <=? n) && (n <=? 70))%N then Some (n - 55)%N
  else None.

Definition hex_of_byte (b : byte) : string :=
  let n := Byte.to_N b in
  String (hex_digit (n / 16)) (String (hex_digit (n mod 16)) EmptyString).

(** [buf.toString('hex')] *)
Fixpoint toHex (bs : list byte) : string :=
  match bs with
  | [] => EmptyString
  | b :: rest => hex_of_byte b ++ toHex rest
  end.

Definition byte_of_hex_pair (c1 c2 : ascii) : option byte :=
  match hex_value c1, hex_value c2 with
  | Some h, Some l => Byte.of_N (16 * h + l)
  | _, _ => None
  end.

(** [Buffer.from(s, 'hex')]: whole pairs of digits, stopping at the first
    pair that is not hexadecimal; a trailing odd digit is dropped. *)
Fixpoint fromHex (s : string) : list byte :=
  match s with
  | String c1 (String c2 rest) =>
      match byte_of_hex_pair c1 c2 with
      | Some b => b :: fromHex rest
      | None => []
      end
  | _ => []
  end.

(** The number of bytes of the UTF-8 encoding of a string read character
    by character: one byte for a character below 128, two for any other
    character of the model. *)
Definition utf8_size (c : ascii) : nat :=
  if (N_of_ascii c <? 128)%N then 1 else 2.

Fixpoint utf8_length (s : string) : nat :=
  match s with
  | EmptyString => 0
  | String c rest => utf8_size c + utf8_length rest
  end.

(** The characters of a string are all below 128. *)
Fixpoint ascii_only (s : string) : bool :=
  match s with
  | EmptyString => true
  | String c rest => (N_of_ascii c <? 128)%N && ascii_only rest
  end.

(** [createCipheriv(ALGORITHM, key, iv)] and [createDecipheriv(ALGORITHM,
    key, iv)] on a string key: an empty nonce is refused, then a key whose
    UTF-8 encoding is not 32 bytes long ([RangeError: Invalid key length]);
    otherwise the cipher is keyed with [key]. *)
Definition createCipheriv (key : string) (iv : list byte) : Result string :=
  if Nat.eqb (List.length iv) 0 then Throw "Invalid initialization vector"
  else if Nat.eqb (utf8_length key) 32 then Ok key
  else Throw "Invalid key length".

(** Node's [aes-256-gcm] cipher as the codec uses it, once keyed:
    [gcm_seal key iv pt] is the ciphertext and the authentication tag
    ([update]/[final] then [getAuthTag]); [gcm_open key iv encrypted tag]
    is what [setAuthTag(tag)], [update(encrypted, 'hex')] and [final()]
    give on the hexadecimal text [encrypted]: the plaintext, or the error
    one of them throws (a tag that does not verify, a text that is no
    hexadecimal).  The law is the correctness of the primitive for a key of
    32 bytes and a 16-byte nonce, the only shapes the codec builds. *)
Class AesGcm : Type := {
  gcm_seal : string -> list byte -> list byte -> list byte * list byte;
  gcm_open : string -> list byte -> string -> list byte -> Result (list byte);
  gcm_open_seal :
    forall key iv pt,
      utf8_length key = 32 -> List.length iv = IV_LENGTH ->
      gcm_open key iv (toHex (fst (gcm_seal key iv pt))) (snd (gcm_seal key iv pt)) = Ok pt
}.

(** The template literal [`${a}:${b}:${c}:${d}`] of the payload. *)
Definition payload_of (a b c d : string) : string :=
  a ++ ":" ++ b ++ ":" ++ c ++ ":" ++ d.
Arguments payload_of : simpl never.

Section Codec.
Context {cipher : AesGcm}.

(** [encrypt(text)], with the two [randomBytes] draws made explicit. *)
Definition encrypt (env_key : option string) (iv salt : list byte) (text : string)
  : Result string :=
  (key <- getKey env_key;;
   key <- createCipheriv key iv;;
   let sealed := gcm_seal key iv (list_byte_of_string text) in
   let encrypted := toHex (fst sealed) in
   let tag := snd sealed in
   Ok (payload_of (toHex iv) (toHex salt) encrypted (toHex tag)))%result.

(** [decrypt(encryptedData)] *)
Definition decrypt (env_key : option string) (encryptedData : string) : Result string :=
  (key <- getKey env_key;;
   let parts := Js.split ":" encryptedData in
   if negb (Nat.eqb (List.length parts) 4) then Throw "Invalid encrypted data format"
   else
     let iv := fromHex (nth 0 parts EmptyString) in
     let encrypted := nth 2 parts EmptyString in
     let tag := fromHex (nth 3 parts EmptyString) in
     key <- createCipheriv key iv;;
     decrypted <- gcm_open key iv encrypted tag;;
     Ok (string_of_list_byte decrypted))%result.

End Codec.

(** The payload with its second colon-delimited field replaced by [s]. *)
Definition with_salt_field (s : string) (payload : string) : string :=
  Js.join ":" (Js.set_index 1 s (Js.split ":" payload)).

(** A stand-in cipher for running the codec on concrete inputs: the
    ciphertext is the plaintext reversed and the tag is the nonce. *)
Definition mirror_seal (key : string) (iv pt : list byte) : list byte * list byte :=
  (rev pt, iv).

Definition mirror_open (key : string) (iv : list byte) (encrypted : string)
  (tag : list byte) : Result (list byte) :=
  if list_eq_dec Byte.byte_eq_dec tag iv then Ok (rev (fromHex encrypted))
  else Throw "Unsupported state or unable to authenticate data".

End Encryption.

(** ** Registrar clients ([lib/dns]) *)

Module Dns.

(** [DNSRecord] of [types.ts]; the record kind is the string the callers
    pass ('A', 'AAAA', 'CNAME', 'TXT', 'MX', 'NS'). *)
Record DNSRecord : Type := {
  rec_type : string;
  rec_name : string;
  rec_content : string;
  rec_ttl : option nat;
  rec_priority : option nat
}.

(** [Partial<DNSRecord>] *)
Record PartialDNSRecord : Type := {
  upd_type : option string;
  upd_name : option string;
  upd_content : option string;
  upd_ttl : option nat;
  upd_priority : option nat
}.

(** A record as the Token-REST registrar lists it. *)
Record CfRecord : Type := {
  cf_id : string;
  cf_type : string;
  cf_name : string;
  cf_content : string
}.

(** A resource record set as the Signed-REST registrar lists it;
    [rs_values] are the [Value]s of [ResourceRecords], when present. *)
Record R53RecordSet : Type := {
  rs_Name : string;
  rs_Type : string;
  rs_TTL : option nat;
  rs_values : option (list string)
}.

(** The elements of [records?: any[]]: one of the two provider formats. *)
Inductive RawRecord : Type :=
| CfRaw (r : CfRecord)
| R53Raw (r : R53RecordSet).

(** [record.name], [record.Name], [record.id], [record.Id] on a raw record. *)
Definition raw_name (r : RawRecord) : option string :=
  match r with CfRaw c => Some (cf_name c) | R53Raw _ => None end.
Definition raw_Name (r : RawRecord) : option string :=
  match r with CfRaw _ => None | R53Raw s => Some (rs_Name s) end.
Definition raw_id (r : RawRecord) : option string :=
  match r with CfRaw c => Some (cf_id c) | R53Raw _ => None end.
Definition raw_Id (r : RawRecord) : option string := None.

(** [record.name || record.Name] *)
Definition recordName (r : RawRecord) : option string :=
  Js.or_else (raw_name r) (raw_Name r).

Record CreateResult : Type := {
  cr_success : bool;
  cr_recordId : option string;
  cr_error : option string
}.

Record OpResult : Type := {
  op_success : bool;
  op_error : option string
}.

Record ListResult : Type := {
  lr_success : bool;
  lr_records : option (list RawRecord);
  lr_error : option string
}.

Definition create_ok (rid : option string) : CreateResult :=
  {| cr_success := true; cr_recordId := rid; cr_error := None |}.
Definition create_failed (msg : string) : CreateResult :=
  {| cr_success := false; cr_recordId := None; cr_error := Some msg |}.
Definition op_ok : OpResult := {| op_success := true; op_error := None |}.
Definition op_failed (msg : string) : OpResult :=
  {| op_success := false; op_error := Some msg |}.
Definition list_ok (rs : list RawRecord) : ListResult :=
  {| lr_success := true; lr_records := Some rs; lr_error := None |}.
Definition list_failed (msg : string) : ListResult :=
  {| lr_success := false; lr_records := None; lr_error := Some msg |}.

(** The [DNSProvider] interface.  A call is a promise: it resolves to the
    result object or rejects. *)
Record DNSProvider : Type := {
  createRecord : DNSRecord -> Result CreateResult;
  deleteRecord : string -> Result OpResult;
  updateRecord : string -> PartialDNSRecord -> Result OpResult;
  listRecords : option string -> Result ListResult;
  verifyOwnership : string -> Result OpResult
}.

(** [arr.find(cb)] with a callback that may throw. *)
Fixpoint find_throwing {A} (cb : A -> Result bool) (l : list A) : Result (option A) :=
  match l with
  | [] => Ok None
  | x :: rest =>
      match cb x with
      | Throw m => Throw m
      | Ok true => Ok (Some x)
      | Ok false => find_throwing cb rest
      end
  end.

(** The name under which the ownership challenge is published. *)
Definition verification_host : string := "_domain-verification".

Definition not_found_message : string :=
  "Verification TXT record not found. Please add a TXT record with name "
  ++ Js.dq ++ "_domain-verification" ++ Js.dq
  ++ " and the provided token as content.".

(** *** Token-REST client ([cloudflare.ts]) *)

Module Cloudflare.

Record Credentials : Type := { apiToken : string; zoneId : string }.

Inductive Method : Type := GET | POST | PUT | DELETE.

(** JSON body of a write. *)
Record Body : Type := {
  b_type : option string;
  b_name : option string;
  b_content : option string;
  b_ttl : option nat;
  b_priority : option nat
}.

Record Request : Type := {
  req_url : string;
  req_method : Method;
  req_authorization : string;
  req_body : option Body
}.

(** What [fetch] then [response.json()] gives: [response.ok], and of the
    decoded body [success], [errors?.[0]?.message] and [result]. *)
Record Response (P : Type) : Type := {
  resp_ok : bool;
  data_success : bool;
  data_first_error : option string;
  data_result : P
}.
Arguments resp_ok {P} _.
Arguments data_success {P} _.
Arguments data_first_error {P} _.
Arguments data_result {P} _.

(** The HTTP exchange with the registrar: the record listing endpoint
    answers with an array, the single-record endpoints with one record.
    [Throw] is a network fault or an undecodable body. *)
Record Network : Type := {
  fetch_list : Request -> Result (Response (list CfRecord));
  fetch_one : Request -> Result (Response CfRecord)
}.

Definition baseUrl : string := "https://api.cloudflare.com/client/v4".

Definition is_write (m : Method) : bool :=
  match m with POST | PUT => true | _ => false end.

(** The name of a record denotes the verification host:
    [name === '_domain-verification' || name.includes('_domain-verification')]. *)
Definition denotes_verification_host (name : string) : bool :=
  String.eqb name verification_host || Js.includes verification_host name.

Section Client.
Variable net : Network.
Variable credentials : Credentials.

Definition request_of (endpoint : string) (method : Method) (body : option Body) : Request :=
  {| req_url := baseUrl ++ endpoint;
     req_method := method;
     req_authorization := "Bearer " ++ apiToken credentials;
     req_body := if is_write method then body else None |}.

(** [makeRequest]: throws the provider's first error message unless the
    exchange and the decoded body both report success. *)
Definition checked {P} (r : Result (Response P)) : Result P :=
  (resp <- r;;
   if negb (resp_ok resp) || negb (data_success resp)
   then Throw (match Js.or_else (data_first_error resp) (Some "Cloudflare API request failed") with
               | Some m => m
               | None => "Cloudflare API request failed"
               end)
   else Ok (data_result resp))%result.

Definition makeRequest_list (endpoint : string) : Result (list CfRecord) :=
  checked (fetch_list net (request_of endpoint GET None)).

Definition makeRequest_one (endpoint : string) (method : Method) (body : option Body)
  : Result CfRecord :=
  checked (fetch_one net (request_of endpoint method body)).

Definition records_endpoint : string := "/zones/" ++ zoneId credentials ++ "/dns_records".

Definition default_ttl (d : nat) (ttl : option nat) : nat :=
  match ttl with
  | Some (S n) => S n
  | _ => d
  end.

Definition createRecord (record : DNSRecord) : CreateResult :=
  match makeRequest_one records_endpoint POST
          (Some {| b_type := Some (rec_type record);
                   b_name := Some (rec_name record);
                   b_content := Some (rec_content record);
                   b_ttl := Some (default_ttl 3600 (rec_ttl record));
                   b_priority := rec_priority record |}) with
  | Ok result => create_ok (Some (cf_id result))
  | Throw m => create_failed m
  end.

Definition deleteRecord (recordId : string) : OpResult :=
  match makeRequest_one (records_endpoint ++ "/" ++ recordId) DELETE None with
  | Ok _ => op_ok
  | Throw m => op_failed m
  end.

Definition truthy_nat (o : option nat) : option nat :=
  match o with Some (S n) => Some (S n) | _ => None end.

Definition truthy_string (o : option string) : option string :=
  if Js.truthy o then o else None.

Definition updateRecord (recordId : string) (record : PartialDNSRecord) : OpResult :=
  let updateData :=
    {| b_type := truthy_string (upd_type record);
       b_name := truthy_string (upd_name record);
       b_content := truthy_string (upd_content record);
       b_ttl := truthy_nat (upd_ttl record);
       b_priority := upd_priority record |} in
  match makeRequest_one (records_endpoint ++ "/" ++ recordId) PUT (Some updateData) with
  | Ok _ => op_ok
  | Throw m => op_failed m
  end.

Definition listRecords (type : option string) : ListResult :=
  let params := match truthy_string type with
                | Some t => "?type=" ++ t
                | None => ""
                end in
  match makeRequest_list (records_endpoint ++ params) with
  | Ok result => list_ok (map CfRaw result)
  | Throw m => list_failed m
  end.

(** The predicate [verifyOwnership] searches the listing with. *)
Definition is_verification_record (token : string) (record : CfRecord) : bool :=
  String.eqb (cf_type record) "TXT"
  && String.eqb (cf_content record) token
  && denotes_verification_host (cf_name record).

(** The TXT listing [verifyOwnership] fetches. *)
Definition fetched_txt_records : Result (list CfRecord) :=
  makeRequest_list (records_endpoint ++ "?type=TXT").

Definition verifyOwnership (token : string) : OpResult :=
  match fetched_txt_records with
  | Ok result =>
      match find (is_verification_record token) result with
      | Some _ => op_ok
      | None => op_failed not_found_message
      end
  | Throw m => op_failed m
  end.

Definition provider : DNSProvider :=
  {| Dns.createRecord := fun r => Ok (createRecord r);
     Dns.deleteRecord := fun i => Ok (deleteRecord i);
     Dns.updateRecord := fun i r => Ok (updateRecord i r);
     Dns.listRecords := fun t => Ok (listRecords t);
     Dns.verifyOwnership := fun t => Ok (verifyOwnership t) |}.

End Client.
End Cloudflare.

(** *** Signed-REST client ([route53.ts]) *)

Module Route53.

Record Credentials : Type := {
  accessKeyId : string;
  secretAccessKey : string;
  hostedZoneId : string;
  region : option string
}.

(** The two parameter shapes the client builds. *)
Inductive Params : Type :=
| ChangeBatch (zone : string) (action : string) (set : R53RecordSet)
| ListParams (zone : string) (startName startType : option string) (maxItems : nat).

(** A decoded answer; [None] stands for an absent [ResourceRecordSets]. *)
Record Response : Type := { ResourceRecordSets : option (list R53RecordSet) }.

Definition sdk_missing_message : string :=
  "Route53 integration requires @aws-sdk/client-route-53. "
  ++ "Please install it: npm install @aws-sdk/client-route-53".

Section Client.
Variable credentials : Credentials.

(** [makeRequest]: the placeholder throws before any exchange. *)
Definition makeRequest (action : string) (params : Params) : Result (option Response) :=
  let region := Js.or_else (region credentials) (Some "us-east-1") in
  Throw sdk_missing_message.

Definition createRecord (record : DNSRecord) : CreateResult :=
  let params :=
    ChangeBatch (hostedZoneId credentials) "CREATE"
      {| rs_Name := rec_name record;
         rs_Type := rec_type record;
         rs_TTL := Some (Cloudflare.default_ttl 300 (rec_ttl record));
         rs_values := Some [rec_content record] |} in
  match makeRequest "ChangeResourceRecordSets" params with
  | Ok _ => create_ok (Some (rec_name record ++ ":" ++ rec_type record))
  | Throw m => create_failed m
  end.

(** The first record set of an answer: [currentRecords.ResourceRecordSets?.[0]]. *)
Definition first_record_set (resp : option Response) : option R53RecordSet :=
  match resp with
  | Some r => match ResourceRecordSets r with
              | Some (x :: _) => Some x
              | _ => None
              end
  | None => None
  end.

Definition deleteRecord (recordId : string) : OpResult :=
  let parts := Js.split ":" recordId in
  let name := Js.at_index parts 0 in
  let type := Js.at_index parts 1 in
  let listParams := ListParams (hostedZoneId credentials) name type 1 in
  match makeRequest "ListResourceRecordSets" listParams with
  | Throw m => op_failed m
  | Ok currentRecords =>
      match first_record_set currentRecords with
      | None => op_failed "Record not found"
      | Some recordToDelete =>
          let deleteParams := ChangeBatch (hostedZoneId credentials) "DELETE" recordToDelete in
          match makeRequest "ChangeResourceRecordSets" deleteParams with
          | Ok _ => op_ok
          | Throw m => op_failed m
          end
      end
  end.

Definition or_empty (o : option string) : string :=
  match o with Some s => s | None => "" end.

Definition updateRecord (recordId : string) (record : PartialDNSRecord) : OpResult :=
  let deleteResult := deleteRecord recordId in
  if negb (op_success deleteResult) then deleteResult
  else
    let parts := Js.split ":" recordId in
    let name := Js.at_index parts 0 in
    let type := Js.at_index parts 1 in
    let created :=
      createRecord {| rec_type := or_empty (Js.or_else (upd_type record) type);
                      rec_name := or_empty (Js.or_else (upd_name record) name);
                      rec_content := or_empty (Js.or_else (upd_content record) (Some ""));
                      rec_ttl := upd_ttl record;
                      rec_priority := upd_priority record |} in
    {| op_success := cr_success created; op_error := cr_error created |}.

Definition listRecords (type : option string) : ListResult :=
  let params := ListParams (hostedZoneId credentials) None None 100 in
  match makeRequest "ListResourceRecordSets" params with
  | Throw m => list_failed m
  | Ok response =>
      let records :=
        match response with
        | Some r => match ResourceRecordSets r with Some l => l | None => [] end
        | None => []
        end in
      let records :=
        match Cloudflare.truthy_string type with
        | Some t => filter (fun r => String.eqb (rs_Type r) t) records
        | None => records
        end in
      list_ok (map R53Raw records)
  end.

(** The callback of [verifyOwnership]: the token is searched inside each
    value ([rr.Value.includes(token)]); a record without [Name] faults. *)
Definition is_verification_record (token : string) (record : RawRecord) : Result bool :=
  match record with
  | CfRaw _ => Throw "Cannot read properties of undefined (reading 'includes')"
  | R53Raw r =>
      Ok (Js.includes verification_host (rs_Name r)
          && match rs_values r with
             | Some values => existsb (fun v => Js.includes token v) values
             | None => false
             end)
  end.

(** [verifyOwnership] after the listing has been fetched. *)
Definition verify_in (result : ListResult) (token : string) : OpResult :=
  match lr_success result, lr_records result with
  | true, Some records =>
      match find_throwing (is_verification_record token) records with
      | Ok (Some _) => op_ok
      | Ok None => op_failed not_found_message
      | Throw m => op_failed m
      end
  | _, _ => op_failed "Failed to fetch TXT records"
  end.

Definition verifyOwnership (token : string) : OpResult :=
  verify_in (listRecords (Some "TXT")) token.

Definition provider : DNSProvider :=
  {| Dns.createRecord := fun r => Ok (createRecord r);
     Dns.deleteRecord := fun i => Ok (deleteRecord i);
     Dns.updateRecord := fun i r => Ok (updateRecord i r);
     Dns.listRecords := fun t => Ok (listRecords t);
     Dns.verifyOwnership := fun t => Ok (verifyOwnership t) |}.

End Client.
End Route53.

(** *** Query-API client ([namecheap.ts]) *)

Module Namecheap.

Record Credentials : Type := {
  apiKey : string;
  apiUser : string;
  username : string;
  clientIp : string
}.

(** A request is its query parameters, in the order the client lists
    them; every request goes to the one [baseUrl]. *)
Definition Request : Type := list (string * string).

Definition baseUrl : string := "https://api.namecheap.com/xml.response".

(** The longest prefix of characters satisfying [p], and the rest. *)
Fixpoint span (p : ascii -> bool) (s : string) : string * string :=
  match s with
  | EmptyString => (EmptyString, EmptyString)
  | String c rest =>
      if p c then let '(a, b) := span p rest in (String c a, b)
      else (EmptyString, s)
  end.

Definition drop_prefix (p s : string) : option string :=
  if String.prefix p s
  then Some (String.substring (String.length p) (String.length s - String.length p) s)
  else None.

(** An attempt of [<Error[^>]*>([^<]+)</Error>] at the start of [s]. *)
Definition error_element_here (s : string) : option string :=
  match drop_prefix "<Error" s with
  | None => None
  | Some after_tag =>
      let '(_, from_gt) := span (fun c => negb (Ascii.eqb c ">")) after_tag in
      match from_gt with
      | String _ body =>
          let '(captured, closing) := span (fun c => negb (Ascii.eqb c "<")) body in
          if String.eqb captured "" then None
          else if String.prefix "</Error>" closing then Some captured else None
      | EmptyString => None
      end
  end.

(** [text.match(...)]: the capture of the leftmost match. *)
Fixpoint error_element (text : string) : option string :=
  match error_element_here text with
  | Some m => Some m
  | None =>
      match text with
      | EmptyString => None
      | String _ rest => error_element rest
      end
  end.

Definition error_marker : string := "Status=" ++ Js.dq ++ "ERROR" ++ Js.dq.

(** [n.toString()] for a non-negative integer. *)
Definition number_toString (n : nat) : string :=
  DecimalString.NilEmpty.string_of_uint (Nat.to_uint n).

(** A parameter value: an [undefined] is sent as the text [undefined]. *)
Definition param_value (o : option string) : string :=
  match o with Some s => s | None => "undefined" end.

Section Client.
Variable fetch : Request -> Result string.
Variable credentials : Credentials.

(** [makeRequest]: the text of the answer, or the error it reports;
    returned with the request that was sent. *)
Definition makeRequest (command : string) (extraParams : list (string * string))
  : Result string * list Request :=
  let params :=
    ([("ApiUser", apiUser credentials);
      ("ApiKey", apiKey credentials);
      ("UserName", username credentials);
      ("ClientIp", clientIp credentials);
      ("Command", command)] ++ extraParams)%list in
  ((text <- fetch params;;
    if Js.includes error_marker text
    then Throw (match error_element text with
                | Some m => m
                | None => "Namecheap API request failed"
                end)
    else Ok text)%result,
   [params]).

(** [createRecord], with the requests it sent in order. *)
Definition createRecord_traced (record : DNSRecord) : CreateResult * list Request :=
  let domainParts := Js.split "." (rec_name record) in
  let n := List.length domainParts in
  let sld := if Nat.ltb n 2 then None else Js.at_index domainParts (n - 2) in
  let tld := Js.at_index domainParts (n - 1) in
  let joined := Js.join "." (firstn (n - 2) domainParts) in
  let host := if String.eqb joined "" then "@" else joined in
  let '(getHostsResponse, sent1) :=
    makeRequest "namecheap.domains.dns.getHosts"
      [("SLD", param_value sld); ("TLD", param_value tld)] in
  match getHostsResponse with
  | Throw m => (create_failed m, sent1)
  | Ok _ =>
      let params :=
        ([("SLD", param_value sld);
          ("TLD", param_value tld);
          ("HostName1", host);
          ("RecordType1", rec_type record);
          ("Address1", rec_content record);
          ("TTL1", number_toString (Cloudflare.default_ttl 1800 (rec_ttl record)))]
         ++ match rec_priority record with
            | Some p => [("MXPref1", number_toString p)]
            | None => []
            end)%list in
      let '(setHostsResponse, sent2) := makeRequest "namecheap.domains.dns.setHosts" params in
      match setHostsResponse with
      | Throw m => (create_failed m, (sent1 ++ sent2)%list)
      | Ok _ => (create_ok (Some (host ++ ":" ++ rec_type record)), (sent1 ++ sent2)%list)
      end
  end.

Definition createRecord (record : DNSRecord) : CreateResult :=
  fst (createRecord_traced record).

Definition deleteRecord (recordId : string) : OpResult :=
  op_failed "Namecheap DNS deletion requires getting all records and re-setting without the target. This is a complex operation - please implement based on your specific needs.".

Definition updateRecord (recordId : string) (record : PartialDNSRecord) : OpResult :=
  op_failed "Namecheap DNS updates require getting all records and re-setting with modifications. This is a complex operation - please implement based on your specific needs.".

Definition listRecords (type : option string) : ListResult :=
  list_failed "Namecheap listing requires domain name. Please pass domain information.".

Definition verifyOwnership (token : string) : OpResult :=
  op_failed "Namecheap verification requires domain name. Please implement verification via Namecheap dashboard.".

Definition provider : DNSProvider :=
  {| Dns.createRecord := fun r => Ok (createRecord r);
     Dns.deleteRecord := fun i => Ok (deleteRecord i);
     Dns.updateRecord := fun i r => Ok (updateRecord i r);
     Dns.listRecords := fun t => Ok (listRecords t);
     Dns.verifyOwnership := fun t => Ok (verifyOwnership t) |}.

End Client.

(** The host entries a [setHosts] request carries: its [HostNameN] values. *)
Definition hosts_of (req : Request) : list string :=
  map snd (filter (fun kv => String.prefix "HostName" (fst kv)) req).

Definition command_of (req : Request) : option string :=
  option_map snd (find (fun kv => String.eqb (fst kv) "Command") req).

Definition setHosts : string := "namecheap.domains.dns.setHosts".
Definition getHosts : string := "namecheap.domains.dns.getHosts".

(** The host a record name is filed under by [createRecord]: what
    precedes its last two labels, or [@]. *)
Definition host_of (name : string) : string :=
  let parts := Js.split "." name in
  let joined := Js.join "." (firstn (List.length parts - 2) parts) in
  if String.eqb joined "" then "@" else joined.

End Namecheap.

(** *** Provider factory and validator ([lib/dns/index.ts]) *)

Module Factory.

(** The object [JSON.parse] decodes the unsealed credentials to, as its
    string properties. *)
Definition JsonObject : Type := list (string * string).

(** [credentials.key] as the clients use it: interpolated into a URL, a
    header or a query, where an absent property reads [undefined]. *)
Definition property (o : JsonObject) (key : string) : string :=
  match find (fun kv => String.eqb (fst kv) key) o with
  | Some kv => snd kv
  | None => "undefined"
  end.

Definition optional_property (o : JsonObject) (key : string) : option string :=
  option_map snd (find (fun kv => String.eqb (fst kv) key) o).

Record Validation : Type := { valid : bool; validation_error : option string }.

Section Factory.
Context {cipher : Encryption.AesGcm}.
(** [process.env.ENCRYPTION_KEY], [JSON.parse] (a text that is no JSON
    object is a fault), and the two registrars reached over HTTP. *)
Variable env_key : option string.
Variable JSON_parse : string -> Result JsonObject.
Variable cloudflare : Cloudflare.Network.
Variable namecheap : Namecheap.Request -> Result string.

Definition createDNSProvider (registrar encryptedCredentials : string)
  : Result DNSProvider :=
  (text <- Encryption.decrypt env_key encryptedCredentials ;;
   credentials <- JSON_parse text ;;
   if String.eqb registrar "CLOUDFLARE" then
     Ok (Cloudflare.provider cloudflare
           {| Cloudflare.apiToken := property credentials "apiToken";
              Cloudflare.zoneId := property credentials "zoneId" |})
   else if String.eqb registrar "ROUTE53" then
     Ok (Route53.provider
           {| Route53.accessKeyId := property credentials "accessKeyId";
              Route53.secretAccessKey := property credentials "secretAccessKey";
              Route53.hostedZoneId := property credentials "hostedZoneId";
              Route53.region := optional_property credentials "region" |})
   else if String.eqb registrar "NAMECHEAP" then
     Ok (Namecheap.provider namecheap
           {| Namecheap.apiKey := property credentials "apiKey";
              Namecheap.apiUser := property credentials "apiUser";
              Namecheap.username := property credentials "username";
              Namecheap.clientIp := property credentials "clientIp" |})
   else Throw ("Unsupported registrar: " ++ registrar))%result.

Definition validateCredentials (registrar encryptedCredentials : string) : Validation :=
  match createDNSProvider registrar encryptedCredentials with
  | Throw m => {| valid := false; validation_error := Some m |}
  | Ok provider =>
      match listRecords provider None with
      | Throw m => {| valid := false; validation_error := Some m |}
      | Ok result =>
          if lr_success result then {| valid := true; validation_error := None |}
          else {| valid := false;
                  validation_error :=
                    Js.or_else (lr_error result) (Some "Failed to validate credentials") |}
      end
  end.

End Factory.
End Factory.

End Dns.

(** ** Persistence (the Prisma client, as the routes use it) *)

Module Store.

Inductive RentalStatus : Type := ACTIVE | CANCELLED | EXPIRED.
Inductive TransactionStatus : Type := COMPLETED | FAILED.

Definition RentalStatus_eqb (a b : RentalStatus) : bool :=
  match a, b with
  | ACTIVE, ACTIVE | CANCELLED, CANCELLED | EXPIRED, EXPIRED => true
  | _, _ => false
  end.

Record Listing : Type := {
  l_id : string;
  domainName : string;
  registrar : string;
  apiCredentialsEncrypted : string;
  allowedRecordTypes : list string;
  maxSubdomainsAllowed : Z;
  verificationToken : option string;
  isVerified : bool;
  l_status : string;
  pricePerSubdomain : Z;
  pricingPeriod : string
}.

Record Rental : Type := {
  r_id : nat;
  listingId : string;
  renterUserId : string;
  subdomain : string;
  fullDomain : string;
  dnsRecordType : string;
  dnsRecordValue : string;
  rentalPeriodStart : Z;
  rentalPeriodEnd : Z;
  r_status : RentalStatus;
  stripeSubscriptionId : option string
}.

(** [amount] is held as the number of cents that the handler divides by 100. *)
Record Transaction : Type := {
  t_id : nat;
  rentalId : nat;
  amount_cents : Z;
  stripePaymentIntentId : string;
  t_status : TransactionStatus
}.

Record DB : Type := {
  listings : list Listing;
  rentals : list Rental;
  transactions : list Transaction
}.

(** A generated primary key.  The database draws its keys itself; the
    stand-in picks one that no row of the table carries, and nothing but
    that freshness is meant by it. *)
Definition fresh_id (ids : list nat) : nat := S (fold_right Nat.max 0 ids).

Definition with_status (st : RentalStatus) (r : Rental) : Rental :=
  {| r_id := r_id r; listingId := listingId r; renterUserId := renterUserId r;
     subdomain := subdomain r; fullDomain := fullDomain r;
     dnsRecordType := dnsRecordType r; dnsRecordValue := dnsRecordValue r;
     rentalPeriodStart := rentalPeriodStart r; rentalPeriodEnd := rentalPeriodEnd r;
     r_status := st; stripeSubscriptionId := stripeSubscriptionId r |}.

Definition with_t_status (st : TransactionStatus) (t : Transaction) : Transaction :=
  {| t_id := t_id t; rentalId := rentalId t; amount_cents := amount_cents t;
     stripePaymentIntentId := stripePaymentIntentId t; t_status := st |}.

(** [domainListing.findUnique({ where: { id } })] *)
Definition findListing (db : DB) (id : string) : option Listing :=
  find (fun l => String.eqb (l_id l) id) (listings db).

(** [subdomainRental.create({ data })]: the row with its generated key. *)
Definition createRental (db : DB) (data : Rental) : Rental * DB :=
  let row := {| r_id := fresh_id (map r_id (rentals db));
                listingId := listingId data; renterUserId := renterUserId data;
                subdomain := subdomain data; fullDomain := fullDomain data;
                dnsRecordType := dnsRecordType data; dnsRecordValue := dnsRecordValue data;
                rentalPeriodStart := rentalPeriodStart data;
                rentalPeriodEnd := rentalPeriodEnd data;
                r_status := r_status data;
                stripeSubscriptionId := stripeSubscriptionId data |} in
  (row, {| listings := listings db;
           rentals := (rentals db ++ [row])%list;
           transactions := transactions db |}).

(** [transaction.create({ data })] *)
Definition createTransaction (db : DB) (data : Transaction) : Transaction * DB :=
  let row := {| t_id := fresh_id (map t_id (transactions db));
                rentalId := rentalId data; amount_cents := amount_cents data;
                stripePaymentIntentId := stripePaymentIntentId data;
                t_status := t_status data |} in
  (row, {| listings := listings db;
           rentals := rentals db;
           transactions := (transactions db ++ [row])%list |}).

Definition has_subscription (sub : string) (r : Rental) : bool :=
  match stripeSubscriptionId r with
  | Some s => String.eqb s sub
  | None => false
  end.

(** [subdomainRental.findFirst({ where: { stripeSubscriptionId } })] *)
Definition findRentalBySubscription (db : DB) (sub : string) : option Rental :=
  find (has_subscription sub) (rentals db).

Definition findRental (db : DB) (id : nat) : option Rental :=
  find (fun r => Nat.eqb (r_id r) id) (rentals db).

(** The row with key [id] takes the status, the others stay. *)
Definition set_status_of (id : nat) (st : RentalStatus) (r : Rental) : Rental :=
  if Nat.eqb (r_id r) id then with_status st r else r.

(** [subdomainRental.update({ where: { id }, data: { status } })]: the
    client rejects when no row has the key. *)
Definition updateRentalStatus (db : DB) (id : nat) (st : RentalStatus) : Result DB :=
  match findRental db id with
  | None => Throw "Record to update not found."
  | Some _ =>
      Ok {| listings := listings db;
            rentals := map (set_status_of id st) (rentals db);
            transactions := transactions db |}
  end.

(** [transaction.findFirst({ where: { stripePaymentIntentId } })] *)
Definition findTransactionByIntent (db : DB) (intent : string) : option Transaction :=
  find (fun t => String.eqb (stripePaymentIntentId t) intent) (transactions db).

Definition updateTransactionStatus (db : DB) (id : nat) (st : TransactionStatus) : Result DB :=
  match find (fun t => Nat.eqb (t_id t) id) (transactions db) with
  | None => Throw "Record to update not found."
  | Some _ =>
      Ok {| listings := listings db;
            rentals := rentals db;
            transactions := map (fun t => if Nat.eqb (t_id t) id then with_t_status st t else t)
                                (transactions db) |}
  end.

Definition is_active_for (listing : string) (r : Rental) : bool :=
  String.eqb (listingId r) listing && RentalStatus_eqb (r_status r) ACTIVE.

(** [_count.subdomainRentals] restricted to status ACTIVE. *)
Definition countActiveRentals (db : DB) (listing : string) : nat :=
  List.length (filter (is_active_for listing) (rentals db)).

(** [subdomainRental.findFirst({ where: { listingId, subdomain, status: 'ACTIVE' } })] *)
Definition findActiveRental (db : DB) (listing label : string) : option Rental :=
  find (fun r => is_active_for listing r && String.eqb (subdomain r) label) (rentals db).

Definition count_status (st : RentalStatus) (db : DB) : nat :=
  List.length (filter (fun r => RentalStatus_eqb (r_status r) st) (rentals db)).

End Store.

(** ** Handlers as processes over a world *)

Module Proc.

(** A call made on [lib/dns]: the client factory, or an operation of the
    client it returned. *)
Inductive DnsCall : Type :=
| CallFactory (registrar : string)
| CallCreate (record : Dns.DNSRecord)
| CallList (type : option string)
| CallDelete (recordId : string).

Inductive LogLine : Type :=
| LogError (message detail : string)
| LogInfo (message detail : string).

Record World : Type := {
  db : Store.DB;
  dns_calls : list DnsCall;
  console : list LogLine
}.

Definition M (A : Type) : Type := World -> Result A * World.

Definition ret {A} (a : A) : M A := fun w => (Ok a, w).

Definition bind {A B} (m : M A) (k : A -> M B) : M B :=
  fun w => match m w with
           | (Ok a, w') => k a w'
           | (Throw e, w') => (Throw e, w')
           end.

Definition throw {A} (e : string) : M A := fun w => (Throw e, w).

(** [try { m } catch (e) { h e }]: effects made before the fault stay. *)
Definition try_catch {A} (m : M A) (h : string -> M A) : M A :=
  fun w => match m w with
           | (Throw e, w') => h e w'
           | done => done
           end.

(** A pure step that may throw. *)
Definition lift {A} (r : Result A) : M A := fun w => (r, w).

Definition get_db : M Store.DB := fun w => (Ok (db w), w).

Definition put_db (d : Store.DB) : M unit :=
  fun w => (Ok tt, {| db := d; dns_calls := dns_calls w; console := console w |}).

Definition record_call (c : DnsCall) : M unit :=
  fun w => (Ok tt, {| db := db w; dns_calls := (dns_calls w ++ [c])%list; console := console w |}).

Definition log (l : LogLine) : M unit :=
  fun w => (Ok tt, {| db := db w; dns_calls := dns_calls w; console := (console w ++ [l])%list |}).

Declare Scope proc_scope.
Delimit Scope proc_scope with proc.
Notation "x <- c ;; k" := (bind c (fun x => k))
  (at level 61, c at next level, right associativity) : proc_scope.
Notation "c ;;; k" := (bind c (fun _ => k))
  (at level 61, right associativity) : proc_scope.

(** Calls on [lib/dns], entered in the call log before they settle. *)
Definition call_createDNSProvider (factory : string -> string -> Result Dns.DNSProvider)
  (registrar credentials : string) : M Dns.DNSProvider :=
  (record_call (CallFactory registrar) ;;; lift (factory registrar credentials))%proc.

Definition call_createRecord (p : Dns.DNSProvider) (r : Dns.DNSRecord) : M Dns.CreateResult :=
  (record_call (CallCreate r) ;;; lift (Dns.createRecord p r))%proc.

Definition call_listRecords (p : Dns.DNSProvider) (t : option string) : M Dns.ListResult :=
  (record_call (CallList t) ;;; lift (Dns.listRecords p t))%proc.

Definition call_deleteRecord (p : Dns.DNSProvider) (i : string) : M Dns.OpResult :=
  (record_call (CallDelete i) ;;; lift (Dns.deleteRecord p i))%proc.

Definition initial (d : Store.DB) : World :=
  {| db := d; dns_calls := []; console := [] |}.

(** One step of a process, unfolded. *)
Ltac step :=
  cbv beta iota zeta delta
    [bind ret lift throw try_catch get_db put_db record_call log
     call_createDNSProvider call_createRecord call_listRecords call_deleteRecord].

End Proc.

(** ** Stripe webhook handlers ([app/api/webhooks/stripe/route.ts]) *)

Module Webhook.
Import Store Proc.

Record Metadata : Type := {
  md_listingId : string;
  md_renterUserId : string;
  md_subdomain : string;
  md_fullDomain : string;
  md_dnsRecordType : string;
  md_dnsRecordValue : string
}.

(** The fields of a [Stripe.Checkout.Session] the handler reads. *)
Record Session : Type := {
  metadata : option Metadata;
  subscription : option string;
  payment_intent : option string
}.

(** The fields of a retrieved [Stripe.Subscription]: [first_unit_amount]
    is [None] when [items.data[0]] is absent, and holds the optional
    [price.unit_amount] otherwise. *)
Record Subscription : Type := {
  sub_id : string;
  first_unit_amount : option (option Z);
  current_period_start : Z;
  current_period_end : Z
}.

(** A verified [Stripe.Event], by its [type] and the part of
    [data.object] its handler reads. *)
Inductive Event : Type :=
| CheckoutSessionCompleted (session : Session)
| PaymentIntentSucceeded (paymentIntentId : string)
| PaymentIntentFailed (paymentIntentId : string)
| SubscriptionDeleted (subscriptionId : string)
| OtherEvent (type : string).

(** The incoming request: its text and its [stripe-signature] header. *)
Record Request : Type := {
  req_body : string;
  req_signature : option string
}.

(** The JSON answers of the webhook route. *)
Inductive Response : Type :=
| Received
| BadRequest (error : string)
| ProcessingFailed (error : string).

Definition status_code (r : Response) : nat :=
  match r with
  | Received => 200
  | BadRequest _ => 400
  | ProcessingFailed _ => 500
  end.

(** What the handlers reach outside the process: the Stripe client
    ([webhooks.constructEvent] with the configured secret, and
    [subscriptions.retrieve]), the clock read by the two [new Date()], and
    the registrar client factory [createDNSProvider] (which unseals the
    stored credentials and may throw). *)
Record Env : Type := {
  constructEvent : string -> string -> Result Event;
  retrieveSubscription : string -> Result Subscription;
  now_start : Z;
  now_end : Z;
  createDNSProvider : string -> string -> Result Dns.DNSProvider
}.

Definition unit_amount_or_zero (o : option Z) : Z :=
  match o with Some a => a | None => 0%Z end.

Section Handlers.
Variable env : Env.

(** Amount (in cents), subscription id and rental period of a session. *)
Definition billing_of (session : Session)
  : M (Z * option string * Z * Z) :=
  match subscription session with
  | Some s =>
      if Js.truthy (Some s) then
        (sub <- lift (retrieveSubscription env s) ;;
         let amount := match first_unit_amount sub with
                       | Some price => unit_amount_or_zero price
                       | None => 0%Z
                       end in
         ret (amount, Some (sub_id sub),
              (current_period_start sub * 1000)%Z,
              (current_period_end sub * 1000)%Z))%proc
      else ret (0%Z, None, now_start env, now_end env)
  | None => ret (0%Z, None, now_start env, now_end env)
  end.

(** The [try] around the DNS creation: the record id, or [null]. *)
Definition provision (listing : Listing) (md : Metadata) : M (option string) :=
  try_catch
    (dnsProvider <- call_createDNSProvider (createDNSProvider env) (registrar listing)
                      (apiCredentialsEncrypted listing) ;;
     recordResult <- call_createRecord dnsProvider
                       {| Dns.rec_type := md_dnsRecordType md;
                          Dns.rec_name := md_fullDomain md;
                          Dns.rec_content := md_dnsRecordValue md;
                          Dns.rec_ttl := Some 3600;
                          Dns.rec_priority := None |} ;;
     if Dns.cr_success recordResult then
       let dnsRecordId := Js.or_else (Dns.cr_recordId recordResult) None in
       log (LogInfo "DNS record created successfully:"
              (match dnsRecordId with Some i => i | None => "null" end)) ;;;
       ret dnsRecordId
     else
       log (LogError "Failed to create DNS record:"
              (match Dns.cr_error recordResult with Some e => e | None => "undefined" end)) ;;;
       ret None)%proc
    (fun dnsError => (log (LogError "Error creating DNS record:" dnsError) ;;; ret None)%proc).

Definition handleCheckoutSessionCompleted (session : Session) : M unit :=
  try_catch
    (match metadata session with
     | None => log (LogError "No metadata in session" "")
     | Some md =>
         (bill <- billing_of session ;;
          let '(amount, subscriptionId, rentalPeriodStart, rentalPeriodEnd) := bill in
          d <- get_db ;;
          match findListing d (md_listingId md) with
          | None => log (LogError "Listing not found:" (md_listingId md))
          | Some listing =>
              if negb (isVerified listing) then
                log (LogError "Cannot create DNS record for unverified listing:"
                       (md_listingId md))
              else if negb (existsb (String.eqb (md_dnsRecordType md))
                              (allowedRecordTypes listing)) then
                log (LogError "DNS record type not allowed for listing"
                       (md_dnsRecordType md))
              else
                dnsRecordId <- provision listing md ;;
                d <- get_db ;;
                let '(rental, d1) :=
                  createRental d
                    {| r_id := 0;
                       listingId := md_listingId md;
                       renterUserId := md_renterUserId md;
                       subdomain := md_subdomain md;
                       fullDomain := md_fullDomain md;
                       dnsRecordType := md_dnsRecordType md;
                       dnsRecordValue := md_dnsRecordValue md;
                       rentalPeriodStart := rentalPeriodStart;
                       rentalPeriodEnd := rentalPeriodEnd;
                       r_status := ACTIVE;
                       stripeSubscriptionId := subscriptionId |} in
                put_db d1 ;;;
                (match payment_intent session with
                 | Some intent =>
                     if Js.truthy (Some intent) then
                       let '(_, d2) :=
                         createTransaction d1
                           {| t_id := 0;
                              rentalId := r_id rental;
                              amount_cents := amount;
                              stripePaymentIntentId := intent;
                              t_status := COMPLETED |} in
                       put_db d2
                     else ret tt
                 | None => ret tt
                 end) ;;;
                log (LogInfo "Rental created successfully:" "")
          end)%proc
     end)
    (fun error =>
       (log (LogError "Error handling checkout session completed:" error) ;;;
        throw error)%proc).

Definition handlePaymentIntentSucceeded (paymentIntentId : string) : M unit :=
  try_catch
    (d <- get_db ;;
     (match findTransactionByIntent d paymentIntentId with
      | Some transaction =>
          d1 <- lift (updateTransactionStatus d (t_id transaction) COMPLETED) ;;
          put_db d1
      | None => ret tt
      end) ;;;
     log (LogInfo "Payment intent succeeded:" paymentIntentId))%proc
    (fun error =>
       (log (LogError "Error handling payment intent succeeded:" error) ;;;
        throw error)%proc).

Definition handlePaymentIntentFailed (paymentIntentId : string) : M unit :=
  try_catch
    (d <- get_db ;;
     (match findTransactionByIntent d paymentIntentId with
      | Some transaction =>
          d1 <- lift (updateTransactionStatus d (t_id transaction) FAILED) ;;
          put_db d1 ;;;
          d2 <- lift (updateRentalStatus d1 (rentalId transaction) CANCELLED) ;;
          put_db d2
      | None => ret tt
      end) ;;;
     log (LogInfo "Payment intent failed:" paymentIntentId))%proc
    (fun error =>
       (log (LogError "Error handling payment intent failed:" error) ;;;
        throw error)%proc).

(** The callback that picks the record to delete. *)
Definition matches_rental (rental : Rental) (record : Dns.RawRecord) : Result bool :=
  match Dns.recordName record with
  | Some recordName =>
      Ok (String.eqb recordName (fullDomain rental)
          || Js.startsWith (subdomain rental) recordName)
  | None => Throw "Cannot read properties of undefined (reading 'startsWith')"
  end.

Definition record_id_for (rental : Rental) (record : Dns.RawRecord) : string :=
  match Js.or_else (Js.or_else (Dns.raw_id record) (Dns.raw_Id record))
          (Some (fullDomain rental ++ ":" ++ dnsRecordType rental)) with
  | Some i => i
  | None => fullDomain rental ++ ":" ++ dnsRecordType rental
  end.

(** The [try] around the DNS deletion. *)
Definition deprovision (listing : Listing) (rental : Rental) : M unit :=
  try_catch
    (dnsProvider <- call_createDNSProvider (createDNSProvider env) (registrar listing)
                      (apiCredentialsEncrypted listing) ;;
     listResult <- call_listRecords dnsProvider (Some (dnsRecordType rental)) ;;
     match Dns.lr_success listResult, Dns.lr_records listResult with
     | true, Some records =>
         recordToDelete <- lift (Dns.find_throwing (matches_rental rental) records) ;;
         match recordToDelete with
         | Some record =>
             deleteResult <- call_deleteRecord dnsProvider (record_id_for rental record) ;;
             if Dns.op_success deleteResult
             then log (LogInfo "DNS record deleted successfully for:" (fullDomain rental))
             else log (LogError "Failed to delete DNS record:"
                         (match Dns.op_error deleteResult with
                          | Some e => e
                          | None => "undefined"
                          end))
         | None => log (LogInfo "DNS record not found for deletion:" (fullDomain rental))
         end
     | _, _ => ret tt
     end)%proc
    (fun dnsError => log (LogError "Error deleting DNS record:" dnsError)).

Definition handleSubscriptionDeleted (subscriptionId : string) : M unit :=
  try_catch
    (d <- get_db ;;
     match findRentalBySubscription d subscriptionId with
     | None => log (LogInfo "No rental found for subscription:" subscriptionId)
     | Some rental =>
         (* include: { listing: true } *)
         match findListing d (listingId rental) with
         | None => throw "Cannot read properties of null (reading 'isVerified')"
         | Some listing =>
             (if isVerified listing then deprovision listing rental else ret tt) ;;;
             d <- get_db ;;
             d1 <- lift (updateRentalStatus d (r_id rental) CANCELLED) ;;
             put_db d1 ;;;
             log (LogInfo "Subscription deleted and rental cancelled:" subscriptionId)
         end
     end)%proc
    (fun error =>
       (log (LogError "Error handling subscription deleted:" error) ;;;
        throw error)%proc).

(** [POST /api/webhooks/stripe] *)
Definition POST (request : Request) : M Response :=
  try_catch
    (match req_signature request with
     | Some signature =>
         if Js.truthy (Some signature) then
           match constructEvent env (req_body request) signature with
           | Throw message =>
               (log (LogError "Webhook signature verification failed:" message) ;;;
                ret (BadRequest ("Webhook Error: " ++ message)))%proc
           | Ok event =>
               ((match event with
                 | CheckoutSessionCompleted session => handleCheckoutSessionCompleted session
                 | PaymentIntentSucceeded i => handlePaymentIntentSucceeded i
                 | PaymentIntentFailed i => handlePaymentIntentFailed i
                 | SubscriptionDeleted s => handleSubscriptionDeleted s
                 | OtherEvent type => log (LogInfo "Unhandled event type:" type)
                 end) ;;;
                ret Received)%proc
           end
         else ret (BadRequest "Missing stripe-signature header")
     | None => ret (BadRequest "Missing stripe-signature header")
     end)
    (fun error =>
       (log (LogError "Error processing webhook:" error) ;;;
        ret (ProcessingFailed "Webhook processing failed"))%proc).

End Handlers.
End Webhook.

(** ** Availability check ([app/api/check-availability/route.ts]) *)

Module Availability.
Import Store Proc.

Definition is_alnum (c : ascii) : bool :=
  let n := nat_of_ascii c in
  (Nat.leb 48 n && Nat.leb n 57) || (Nat.leb 97 n && Nat.leb n 122)
  || (Nat.leb 65 n && Nat.leb n 90).

Definition is_label_char (c : ascii) : bool := is_alnum c || Ascii.eqb c "-".

(** [[a-z0-9-]*[a-z0-9]$] on the remainder of the label. *)
Fixpoint label_tail (s : string) : bool :=
  match s with
  | EmptyString => false
  | String c EmptyString => is_alnum c
  | String c rest => is_label_char c && label_tail rest
  end.

(** [/^[a-z0-9]([a-z0-9-]*[a-z0-9])?$/i.test(subdomain)] *)
Definition subdomainRegex_test (s : string) : bool :=
  match s with
  | EmptyString => false
  | String c EmptyString => is_alnum c
  | String c rest => is_alnum c && label_tail rest
  end.

Record Body : Type := {
  body_listingId : option string;
  body_subdomain : option string
}.

(** The JSON answers of the route, with their HTTP status. *)
Inductive Response : Type :=
| BadRequest (error : string)
| NotFound (error : string)
| Unavailable (reason : string)
| Available (fullDomain : string) (price : Z) (pricingPeriod : string)
            (allowedRecordTypes : list string)
| ServerError (error : string).

Definition status_code (r : Response) : nat :=
  match r with
  | BadRequest _ => 400
  | NotFound _ => 404
  | Unavailable _ | Available _ _ _ _ => 200
  | ServerError _ => 500
  end.

Definition dns_conflict_reason : string :=
  "A DNS record already exists for this subdomain. Please choose a different name.".

Section Route.
Variable createDNSProvider : string -> string -> Result Dns.DNSProvider.

(** The test the callback applies to a record name. *)
Definition name_conflicts (label : string) (listing : Listing) (recordName : string) : bool :=
  let fullDomain := label ++ "." ++ domainName listing in
  String.eqb recordName fullDomain
  || String.eqb recordName (label ++ "." ++ domainName listing ++ ".")
  || Js.startsWith (label ++ ".") recordName.

(** The callback that looks for a record created outside the system. *)
Definition conflicts (label : string) (listing : Listing) (record : Dns.RawRecord)
  : Result bool :=
  match Dns.recordName record with
  | Some recordName => Ok (name_conflicts label listing recordName)
  | None => Throw "Cannot read properties of undefined (reading 'startsWith')"
  end.

(** The callback as a total test, for listings whose records all carry a name. *)
Definition conflicts_named (label : string) (listing : Listing) (r : Dns.RawRecord) : bool :=
  match Dns.recordName r with
  | Some n => name_conflicts label listing n
  | None => false
  end.

(** The guarded [try]: [Some r] is an early answer, [None] falls through. *)
Definition liveConflictCheck (label : string) (listing : Listing) : M (option Response) :=
  try_catch
    (dnsProvider <- call_createDNSProvider createDNSProvider (registrar listing)
                      (apiCredentialsEncrypted listing) ;;
     dnsResult <- call_listRecords dnsProvider None ;;
     match Dns.lr_success dnsResult, Dns.lr_records dnsResult with
     | true, Some records =>
         conflictingRecord <- lift (Dns.find_throwing (conflicts label listing) records) ;;
         match conflictingRecord with
         | Some _ => ret (Some (Unavailable dns_conflict_reason))
         | None => ret None
         end
     | _, _ => ret None
     end)%proc
    (fun dnsError => (log (LogError "Error checking DNS records:" dnsError) ;;; ret None)%proc).

Definition POST (body : Body) : M Response :=
  try_catch
    (match body_listingId body, body_subdomain body with
     | Some listingId, Some subdomain =>
         if negb (Js.truthy (Some listingId)) || negb (Js.truthy (Some subdomain)) then
           ret (BadRequest "Missing required fields: listingId and subdomain")
         else if negb (subdomainRegex_test subdomain) then
           ret (Unavailable
                  "Invalid subdomain format. Use only alphanumeric characters and hyphens.")
         else
           (d <- get_db ;;
            match findListing d listingId with
            | None => ret (NotFound "Listing not found")
            | Some listing =>
                if negb (String.eqb (l_status listing) "ACTIVE") then
                  ret (Unavailable "This domain listing is not currently active.")
                else if (maxSubdomainsAllowed listing
                           <=? Z.of_nat (countActiveRentals d listingId))%Z then
                  ret (Unavailable "Maximum subdomains reached for this domain.")
                else
                  match findActiveRental d listingId subdomain with
                  | Some _ => ret (Unavailable "This subdomain is already taken.")
                  | None =>
                      let fullDomain := subdomain ++ "." ++ domainName listing in
                      early <- (if isVerified listing
                                then liveConflictCheck subdomain listing
                                else ret None) ;;
                      match early with
                      | Some answer => ret answer
                      | None =>
                          ret (Available fullDomain (pricePerSubdomain listing)
                                 (pricingPeriod listing) (allowedRecordTypes listing))
                      end
                  end
            end)%proc
     | _, _ => ret (BadRequest "Missing required fields: listingId and subdomain")
     end)
    (fun error =>
       (log (LogError "Error checking availability:" error) ;;;
        ret (ServerError "Failed to check availability"))%proc).

End Route.
End Availability.

(** ** Ownership verification route ([app/api/listings/[id]/verify/route.ts]) *)

Module Verify.
Import Store Proc.

(** The row after [data: { isVerified: true, verificationToken: null }]. *)
Definition mark_verified (l : Listing) : Listing :=
  {| l_id := l_id l; domainName := domainName l; registrar := registrar l;
     apiCredentialsEncrypted := apiCredentialsEncrypted l;
     allowedRecordTypes := allowedRecordTypes l;
     maxSubdomainsAllowed := maxSubdomainsAllowed l;
     verificationToken := None; isVerified := true;
     l_status := l_status l; pricePerSubdomain := pricePerSubdomain l;
     pricingPeriod := pricingPeriod l |}.

(** [domainListing.update({ where: { id }, data })]: the updated row; the
    client rejects when no row has the key. *)
Definition updateListingVerified (d : DB) (id : string) : Result (Listing * DB) :=
  match findListing d id with
  | None => Throw "Record to update not found."
  | Some l =>
      Ok (mark_verified l,
          {| listings := map (fun x => if String.eqb (l_id x) id then mark_verified x else x)
                             (listings d);
             rentals := rentals d;
             transactions := transactions d |})
  end.

(** The [instructions] object of the 400 answer. *)
Record Instructions : Type := {
  ins_message : string;
  ins_recordType : string;
  ins_recordName : string;
  ins_recordValue : string;
  ins_note : string
}.

(** The JSON answers of the route. *)
Inductive Response : Type :=
| NotFound (error : string)
| AlreadyVerified (message : string)
| NoToken (error : string)
| Failed (error : string) (instructions : Instructions)
| Verified (message : string) (listing : Listing)
| ServerError (error : string).

Definition status_code (r : Response) : nat :=
  match r with
  | NotFound _ => 404
  | AlreadyVerified _ | Verified _ _ => 200
  | NoToken _ | Failed _ _ => 400
  | ServerError _ => 500
  end.

Definition instructions_for (token : string) : Instructions :=
  {| ins_message := "Please ensure you have added the TXT record to your domain:";
     ins_recordType := "TXT";
     ins_recordName := "_domain-verification";
     ins_recordValue := token;
     ins_note := "DNS propagation may take a few minutes. Please wait and try again." |}.

Section Route.
Variable createDNSProvider : string -> string -> Result Dns.DNSProvider.

(** [POST /api/listings/:id/verify] *)
Definition POST (id : string) : M Response :=
  try_catch
    (d <- get_db ;;
     match findListing d id with
     | None => ret (NotFound "Listing not found")
     | Some listing =>
         if isVerified listing then ret (AlreadyVerified "Domain is already verified")
         else if negb (Js.truthy (verificationToken listing)) then
           ret (NoToken "No verification token found for this listing")
         else
           match verificationToken listing with
           | None => ret (NoToken "No verification token found for this listing")
           | Some token =>
               dnsProvider <- call_createDNSProvider createDNSProvider (registrar listing)
                                (apiCredentialsEncrypted listing) ;;
               verificationResult <- lift (Dns.verifyOwnership dnsProvider token) ;;
               if negb (Dns.op_success verificationResult) then
                 ret (Failed
                        (match Js.or_else (Dns.op_error verificationResult)
                                 (Some "Verification failed") with
                         | Some e => e
                         | None => "Verification failed"
                         end)
                        (instructions_for token))
               else
                 d <- get_db ;;
                 updated <- lift (updateListingVerified d id) ;;
                 put_db (snd updated) ;;;
                 ret (Verified "Domain ownership verified successfully!" (fst updated))
           end
     end)%proc
    (fun error =>
       (log (LogError "Error verifying domain:" error) ;;;
        ret (ServerError "Failed to verify domain ownership"))%proc).

End Route.
End Verify.

(** ** Rental routes ([app/api/rentals/route.ts], [app/api/rentals/[id]/route.ts]) *)

Module Rentals.
Import Store.

(** The columns of [User] the routes read and write. *)
Record User : Type := {
  u_id : string;
  u_email : string;
  stripeCustomerId : option string
}.

(** The fields of the request body the route destructures. *)
Record Body : Type := {
  rq_listingId : option string;
  rq_renterUserId : option string;
  rq_subdomain : option string;
  rq_dnsRecordType : option string;
  rq_dnsRecordValue : option string
}.

(** The argument of [stripe.checkout.sessions.create]. *)
Record CheckoutParams : Type := {
  cp_customer : string;
  cp_payment_method_types : list string;
  cp_currency : string;
  cp_product_name : string;
  cp_product_description : string;
  cp_unit_amount : Z;
  cp_interval : string;
  cp_quantity : nat;
  cp_mode : string;
  cp_success_url : string;
  cp_cancel_url : string;
  cp_metadata : Webhook.Metadata
}.

(** Calls made on the Stripe client, entered before they settle. *)
Inductive StripeCall : Type :=
| CustomerCreate (email userId : string)
| SessionCreate (params : CheckoutParams)
| SubscriptionCancel (subscriptionId : string).

(** What the routes reach outside the process: the Stripe client, the
    conversion [Math.round(Number(price) * 100)] of the stored decimal,
    [String.prototype.toLowerCase] and [process.env.NEXT_PUBLIC_APP_URL]. *)
Record Env : Type := {
  customers_create : string -> string -> Result string;
  sessions_create : CheckoutParams -> Result (string * option string);
  subscriptions_cancel : string -> Result unit;
  cents : Z -> Z;
  toLowerCase : string -> string;
  app_url : option string
}.

(** The [User] table, the Stripe call log and the console. *)
Record State : Type := {
  users : list User;
  stripe_calls : list StripeCall;
  console : list Proc.LogLine
}.

Definition record_call (c : StripeCall) (st : State) : State :=
  {| users := users st; stripe_calls := (stripe_calls st ++ [c])%list;
     console := console st |}.

Definition log (l : Proc.LogLine) (st : State) : State :=
  {| users := users st; stripe_calls := stripe_calls st;
     console := (console st ++ [l])%list |}.

(** [user.findUnique({ where: { id } })] *)
Definition findUser (st : State) (id : string) : option User :=
  find (fun u => String.eqb (u_id u) id) (users st).

(** [user.update({ where: { id }, data: { stripeCustomerId } })] *)
Definition set_customer (id customer : string) (st : State) : State :=
  {| users := map (fun u => if String.eqb (u_id u) id
                            then {| u_id := u_id u; u_email := u_email u;
                                    stripeCustomerId := Some customer |}
                            else u)
                  (users st);
     stripe_calls := stripe_calls st;
     console := console st |}.

(** The JSON answers of the rental routes. *)
Inductive Response : Type :=
| BadRequest (error : string)
| NotFound (error : string)
| Conflict (error : string)
| Created (sessionId : string) (sessionUrl : option string)
| Cancelled (message : string) (rental : Rental)
| ServerError (error : string).

Definition status_code (r : Response) : nat :=
  match r with
  | BadRequest _ => 400
  | NotFound _ => 404
  | Conflict _ => 409
  | Created _ _ | Cancelled _ _ => 200
  | ServerError _ => 500
  end.

Section Routes.
Variable env : Env.

Definition base_url : string :=
  match Js.or_else (app_url env) (Some "http://localhost:3000") with
  | Some u => u
  | None => "http://localhost:3000"
  end.

(** The session the route asks for. *)
Definition checkout_params (listing : Listing) (customerId listingId renterUserId subdomain
                              dnsRecordType dnsRecordValue : string) : CheckoutParams :=
  let fullDomain := subdomain ++ "." ++ domainName listing in
  {| cp_customer := customerId;
     cp_payment_method_types := ["card"];
     cp_currency := "usd";
     cp_product_name := "Subdomain: " ++ fullDomain;
     cp_product_description := toLowerCase env (pricingPeriod listing) ++ " subdomain rental";
     cp_unit_amount := cents env (pricePerSubdomain listing);
     cp_interval := if String.eqb (pricingPeriod listing) "MONTHLY" then "month" else "year";
     cp_quantity := 1;
     cp_mode := "subscription";
     cp_success_url := base_url ++ "/rentals/success?session_id={CHECKOUT_SESSION_ID}";
     cp_cancel_url := base_url ++ "/listings/" ++ listingId;
     cp_metadata := {| Webhook.md_listingId := listingId;
                       Webhook.md_renterUserId := renterUserId;
                       Webhook.md_subdomain := subdomain;
                       Webhook.md_fullDomain := fullDomain;
                       Webhook.md_dnsRecordType := dnsRecordType;
                       Webhook.md_dnsRecordValue := dnsRecordValue |} |}.

(** [error.message || 'Failed to create rental'] *)
Definition failure_of (message : string) : Response :=
  ServerError (if String.eqb message "" then "Failed to create rental" else message).

(** Get or create the Stripe customer of the renter. *)
Definition create_customer (renter : User) (st : State) : Result string * State :=
  let st1 := record_call (CustomerCreate (u_email renter) (u_id renter)) st in
  match customers_create env (u_email renter) (u_id renter) with
  | Throw m => (Throw m, st1)
  | Ok customerId => (Ok customerId, set_customer (u_id renter) customerId st1)
  end.

Definition ensure_customer (renter : User) (st : State) : Result string * State :=
  match stripeCustomerId renter with
  | Some c => if Js.truthy (Some c) then (Ok c, st) else create_customer renter st
  | None => create_customer renter st
  end.

(** [POST /api/rentals] *)
Definition POST (d : DB) (body : Body) (st : State) : Response * State :=
  match rq_listingId body, rq_renterUserId body, rq_subdomain body,
        rq_dnsRecordType body, rq_dnsRecordValue body with
  | Some listingId, Some renterUserId, Some subdomain, Some dnsRecordType,
    Some dnsRecordValue =>
      if negb (Js.truthy (Some listingId)) || negb (Js.truthy (Some renterUserId))
         || negb (Js.truthy (Some subdomain)) || negb (Js.truthy (Some dnsRecordType))
         || negb (Js.truthy (Some dnsRecordValue))
      then (BadRequest "Missing required fields", st)
      else
        match findListing d listingId with
        | None => (NotFound "Listing not found", st)
        | Some listing =>
            if negb (String.eqb (l_status listing) "ACTIVE") then
              (BadRequest "Listing is not active", st)
            else
              match findActiveRental d listingId subdomain with
              | Some _ => (Conflict "Subdomain is already rented", st)
              | None =>
                  if (maxSubdomainsAllowed listing
                        <=? Z.of_nat (countActiveRentals d listingId))%Z then
                    (BadRequest "Maximum subdomains reached for this domain", st)
                  else
                    match findUser st renterUserId with
                    | None => (NotFound "Renter user not found", st)
                    | Some renter =>
                        match ensure_customer renter st with
                        | (Throw m, st1) =>
                            (failure_of m,
                             log (Proc.LogError "Error creating rental:" m) st1)
                        | (Ok customerId, st1) =>
                            let params :=
                              checkout_params listing customerId listingId renterUserId
                                subdomain dnsRecordType dnsRecordValue in
                            let st2 := record_call (SessionCreate params) st1 in
                            match sessions_create env params with
                            | Throw m =>
                                (failure_of m,
                                 log (Proc.LogError "Error creating rental:" m) st2)
                            | Ok (sessionId, sessionUrl) =>
                                (Created sessionId sessionUrl, st2)
                            end
                        end
                    end
              end
        end
  | _, _, _, _, _ => (BadRequest "Missing required fields", st)
  end.

(** The guarded [stripe.subscriptions.cancel] of the cancellation. *)
Definition cancel_subscription (rental : Rental) (st : State) : State :=
  match stripeSubscriptionId rental with
  | Some s =>
      if Js.truthy (Some s) then
        let st1 := record_call (SubscriptionCancel s) st in
        match subscriptions_cancel env s with
        | Ok _ => st1
        | Throw m => log (Proc.LogError "Error cancelling Stripe subscription:" m) st1
        end
      else st
  | None => st
  end.

(** [DELETE /api/rentals/:id] *)
Definition DELETE (id : nat) (d : DB) (st : State) : Response * DB * State :=
  match findRental d id with
  | None => (NotFound "Rental not found", d, st)
  | Some rental =>
      let st1 := cancel_subscription rental st in
      match updateRentalStatus d id CANCELLED with
      | Ok d1 =>
          (Cancelled "Rental cancelled successfully" (with_status CANCELLED rental), d1, st1)
      | Throw m =>
          (ServerError "Failed to cancel rental", d,
           log (Proc.LogError "Error cancelling rental:" m) st1)
      end
  end.

End Routes.
End Rentals.

(** ** Listing creation route ([app/api/listings/route.ts], [POST]) *)

Module Listings.
Import Store.

(** The fields of the request body the route destructures.  A number
    that is absent reads [None]; [lb_allowedRecordTypes] is [None] when
    the field is absent or no array. *)
Record Body : Type := {
  lb_userId : option string;
  lb_domainName : option string;
  lb_pricePerSubdomain : option Z;
  lb_pricingPeriod : option string;
  lb_registrar : option string;
  lb_apiCredentials : option Dns.Factory.JsonObject;
  lb_allowedRecordTypes : option (list string);
  lb_maxSubdomainsAllowed : option Z
}.

(** The [verificationInstructions] of the 201 answer. *)
Record Instructions : Type := {
  vi_recordType : string;
  vi_recordName : string;
  vi_recordValue : string;
  vi_nextStep : string
}.

Inductive Response : Type :=
| BadRequest (error : string)
| Created (listing : Listing) (verificationInstructions : Instructions)
| Conflict (error : string)
| ServerError (error : string).

Definition status_code (r : Response) : nat :=
  match r with
  | BadRequest _ => 400
  | Created _ _ => 201
  | Conflict _ => 409
  | ServerError _ => 500
  end.

Definition validRecordTypes : list string := ["A"; "AAAA"; "CNAME"; "TXT"; "MX"; "NS"].

(** Truthiness of a number: [0] is falsy. *)
Definition truthy_number (n : Z) : bool := negb (n =? 0)%Z.

(** [domainListing.create({ data })]: the inserted row, or the rejection
    with code [P2002] of a domain name that is already listed.  The
    columns [userId] and [zoneId] are not part of [Listing]: no modelled
    handler reads them. *)
Inductive CreateOutcome : Type :=
| Inserted (row : Listing) (d : DB)
| UniqueViolation.

Definition createListing (d : DB) (row : Listing) : CreateOutcome :=
  if existsb (fun l => String.eqb (domainName l) (domainName row)) (listings d)
  then UniqueViolation
  else Inserted row {| listings := (listings d ++ [row])%list;
                       rentals := rentals d;
                       transactions := transactions d |}.

Definition instructions_for (token id : string) : Instructions :=
  {| vi_recordType := "TXT";
     vi_recordName := "_domain-verification";
     vi_recordValue := token;
     vi_nextStep := "After adding the TXT record, call POST /api/listings/" ++ id
                    ++ "/verify to complete verification." |}.

Section Route.
Context {cipher : Encryption.AesGcm}.
(** The process key, [JSON.parse] and the registrars behind [lib/dns];
    [JSON.stringify], [String.prototype.toUpperCase] and the column default
    of [status]. *)
Variable env_key : option string.
Variable JSON_parse : string -> Result Dns.Factory.JsonObject.
Variable cloudflare : Dns.Cloudflare.Network.
Variable namecheap : Dns.Namecheap.Request -> Result string.
Variable JSON_stringify : Dns.Factory.JsonObject -> string.
Variable toUpperCase : string -> string.
Variable default_status : string.

(** [POST /api/listings], with the draws of [randomBytes] (for the seal
    and for the token) and the generated key made explicit. *)
Definition POST (body : Body) (iv salt token_bytes : list byte) (new_id : string) (d : DB)
  : Response * DB :=
  match lb_userId body, lb_domainName body, lb_pricePerSubdomain body,
        lb_registrar body, lb_apiCredentials body, lb_maxSubdomainsAllowed body with
  | Some userId, Some name, Some price, Some registrarTag, Some apiCredentials,
    Some maxAllowed =>
      if negb (Js.truthy (Some userId)) || negb (Js.truthy (Some name))
         || negb (truthy_number price) || negb (Js.truthy (Some registrarTag))
         || negb (truthy_number maxAllowed)
      then (BadRequest "Missing required fields", d)
      else
        match lb_allowedRecordTypes body with
        | None | Some [] => (BadRequest "allowedRecordTypes must be a non-empty array", d)
        | Some types =>
            let invalidTypes :=
              filter (fun t => negb (existsb (String.eqb t) validRecordTypes)) types in
            if Nat.ltb 0 (List.length invalidTypes) then
              (BadRequest ("Invalid record types: " ++ Js.join ", " invalidTypes), d)
            else
              match Encryption.encrypt env_key iv salt (JSON_stringify apiCredentials) with
              | Throw m => (ServerError "Failed to create listing", d)
              | Ok encryptedCredentials =>
                  let credentialsValid :=
                    Dns.Factory.validateCredentials env_key JSON_parse cloudflare namecheap
                      (toUpperCase registrarTag) encryptedCredentials in
                  if negb (Dns.Factory.valid credentialsValid) then
                    (BadRequest
                       ("Invalid API credentials: "
                        ++ match Dns.Factory.validation_error credentialsValid with
                           | Some e => e
                           | None => "undefined"
                           end), d)
                  else
                    let token := Encryption.toHex token_bytes in
                    match createListing d
                            {| l_id := new_id;
                               domainName := name;
                               registrar := toUpperCase registrarTag;
                               apiCredentialsEncrypted := encryptedCredentials;
                               allowedRecordTypes := types;
                               maxSubdomainsAllowed := maxAllowed;
                               verificationToken := Some token;
                               isVerified := false;
                               l_status := default_status;
                               pricePerSubdomain := price;
                               pricingPeriod :=
                                 match Js.or_else (lb_pricingPeriod body) (Some "MONTHLY") with
                                 | Some period => period
                                 | None => "MONTHLY"
                                 end |} with
                    | UniqueViolation => (Conflict "Domain name already exists", d)
                    | Inserted row d1 => (Created row (instructions_for token (l_id row)), d1)
                    end
              end
        end
  | _, _, _, _, _, _ => (BadRequest "Missing required fields", d)
  end.

End Route.
End Listings.

(** ** Vocabulary for the statements *)

Module Text.

(** Number of occurrences of a character. *)
Fixpoint count_char (c : ascii) (s : string) : nat :=
  match s with
  | EmptyString => 0
  | String d rest => (if Ascii.eqb d c then 1 else 0) + count_char c rest
  end.

(** The value of a query parameter of a Query-API request. *)
Definition param_of (key : string) (req : Dns.Namecheap.Request) : option string :=
  option_map snd (find (fun kv => String.eqb (fst kv) key) req).

(** The message of a Token-REST exchange that did not go through: the
    fault of the exchange itself, or, for an answer whose status or whose
    [success] flag is negative, the provider's first error message when it
    has one and the generic message otherwise. *)
Definition refused_with {P} (r : Result (Dns.Cloudflare.Response P)) (message : string)
  : Prop :=
  match r with
  | Throw fault => message = fault
  | Ok resp =>
      (Dns.Cloudflare.resp_ok resp = false \/ Dns.Cloudflare.data_success resp = false)
      /\ message = match Dns.Cloudflare.data_first_error resp with
                   | Some e => if String.eqb e "" then "Cloudflare API request failed" else e
                   | None => "Cloudflare API request failed"
                   end
  end.

(** What the webhook may do to the rentals and listings of a store: the
    listings stay, and every rental row stays as it is or with its status
    set to Cancelled. *)
Definition keeps_rentals (before after : Store.DB) : Prop :=
  Store.listings after = Store.listings before
  /\ forall r, In r (Store.rentals before) ->
               In r (Store.rentals after)
               \/ In (Store.with_status Store.CANCELLED r) (Store.rentals after).

(** The test of [handleSubscriptionDeleted] on a record that carries a
    name: the name is the rental's full domain, or starts with its label. *)
Definition matches_named (rental : Store.Rental) (record : Dns.RawRecord) : bool :=
  match Dns.recordName record with
  | Some name =>
      String.eqb name (Store.fullDomain rental)
      || Js.startsWith (Store.subdomain rental) name
  | None => false
  end.

(** Rentals with status Active for a listing and a label. *)
Definition active_rentals_for (listing label : string) (d : Store.DB) : list Store.Rental :=
  filter (fun r => Store.is_active_for listing r && String.eqb (Store.subdomain r) label)
         (Store.rentals d).

(** The writes the webhook handlers make on the store. *)
Inductive store_write : Store.DB -> Store.DB -> Prop :=
| write_createRental d data :
    store_write d (snd (Store.createRental d data))
| write_createTransaction d data :
    store_write d (snd (Store.createTransaction d data))
| write_cancelRental d id d' :
    Store.updateRentalStatus d id Store.CANCELLED = Ok d' -> store_write d d'
| write_transactionStatus d id st d' :
    Store.updateTransactionStatus d id st = Ok d' -> store_write d d'.

(** A store reached by a sequence of such writes. *)
Inductive evolves : Store.DB -> Store.DB -> Prop :=
| evolves_refl d : evolves d d
| evolves_step d d' d'' : evolves d d' -> store_write d' d'' -> evolves d d''.

(** The data [handleCheckoutSessionCompleted] hands to
    [subdomainRental.create] and to [transaction.create], and the record it
    asks the registrar for. *)
Definition rental_data (md : Webhook.Metadata) (subscriptionId : option string)
  (periodStart periodEnd : Z) : Store.Rental :=
  {| Store.r_id := 0;
     Store.listingId := Webhook.md_listingId md;
     Store.renterUserId := Webhook.md_renterUserId md;
     Store.subdomain := Webhook.md_subdomain md;
     Store.fullDomain := Webhook.md_fullDomain md;
     Store.dnsRecordType := Webhook.md_dnsRecordType md;
     Store.dnsRecordValue := Webhook.md_dnsRecordValue md;
     Store.rentalPeriodStart := periodStart;
     Store.rentalPeriodEnd := periodEnd;
     Store.r_status := Store.ACTIVE;
     Store.stripeSubscriptionId := subscriptionId |}.

Definition transaction_data (rental : nat) (amount : Z) (intent : string)
  : Store.Transaction :=
  {| Store.t_id := 0; Store.rentalId := rental; Store.amount_cents := amount;
     Store.stripePaymentIntentId := intent; Store.t_status := Store.COMPLETED |}.

Definition requested_record (md : Webhook.Metadata) : Dns.DNSRecord :=
  {| Dns.rec_type := Webhook.md_dnsRecordType md;
     Dns.rec_name := Webhook.md_fullDomain md;
     Dns.rec_content := Webhook.md_dnsRecordValue md;
     Dns.rec_ttl := Some 3600;
     Dns.rec_priority := None |}.

(** The two writes of a checkout that passed the checks. *)
Definition checkout_writes (d : Store.DB) (md : Webhook.Metadata) (amount : Z)
  (subscriptionId : option string) (periodStart periodEnd : Z) (intent : option string)
  : Store.DB :=
  let created := Store.createRental d (rental_data md subscriptionId periodStart periodEnd) in
  match intent with
  | Some i =>
      if Js.truthy (Some i)
      then snd (Store.createTransaction (snd created)
                  (transaction_data (Store.r_id (fst created)) amount i))
      else snd created
  | None => snd created
  end.

(** The handler the route runs for an event. *)
Definition dispatch (env : Webhook.Env) (event : Webhook.Event) : Proc.M unit :=
  match event with
  | Webhook.CheckoutSessionCompleted session =>
      Webhook.handleCheckoutSessionCompleted env session
  | Webhook.PaymentIntentSucceeded i => Webhook.handlePaymentIntentSucceeded i
  | Webhook.PaymentIntentFailed i => Webhook.handlePaymentIntentFailed i
  | Webhook.SubscriptionDeleted s => Webhook.handleSubscriptionDeleted env s
  | Webhook.OtherEvent type => Proc.log (Proc.LogInfo "Unhandled event type:" type)
  end.

End Text.

(** ** Sample deployments

    Concrete inputs on which the model is run: a listing for
    [example.com] with one rental of [blog], registrars that answer or
    refuse, and a sealed credential. *)

Module Samples.

Definition sample_key : string := "0123456789abcdef0123456789abcdefXYZ".
(** A key of 32 characters none of which is ASCII: 32 times U+00E9. *)
Definition accented_key : string := string_of_list_ascii (repeat (ascii_of_nat 233) 32).
Definition sample_iv : list byte := repeat x2a 16.
Definition sample_salt : list byte := repeat x00 64.
Definition sample_plaintext : string := "{'apiToken':'t0k3n','zoneId':'z1'}".

(** A Token-REST zone that answers every listing with the given records. *)
Definition zone_with (records : list Dns.CfRecord) : Dns.Cloudflare.Network :=
  {| Dns.Cloudflare.fetch_list := fun _ =>
       Ok {| Dns.Cloudflare.resp_ok := true; Dns.Cloudflare.data_success := true;
             Dns.Cloudflare.data_first_error := None;
             Dns.Cloudflare.data_result := records |};
     Dns.Cloudflare.fetch_one := fun _ => Throw "not used" |}.

(** A Token-REST registrar that refuses every exchange. *)
Definition refusing_network : Dns.Cloudflare.Network :=
  {| Dns.Cloudflare.fetch_list := fun _ => Throw "fetch failed";
     Dns.Cloudflare.fetch_one := fun _ => Throw "fetch failed" |}.

Definition cloudflare_credentials : Dns.Cloudflare.Credentials :=
  {| Dns.Cloudflare.apiToken := "cf-token"; Dns.Cloudflare.zoneId := "zone1" |}.

Definition aws_credentials : Dns.Route53.Credentials :=
  {| Dns.Route53.accessKeyId := "AKIA"; Dns.Route53.secretAccessKey := "s";
     Dns.Route53.hostedZoneId := "Z1"; Dns.Route53.region := None |}.

Definition namecheap_credentials : Dns.Namecheap.Credentials :=
  {| Dns.Namecheap.apiKey := "k"; Dns.Namecheap.apiUser := "u";
     Dns.Namecheap.username := "u"; Dns.Namecheap.clientIp := "203.0.113.9" |}.

(** A published ownership challenge. *)
Definition challenge (value : string) : Dns.CfRecord :=
  {| Dns.cf_id := "rec-" ++ value; Dns.cf_type := "TXT";
     Dns.cf_name := "_domain-verification.example.com"; Dns.cf_content := value |}.

(** A record for [blog.example.com] created outside the system. *)
Definition outside_record : Dns.CfRecord :=
  {| Dns.cf_id := "rec_77"; Dns.cf_type := "A";
     Dns.cf_name := "blog.example.com"; Dns.cf_content := "203.0.113.5" |}.

(** A Query-API registrar whose zone already lists the host [www]. *)
Definition zone_with_www (req : Dns.Namecheap.Request) : Result string :=
  match Dns.Namecheap.command_of req with
  | Some c =>
      if String.eqb c Dns.Namecheap.getHosts
      then Ok "<ApiResponse Status='OK'><host Name='www' Type='A' Address='198.51.100.7'/></ApiResponse>"
      else Ok "<ApiResponse Status='OK'/>"
  | None => Throw "no command"
  end.

Definition blog_record : Dns.DNSRecord :=
  {| Dns.rec_type := "A"; Dns.rec_name := "blog.example.com";
     Dns.rec_content := "192.0.2.1"; Dns.rec_ttl := Some 3600; Dns.rec_priority := None |}.

Definition example_listing (verified : bool) : Store.Listing :=
  {| Store.l_id := "lst_1"; Store.domainName := "example.com";
     Store.registrar := "CLOUDFLARE"; Store.apiCredentialsEncrypted := "sealed";
     Store.allowedRecordTypes := ["A"]; Store.maxSubdomainsAllowed := 5%Z;
     Store.verificationToken := None; Store.isVerified := verified;
     Store.l_status := "ACTIVE"; Store.pricePerSubdomain := 10%Z;
     Store.pricingPeriod := "MONTHLY" |}.

Definition blog_rental (st : Store.RentalStatus) : Store.Rental :=
  {| Store.r_id := 7; Store.listingId := "lst_1"; Store.renterUserId := "usr_2";
     Store.subdomain := "blog"; Store.fullDomain := "blog.example.com";
     Store.dnsRecordType := "A"; Store.dnsRecordValue := "192.0.2.1";
     Store.rentalPeriodStart := 0%Z; Store.rentalPeriodEnd := 2592000000%Z;
     Store.r_status := st; Store.stripeSubscriptionId := Some "sub_9" |}.

Definition store_with (verified : bool) (rs : list Store.Rental) : Proc.World :=
  Proc.initial {| Store.listings := [example_listing verified]; Store.rentals := rs;
                  Store.transactions := [] |}.

(** A client factory over a Token-REST zone. *)
Definition zone_factory (net : Dns.Cloudflare.Network) (registrar credentials : string)
  : Result Dns.DNSProvider :=
  Ok (Dns.Cloudflare.provider net cloudflare_credentials).

(** The world around the webhook when the registrar refuses every exchange. *)
Definition refusing_env : Webhook.Env :=
  {| Webhook.constructEvent := fun body _ =>
       if String.eqb body "evt_deleted" then Ok (Webhook.SubscriptionDeleted "sub_9")
       else Throw "No signatures found matching the expected signature for payload";
     Webhook.retrieveSubscription := fun s =>
       Ok {| Webhook.sub_id := s; Webhook.first_unit_amount := Some (Some 1000%Z);
             Webhook.current_period_start := 1700000000%Z;
             Webhook.current_period_end := 1702592000%Z |};
     Webhook.now_start := 0%Z; Webhook.now_end := 0%Z;
     Webhook.createDNSProvider := zone_factory refusing_network |}.

Definition blog_metadata (kind : string) : Webhook.Metadata :=
  {| Webhook.md_listingId := "lst_1"; Webhook.md_renterUserId := "usr_2";
     Webhook.md_subdomain := "blog"; Webhook.md_fullDomain := "blog.example.com";
     Webhook.md_dnsRecordType := kind; Webhook.md_dnsRecordValue := "192.0.2.1" |}.

Definition subscription_checkout (kind : string) (intent : option string) : Webhook.Session :=
  {| Webhook.metadata := Some (blog_metadata kind); Webhook.subscription := Some "sub_9";
     Webhook.payment_intent := intent |}.


Definition blog_request : Availability.Body :=
  {| Availability.body_listingId := Some "lst_1";
     Availability.body_subdomain := Some "blog" |}.

End Samples.

(** ** Further sample inputs *)

Module MoreSamples.
Import Samples.

(** The answer of the Query-API registrar to a request it refuses. *)
Definition refused_pre : string :=
  "<ApiResponse Status=" ++ Js.dq ++ "ERROR" ++ Js.dq ++ ">".
Definition refused_attrs : string := " Number=" ++ Js.dq ++ "2019166" ++ Js.dq.
Definition refused_answer : string :=
  refused_pre ++ "<Errors>" ++ " " ++ "<Error" ++ refused_attrs ++ ">"
  ++ "Domain name not found" ++ "</Error>" ++ "</Errors></ApiResponse>".

Definition refusing_registrar (req : Dns.Namecheap.Request) : Result string :=
  Ok refused_answer.

Definition unreachable_registrar (req : Dns.Namecheap.Request) : Result string :=
  Throw "fetch failed".

(** A Token-REST registrar that answers every request with an
    authentication error. *)
Definition unauthorized {P} (result : P) : Dns.Cloudflare.Response P :=
  {| Dns.Cloudflare.resp_ok := false; Dns.Cloudflare.data_success := false;
     Dns.Cloudflare.data_first_error := Some "Authentication error";
     Dns.Cloudflare.data_result := result |}.

Definition unauthorized_network : Dns.Cloudflare.Network :=
  {| Dns.Cloudflare.fetch_list := fun _ => Ok (unauthorized []);
     Dns.Cloudflare.fetch_one := fun _ => Ok (unauthorized (challenge "")) |}.

Definition decoded_credentials : Dns.Factory.JsonObject :=
  [("apiToken", "t0k3n"); ("zoneId", "z1")].

Definition decode (text : string) : Result Dns.Factory.JsonObject := Ok decoded_credentials.

(** A store in which the rental of [blog] was paid with [pi_3]. *)
Definition blog_payment : Store.Transaction :=
  {| Store.t_id := 1; Store.rentalId := 7; Store.amount_cents := 1000%Z;
     Store.stripePaymentIntentId := "pi_3"; Store.t_status := Store.COMPLETED |}.

Definition paid_store : Proc.World :=
  Proc.initial {| Store.listings := [example_listing true];
                  Store.rentals := [blog_rental Store.ACTIVE];
                  Store.transactions := [blog_payment] |}.

(** The deliveries of a checkout for [blog], with and without a
    subscription, next to that of the cancellation. *)
Definition one_time_checkout : Webhook.Session :=
  {| Webhook.metadata := Some (blog_metadata "A"); Webhook.subscription := None;
     Webhook.payment_intent := Some "pi_3" |}.

Definition checkout_delivery : Webhook.Request :=
  {| Webhook.req_body := "evt_checkout"; Webhook.req_signature := Some "t=1,v1=5257a8" |}.

Definition events (body signature : string) : Result Webhook.Event :=
  if String.eqb body "evt_checkout"
  then Ok (Webhook.CheckoutSessionCompleted (subscription_checkout "A" (Some "pi_3")))
  else if String.eqb body "evt_deleted" then Ok (Webhook.SubscriptionDeleted "sub_9")
  else Throw "No signatures found matching the expected signature for payload".

(** The world around the webhook over a zone that lists the given records;
    [reachable] tells whether the payment service answers. *)
Definition zone_env (reachable : bool) (records : list Dns.CfRecord) : Webhook.Env :=
  {| Webhook.constructEvent := events;
     Webhook.retrieveSubscription := fun s =>
       if reachable
       then Ok {| Webhook.sub_id := s; Webhook.first_unit_amount := Some (Some 1000%Z);
                  Webhook.current_period_start := 1700000000%Z;
                  Webhook.current_period_end := 1702592000%Z |}
       else Throw "An error occurred with our connection to Stripe.";
     Webhook.now_start := 1700000000000%Z; Webhook.now_end := 1700000000001%Z;
     Webhook.createDNSProvider := zone_factory (zone_with records) |}.

(** The record of the longer label [blogger], listed before that of [blog]. *)
Definition blogger_record : Dns.CfRecord :=
  {| Dns.cf_id := "rec_12"; Dns.cf_type := "A";
     Dns.cf_name := "blogger.example.com"; Dns.cf_content := "198.51.100.20" |}.

Definition mail_record : Dns.CfRecord :=
  {| Dns.cf_id := "rec_3"; Dns.cf_type := "A";
     Dns.cf_name := "mail.example.com"; Dns.cf_content := "198.51.100.3" |}.

(** A listing that still waits for its ownership challenge [tok]. *)
Definition pending_listing (tag sealed : string) : Store.Listing :=
  {| Store.l_id := "lst_1"; Store.domainName := "example.com";
     Store.registrar := tag; Store.apiCredentialsEncrypted := sealed;
     Store.allowedRecordTypes := ["A"]; Store.maxSubdomainsAllowed := 5%Z;
     Store.verificationToken := Some "tok"; Store.isVerified := false;
     Store.l_status := "ACTIVE"; Store.pricePerSubdomain := 10%Z;
     Store.pricingPeriod := "MONTHLY" |}.

Definition pending_store (tag sealed : string) : Proc.World :=
  Proc.initial {| Store.listings := [pending_listing tag sealed]; Store.rentals := [];
                  Store.transactions := [] |}.

(** The payment service as the rental routes meet it, and a renter who
    already has a customer there. *)
Definition stripe_env : Rentals.Env :=
  {| Rentals.customers_create := fun _ _ => Ok "cus_new";
     Rentals.sessions_create := fun _ => Ok ("cs_1", Some "https://checkout.stripe.com/c/cs_1");
     Rentals.subscriptions_cancel := fun _ => Throw "No such subscription";
     Rentals.cents := fun price => (price * 100)%Z;
     Rentals.toLowerCase := fun s => if String.eqb s "MONTHLY" then "monthly" else s;
     Rentals.app_url := None |}.

Definition renters : Rentals.State :=
  {| Rentals.users := [{| Rentals.u_id := "usr_2"; Rentals.u_email := "renter@example.org";
                          Rentals.stripeCustomerId := Some "cus_7" |}];
     Rentals.stripe_calls := [];
     Rentals.console := [] |}.

(** A submission to the listing creation route. *)
Definition upper (s : string) : string :=
  if String.eqb s "cloudflare" then "CLOUDFLARE" else s.

Definition listing_submission (tag : string) : Listings.Body :=
  {| Listings.lb_userId := Some "usr_1";
     Listings.lb_domainName := Some "example.net";
     Listings.lb_pricePerSubdomain := Some 10%Z;
     Listings.lb_pricingPeriod := None;
     Listings.lb_registrar := Some tag;
     Listings.lb_apiCredentials := Some decoded_credentials;
     Listings.lb_allowedRecordTypes := Some ["A"; "CNAME"];
     Listings.lb_maxSubdomainsAllowed := Some 5%Z |}.

End MoreSamples.

(** * Properties *)

(** ** String and hexadecimal lemmas *)

Module JsFacts.
Import Js.

Lemma mem_char_app c a b :
  mem_char c (a ++ b) = mem_char c a || mem_char c b.
Proof.
  induction a as [|d a IH]; simpl; [reflexivity|].
  rewrite IH. now rewrite orb_assoc.
Qed.

Lemma split_colon_free sep a :
  mem_char sep a = false -> split sep a = [a].
Proof.
  induction a as [|c a IH]; simpl; intros H; [reflexivity|].
  apply orb_false_iff in H as [Hc Ha].
  rewrite Hc, (IH Ha). reflexivity.
Qed.

Lemma split_app sep a b :
  mem_char sep a = false ->
  split sep (a ++ String sep b) = a :: split sep b.
Proof.
  induction a as [|c a IH]; simpl; intros H.
  - now rewrite Ascii.eqb_refl.
  - apply orb_false_iff in H as [Hc Ha].
    rewrite Hc, (IH Ha). reflexivity.
Qed.

Lemma split_nonempty sep s : split sep s <> [].
Proof.
  destruct s as [|c s]; simpl; [discriminate|].
  destruct (Ascii.eqb c sep); [discriminate|].
  destruct (split sep s); discriminate.
Qed.

(** A separator inside a field adds a part. *)
Lemma split_length_app sep a b :
  List.length (split sep (a ++ String sep b))
  = List.length (split sep a) + List.length (split sep b).
Proof.
  induction a as [|c a IH]; simpl.
  - now rewrite Ascii.eqb_refl.
  - destruct (Ascii.eqb c sep); simpl.
    + now rewrite IH.
    + pose proof (split_nonempty sep (a ++ String sep b)) as Hne.
      pose proof (split_nonempty sep a) as Hna.
      destruct (split sep (a ++ String sep b)) eqn:E1; [contradiction|].
      destruct (split sep a) eqn:E2; [contradiction|].
      simpl in *. exact IH.
Qed.

Lemma mem_char_split_length sep s :
  mem_char sep s = true -> 2 <= List.length (split sep s).
Proof.
  induction s as [|c s IH]; simpl; [discriminate|].
  intros H. destruct (Ascii.eqb c sep) eqn:E; simpl.
  - pose proof (split_nonempty sep s). destruct (split sep s); [contradiction|simpl; lia].
  - simpl in H. specialize (IH H).
    destruct (split sep s); simpl in *; lia.
Qed.

Lemma length_slice0 n s :
  n <= String.length s -> String.length (slice0 n s) = n.
Proof.
  unfold slice0. revert s.
  induction n as [|n IH]; intros [|c s] H; simpl in *; try reflexivity; try lia.
  f_equal. apply IH. lia.
Qed.

End JsFacts.

Module EncryptionFacts.
Import Js JsFacts Encryption Samples.

Lemma byte_of_hex_pair_digits b :
  byte_of_hex_pair (hex_digit (Byte.to_N b / 16)) (hex_digit (Byte.to_N b mod 16)) = Some b.
Proof. destruct b; reflexivity. Qed.

Lemma fromHex_toHex bs : fromHex (toHex bs) = bs.
Proof.
  induction bs as [|b bs IH]; [reflexivity|].
  simpl. rewrite byte_of_hex_pair_digits, IH. reflexivity.
Qed.

Lemma hex_of_byte_colon_free b : mem_char ":" (hex_of_byte b) = false.
Proof. destruct b; reflexivity. Qed.

Lemma toHex_colon_free bs : mem_char ":" (toHex bs) = false.
Proof.
  induction bs as [|b bs IH]; [reflexivity|].
  cbn [toHex]. rewrite mem_char_app, hex_of_byte_colon_free, IH. reflexivity.
Qed.

Lemma getKey_long key :
  32 <= String.length key ->
  getKey (Some key) = Ok (slice0 32 key) /\ String.length (slice0 32 key) = 32.
Proof.
  intros H. split; [|now apply length_slice0].
  unfold getKey.
  destruct key as [|c key]; [simpl in H; lia|].
  replace (String.eqb (String c key) "") with false by reflexivity.
  destruct (Nat.ltb_spec (String.length (String c key)) 32); [lia|reflexivity].
Qed.

(** The parts of a payload whose four fields hold no colon. *)
Lemma split_payload a b c d :
  mem_char ":" a = false -> mem_char ":" b = false ->
  mem_char ":" c = false -> mem_char ":" d = false ->
  split ":" (payload_of a b c d) = [a; b; c; d].
Proof.
  intros Ha Hb Hc Hd.
  change (payload_of a b c d)
    with (a ++ String ":" (b ++ String ":" (c ++ String ":" d))).
  rewrite (split_app ":" a _ Ha), (split_app ":" b _ Hb), (split_app ":" c _ Hc).
  now rewrite (split_colon_free ":" d Hd).
Qed.

(** What [createCipheriv] lets through. *)
Lemma createCipheriv_ok key iv k :
  createCipheriv key iv = Ok k ->
  k = key /\ utf8_length key = 32 /\ iv <> [].
Proof.
  unfold createCipheriv. destruct iv as [|b iv]; cbn [List.length Nat.eqb]; [discriminate|].
  destruct (Nat.eqb_spec (utf8_length key) 32) as [E|_]; [|discriminate].
  intros H. injection H as <-. repeat split; [exact E|discriminate].
Qed.

Lemma createCipheriv_keyed key iv :
  utf8_length key = 32 -> iv <> [] -> createCipheriv key iv = Ok key.
Proof.
  intros Hk Hiv. unfold createCipheriv. destruct iv as [|b iv]; [contradiction|].
  cbn [List.length Nat.eqb]. now rewrite Hk.
Qed.

Lemma nonce_nonempty (iv : list byte) : List.length iv = IV_LENGTH -> iv <> [].
Proof. intros H ->. discriminate. Qed.

(** A key of 32 characters is 32 bytes long exactly when its characters
    are below 128. *)
Lemma utf8_length_ge s : String.length s <= utf8_length s.
Proof.
  induction s as [|c s IH]; cbn [utf8_length String.length]; [lia|].
  unfold utf8_size. destruct (N_of_ascii c <? 128)%N; lia.
Qed.

Lemma utf8_length_ascii s :
  utf8_length s = String.length s <-> ascii_only s = true.
Proof.
  induction s as [|c s IH]; cbn [utf8_length String.length ascii_only]; [tauto|].
  pose proof (utf8_length_ge s) as Hge. unfold utf8_size.
  destruct (N_of_ascii c <? 128)%N; cbn [andb].
  - rewrite <- IH. lia.
  - split; [lia|discriminate].
Qed.

Section CodecFacts.
Context {cipher : AesGcm}.

(** Unsealing a payload of four colon-free fields reads the first, third
    and fourth; the second is never looked at. *)
Lemma decrypt_fields env_key key a b c d :
  getKey env_key = Ok key ->
  mem_char ":" a = false -> mem_char ":" b = false ->
  mem_char ":" c = false -> mem_char ":" d = false ->
  decrypt env_key (payload_of a b c d)
  = (keyed <- createCipheriv key (fromHex a);;
     decrypted <- gcm_open keyed (fromHex a) c (fromHex d);;
     Ok (string_of_list_byte decrypted))%result.
Proof.
  intros Hk Ha Hb Hc Hd. unfold decrypt. rewrite Hk. cbn [rbind].
  rewrite (split_payload a b c d Ha Hb Hc Hd). reflexivity.
Qed.

Lemma encrypt_payload env_key key iv salt text :
  getKey env_key = Ok key ->
  createCipheriv key iv = Ok key ->
  encrypt env_key iv salt text
  = Ok (payload_of (toHex iv) (toHex salt)
          (toHex (fst (gcm_seal key iv (list_byte_of_string text))))
          (toHex (snd (gcm_seal key iv (list_byte_of_string text))))).
Proof. intros Hk Hc. unfold encrypt. rewrite Hk. cbn [rbind]. rewrite Hc. reflexivity. Qed.

(** A seal that succeeded went through [createCipheriv]. *)
Lemma encrypt_sealed env_key key iv salt text payload :
  getKey env_key = Ok key ->
  encrypt env_key iv salt text = Ok payload ->
  createCipheriv key iv = Ok key
  /\ payload = payload_of (toHex iv) (toHex salt)
                 (toHex (fst (gcm_seal key iv (list_byte_of_string text))))
                 (toHex (snd (gcm_seal key iv (list_byte_of_string text)))).
Proof.
  intros Hk. unfold encrypt. rewrite Hk. cbn [rbind].
  destruct (createCipheriv key iv) as [k|m] eqn:Hc; [|discriminate]. cbn [rbind].
  destruct (createCipheriv_ok _ _ _ Hc) as [-> _].
  intros H. injection H as <-. split; reflexivity.
Qed.

Lemma open_sealed key iv text :
  createCipheriv key iv = Ok key -> List.length iv = IV_LENGTH ->
  (keyed <- createCipheriv key (fromHex (toHex iv));;
   decrypted <- gcm_open keyed (fromHex (toHex iv))
                  (toHex (fst (gcm_seal key iv (list_byte_of_string text))))
                  (fromHex (toHex (snd (gcm_seal key iv (list_byte_of_string text)))));;
   Ok (string_of_list_byte decrypted))%result
  = Ok text.
Proof.
  intros Hc Hiv. destruct (createCipheriv_ok _ _ _ Hc) as [_ [Hk _]].
  rewrite !fromHex_toHex, Hc. cbn [rbind].
  rewrite (gcm_open_seal key iv _ Hk Hiv). cbn [rbind].
  now rewrite string_of_list_byte_of_string.
Qed.

(** The key [getKey] returns is accepted by the cipher exactly when its
    32 characters are below 128. *)
Lemma createCipheriv_slice key iv :
  32 <= String.length key ->
  ascii_only (slice0 32 key) = true ->
  iv <> [] ->
  createCipheriv (slice0 32 key) iv = Ok (slice0 32 key).
Proof.
  intros Hlen Hascii Hiv. apply createCipheriv_keyed; [|exact Hiv].
  apply utf8_length_ascii in Hascii. rewrite Hascii. now apply length_slice0.
Qed.

(** A key with a character of 128 or above among its first 32 is refused
    by the cipher, so nothing is sealed under it. *)
Lemma encrypt_rejects_wide_key key iv salt text :
  32 <= String.length key ->
  ascii_only (slice0 32 key) = false ->
  iv <> [] ->
  encrypt (Some key) iv salt text = Throw "Invalid key length".
Proof.
  intros Hlen Hwide Hiv. destruct (getKey_long key Hlen) as [Hk Hk32].
  unfold encrypt. rewrite Hk. cbn [rbind]. unfold createCipheriv.
  destruct iv as [|b iv]; [contradiction|]. cbn [List.length Nat.eqb].
  destruct (Nat.eqb_spec (utf8_length (slice0 32 key)) 32) as [E|_]; [|reflexivity].
  rewrite <- Hk32 in E at 2. apply utf8_length_ascii in E. congruence.
Qed.

(** C6, as amended.  Round trip of the credential codec: with a process
    key of at least 32 characters whose first 32 characters are ASCII (so
    that the cipher receives 32 bytes), for every plaintext, given as its
    UTF-8 bytes, and every initialization vector and salt that [encrypt]
    may draw, [encrypt] returns a payload and [decrypt] of that payload
    returns the plaintext. *)
Theorem decrypt_encrypt_roundtrip key iv salt text :
  32 <= String.length key ->
  ascii_only (slice0 32 key) = true ->
  List.length iv = IV_LENGTH ->
  List.length salt = SALT_LENGTH ->
  exists payload,
    encrypt (Some key) iv salt text = Ok payload
    /\ decrypt (Some key) payload = Ok text.
Proof.
  intros Hlen Hascii Hiv _.
  destruct (getKey_long key Hlen) as [Hk Hk32].
  pose proof (createCipheriv_slice key iv Hlen Hascii (nonce_nonempty iv Hiv)) as Hc.
  eexists. split; [apply (encrypt_payload _ _ iv salt text Hk Hc)|].
  rewrite (decrypt_fields _ _ _ _ _ _ Hk); try apply toHex_colon_free.
  now apply open_sealed.
Qed.

(** The second field replaced in a payload of four colon-free fields. *)
Lemma with_salt_field_payload s a b c d :
  mem_char ":" a = false -> mem_char ":" b = false ->
  mem_char ":" c = false -> mem_char ":" d = false ->
  with_salt_field s (payload_of a b c d) = payload_of a s c d.
Proof.
  intros Ha Hb Hc Hd. unfold with_salt_field.
  rewrite (split_payload a b c d Ha Hb Hc Hd). reflexivity.
Qed.


(** A replacement that holds a colon leaves more than four fields, and
    [decrypt] refuses the payload whatever the cipher. *)
Lemma decrypt_rejects_colon_in_salt_field key iv salt text s payload :
  32 <= String.length key ->
  mem_char ":" s = true ->
  encrypt (Some key) iv salt text = Ok payload ->
  decrypt (Some key) (with_salt_field s payload) = Throw "Invalid encrypted data format".
Proof.
  intros Hlen Hs Henc.
  destruct (getKey_long key Hlen) as [Hk _].
  destruct (encrypt_sealed _ _ iv salt text payload Hk Henc) as [_ ->].
  rewrite with_salt_field_payload; try apply toHex_colon_free.
  unfold decrypt. rewrite Hk. cbn [rbind].
  set (c := toHex (fst _)). set (d := toHex (snd _)).
  change (payload_of (toHex iv) s c d)
    with (toHex iv ++ String ":" (s ++ String ":" (c ++ String ":" d))).
  rewrite (split_app ":" (toHex iv)) by apply toHex_colon_free.
  pose proof (split_length_app ":" s (c ++ String ":" d)) as Hl.
  pose proof (split_length_app ":" c d) as Hcd.
  pose proof (mem_char_split_length ":" s Hs) as H2.
  assert (1 <= List.length (split ":" c) /\ 1 <= List.length (split ":" d)) as [Hc1 Hd1].
  { pose proof (split_nonempty ":" c). pose proof (split_nonempty ":" d).
    destruct (split ":" c), (split ":" d); try contradiction. simpl. lia. }
  destruct (Nat.eqb_spec
              (List.length (toHex iv :: split ":" (s ++ String ":" (c ++ String ":" d)))) 4)
    as [E|_]; [simpl in E; lia|reflexivity].
Qed.

End CodecFacts.

(** The stand-in cipher satisfies the law of the primitive. *)
Lemma mirror_open_seal key iv pt :
  utf8_length key = 32 -> List.length iv = IV_LENGTH ->
  mirror_open key iv (toHex (fst (mirror_seal key iv pt))) (snd (mirror_seal key iv pt))
  = Ok pt.
Proof.
  intros _ _. unfold mirror_open, mirror_seal. simpl.
  destruct (list_eq_dec Byte.byte_eq_dec iv iv) as [_|n]; [|now destruct n].
  now rewrite fromHex_toHex, rev_involutive.
Qed.

#[local] Instance MirrorCipher : AesGcm :=
  {| gcm_seal := mirror_seal; gcm_open := mirror_open; gcm_open_seal := mirror_open_seal |}.

Lemma decrypt_encrypt_roundtrip_witness :
  exists payload,
    encrypt (Some sample_key) sample_iv sample_salt sample_plaintext = Ok payload
    /\ decrypt (Some sample_key) payload = Ok sample_plaintext.
Proof.
  apply (decrypt_encrypt_roundtrip sample_key sample_iv sample_salt sample_plaintext).
  - vm_compute. lia.
  - reflexivity.
  - reflexivity.
  - reflexivity.
Defined.

(** C6, the claim as stated fails: under a key of 32 characters that are
    not ASCII (32 times the letter U+00E9, 64 bytes in UTF-8) the cipher
    refuses the key, and [encrypt] throws instead of sealing. *)
Lemma roundtrip_fails_under_accented_key :
  String.length accented_key = 32
  /\ encrypt (Some accented_key) sample_iv sample_salt sample_plaintext
     = Throw "Invalid key length"
  /\ decrypt (Some accented_key)
       (match encrypt (Some sample_key) sample_iv sample_salt sample_plaintext with
        | Ok p => p
        | Throw _ => ""
        end)
     = Throw "Invalid key length".
Proof. repeat split. Qed.



End EncryptionFacts.

(** ** Registrar clients *)

Module Route53Facts.
Import Dns Dns.Route53.

Lemma makeRequest_throws credentials action params :
  makeRequest credentials action params = Throw sdk_missing_message.
Proof. reflexivity. Qed.

Lemma createRecord_fails credentials record :
  createRecord credentials record = create_failed sdk_missing_message.
Proof. unfold createRecord. now rewrite makeRequest_throws. Qed.

Lemma deleteRecord_fails credentials recordId :
  deleteRecord credentials recordId = op_failed sdk_missing_message.
Proof. unfold deleteRecord. now rewrite makeRequest_throws. Qed.

Lemma updateRecord_fails credentials recordId record :
  updateRecord credentials recordId record = op_failed sdk_missing_message.
Proof. unfold updateRecord. now rewrite deleteRecord_fails. Qed.

Lemma listRecords_fails credentials type :
  listRecords credentials type = list_failed sdk_missing_message.
Proof. unfold listRecords. now rewrite makeRequest_throws. Qed.

Lemma verifyOwnership_fails credentials token :
  verifyOwnership credentials token = op_failed "Failed to fetch TXT records".
Proof. unfold verifyOwnership. now rewrite listRecords_fails. Qed.

(** C9.  Every operation of the Signed-REST client returns
    [success = false] with an error message, for every input: the shared
    request function throws before any exchange, so no operation of this
    client can succeed. *)
Theorem route53_operations_never_succeed
  (credentials : Credentials) (record : DNSRecord) (recordId : string)
  (fields : PartialDNSRecord) (type : option string) (token : string) :
  (cr_success (createRecord credentials record) = false
   /\ cr_error (createRecord credentials record) = Some sdk_missing_message)
  /\ (op_success (deleteRecord credentials recordId) = false
      /\ op_error (deleteRecord credentials recordId) = Some sdk_missing_message)
  /\ (op_success (updateRecord credentials recordId fields) = false
      /\ op_error (updateRecord credentials recordId fields) = Some sdk_missing_message)
  /\ (lr_success (listRecords credentials type) = false
      /\ lr_error (listRecords credentials type) = Some sdk_missing_message)
  /\ (op_success (verifyOwnership credentials token) = false
      /\ op_error (verifyOwnership credentials token) = Some "Failed to fetch TXT records").
Proof.
  rewrite createRecord_fails, deleteRecord_fails, updateRecord_fails,
    listRecords_fails, verifyOwnership_fails.
  repeat split.
Qed.

(** Were a listing ever fetched, the search would accept a value that
    only contains the token (the registrar quotes TXT values). *)
Example verify_in_accepts_quoted_value :
  verify_in
    (list_ok [R53Raw {| rs_Name := "_domain-verification.example.com.";
                        rs_Type := "TXT"; rs_TTL := Some 300;
                        rs_values := Some [Js.dq ++ "abc123" ++ Js.dq] |}])
    "abc123"
  = op_ok.
Proof. reflexivity. Qed.

End Route53Facts.

Module CloudflareFacts.
Import Dns Dns.Cloudflare.

Lemma is_verification_record_spec token r :
  is_verification_record token r = true <->
  cf_type r = "TXT" /\ cf_content r = token /\ denotes_verification_host (cf_name r) = true.
Proof.
  unfold is_verification_record, denotes_verification_host.
  rewrite !andb_true_iff, !String.eqb_eq. tauto.
Qed.

Lemma find_some_iff {A} (p : A -> bool) l :
  (exists x, find p l = Some x) <-> exists x, In x l /\ p x = true.
Proof.
  split.
  - intros [x Hx]. exists x. now apply find_some in Hx.
  - intros [x [Hin Hp]].
    destruct (find p l) as [y|] eqn:E; [now exists y|].
    now rewrite (find_none _ _ E x Hin) in Hp.
Qed.

Lemma verifyOwnership_success net credentials token :
  op_success (verifyOwnership net credentials token) = true <->
  exists records,
    fetched_txt_records net credentials = Ok records
    /\ exists r, In r records /\ is_verification_record token r = true.
Proof.
  unfold verifyOwnership, fetched_txt_records.
  destruct (makeRequest_list net credentials _) as [records|m].
  - destruct (find (is_verification_record token) records) as [r|] eqn:E.
    + split; [intros _|reflexivity].
      exists records. split; [reflexivity|]. apply find_some_iff. now exists r.
    + split; [discriminate|].
      intros [records' [Heq Hex]]. injection Heq as <-.
      apply find_some_iff in Hex as [x Hx]. congruence.
  - split; [discriminate|]. now intros [records [Heq _]].
Qed.

End CloudflareFacts.

Module NamecheapFacts.
Import Dns Dns.Namecheap Samples.

Lemma makeRequest_sent fetch credentials command extra :
  snd (makeRequest fetch credentials command extra)
  = [([("ApiUser", apiUser credentials); ("ApiKey", apiKey credentials);
       ("UserName", username credentials); ("ClientIp", clientIp credentials);
       ("Command", command)] ++ extra)%list].
Proof. reflexivity. Qed.

(** The client does read the host list first: whenever [createRecord]
    sends anything, the first request is [getHosts]; and whatever that
    request answered, a [setHosts] request carries the new host alone. *)
Lemma createRecord_requests fetch credentials record :
  let sent := snd (createRecord_traced fetch credentials record) in
  option_map command_of (hd_error sent) = Some (Some getHosts)
  /\ forall req, In req sent -> command_of req = Some setHosts ->
                 hosts_of req = [host_of (rec_name record)].
Proof.
  unfold createRecord_traced, makeRequest; cbn beta iota zeta.
  match goal with
  | |- context [rbind (fetch ?p) ?k] => destruct (rbind (fetch p) k) as [text|m]
  end.
  - match goal with
    | |- context [rbind (fetch ?p) ?k] => destruct (rbind (fetch p) k) as [text2|m2]
    end;
      (split; [reflexivity|];
       intros req [<-|[<-|[]]] Hc;
       [ discriminate Hc
       | unfold hosts_of, host_of; destruct (rec_priority record); reflexivity ]).
  - split; [reflexivity|]. intros req [<-|[]] Hc. discriminate Hc.
Qed.

(** C8, on the code.  [createRecord] on a zone that already lists [www]
    reports success after a [getHosts] and a [setHosts] request, and the
    [setHosts] request carries the host [blog] alone: the host list just
    read is not sent back, so the existing entry is not preserved. *)
Theorem namecheap_createRecord_drops_existing_hosts :
  cr_success (createRecord zone_with_www namecheap_credentials blog_record) = true
  /\ map command_of (snd (createRecord_traced zone_with_www namecheap_credentials blog_record))
     = [Some getHosts; Some setHosts]
  /\ map hosts_of (snd (createRecord_traced zone_with_www namecheap_credentials blog_record))
     = [[]; ["blog"]].
Proof. repeat split. Qed.

End NamecheapFacts.

(** ** Ownership verification across the three clients *)

Module OwnershipFacts.
Import Dns CloudflareFacts Samples.

(** C2, as amended.  [verifyOwnership] returns success if and only if the
    fetched TXT records contain an entry whose name denotes the
    verification host and whose value equals the token exactly: this is
    the Token-REST client, the only one that fetches (the Signed-REST and
    Query-API clients always report failure).  And on a listing where the
    check succeeds with token [t], it fails with another token [t'] as
    soon as no fetched verification entry carries the value [t']. *)
Theorem verifyOwnership_exact_match
  (net : Cloudflare.Network) (credentials : Cloudflare.Credentials)
  (aws : Route53.Credentials) (t : string) :
  (op_success (Cloudflare.verifyOwnership net credentials t) = true <->
   exists records,
     Cloudflare.fetched_txt_records net credentials = Ok records
     /\ exists r, In r records
                  /\ cf_type r = "TXT"
                  /\ cf_content r = t
                  /\ Cloudflare.denotes_verification_host (cf_name r) = true)
  /\ (forall t' records,
        Cloudflare.fetched_txt_records net credentials = Ok records ->
        op_success (Cloudflare.verifyOwnership net credentials t) = true ->
        (forall r, In r records -> cf_type r = "TXT" ->
                   Cloudflare.denotes_verification_host (cf_name r) = true ->
                   cf_content r <> t') ->
        op_success (Cloudflare.verifyOwnership net credentials t') = false)
  /\ op_success (Route53.verifyOwnership aws t) = false
  /\ op_success (Namecheap.verifyOwnership t) = false.
Proof.
  split; [|split; [|split]].
  - rewrite verifyOwnership_success.
    split; intros [records [Hf [r [Hin Hr]]]]; exists records; (split; [exact Hf|]);
      exists r; (split; [exact Hin|]); now apply is_verification_record_spec.
  - intros t' records Hf _ Hnone.
    destruct (op_success (Cloudflare.verifyOwnership net credentials t')) eqn:E;
      [|reflexivity].
    apply verifyOwnership_success in E as [records' [Hf' [r [Hin Hr]]]].
    rewrite Hf in Hf'. injection Hf' as <-.
    apply is_verification_record_spec in Hr as [Hty [Hc Hn]].
    now destruct (Hnone r Hin Hty Hn).
  - now rewrite Route53Facts.verifyOwnership_fails.
  - reflexivity.
Qed.

Lemma verifyOwnership_exact_match_witness :
  op_success (Cloudflare.verifyOwnership (zone_with [challenge "9f3a"])
                cloudflare_credentials "9f3b") = false.
Proof.
  apply (proj1 (proj2 (verifyOwnership_exact_match
                         (zone_with [challenge "9f3a"]) cloudflare_credentials
                         aws_credentials "9f3a"))
           "9f3b" [challenge "9f3a"]).
  - reflexivity.
  - reflexivity.
  - intros r [<-|[]] _ _. discriminate.
Defined.

(** C2, the claim as stated fails: with two challenge records published,
    the check succeeds with a token and also with a token that differs
    from it in one character. *)
Lemma verifyOwnership_two_challenges_both_succeed :
  op_success (Cloudflare.verifyOwnership (zone_with [challenge "9f3a"; challenge "9f3b"])
                cloudflare_credentials "9f3a") = true
  /\ op_success (Cloudflare.verifyOwnership (zone_with [challenge "9f3a"; challenge "9f3b"])
                   cloudflare_credentials "9f3b") = true.
Proof. split; reflexivity. Qed.

End OwnershipFacts.

(** ** Provider factory *)

Module FactoryFacts.
Import Dns Dns.Factory.

Section FactoryFacts.
Context {cipher : Encryption.AesGcm}.
Variable env_key : option string.
Variable JSON_parse : string -> Result JsonObject.
Variable cloudflare : Cloudflare.Network.
Variable namecheap : Namecheap.Request -> Result string.

(** A tag outside the three registrars is refused once the credentials
    have been unsealed and decoded. *)
Lemma createDNSProvider_unsupported registrar sealed text credentials :
  Encryption.decrypt env_key sealed = Ok text ->
  JSON_parse text = Ok credentials ->
  registrar <> "CLOUDFLARE" -> registrar <> "ROUTE53" -> registrar <> "NAMECHEAP" ->
  createDNSProvider env_key JSON_parse cloudflare namecheap registrar sealed
  = Throw ("Unsupported registrar: " ++ registrar).
Proof.
  intros Hd Hp H1 H2 H3. unfold createDNSProvider. rewrite Hd. cbn [rbind].
  rewrite Hp. cbn [rbind].
  destruct (String.eqb_spec registrar "CLOUDFLARE"); [contradiction|].
  destruct (String.eqb_spec registrar "ROUTE53"); [contradiction|].
  destruct (String.eqb_spec registrar "NAMECHEAP"); [contradiction|reflexivity].
Qed.

(** Credentials that do not unseal never reach a registrar. *)
Lemma validateCredentials_sealed_wrongly registrar sealed message :
  Encryption.decrypt env_key sealed = Throw message ->
  validateCredentials env_key JSON_parse cloudflare namecheap registrar sealed
  = {| valid := false; validation_error := Some message |}.
Proof.
  intros Hd. unfold validateCredentials, createDNSProvider. now rewrite Hd.
Qed.

(** The liveness probe is a listing, which only the Token-REST client can
    answer: credentials for the other two registrars never validate. *)
Lemma validateCredentials_only_cloudflare registrar sealed :
  valid (validateCredentials env_key JSON_parse cloudflare namecheap registrar sealed) = true ->
  registrar = "CLOUDFLARE".
Proof.
  unfold validateCredentials, createDNSProvider.
  destruct (Encryption.decrypt env_key sealed) as [text|m]; [|discriminate].
  cbn [rbind]. destruct (JSON_parse text) as [credentials|m]; [|discriminate].
  cbn [rbind].
  destruct (String.eqb_spec registrar "CLOUDFLARE") as [->|_]; [reflexivity|].
  destruct (String.eqb registrar "ROUTE53"); [discriminate|].
  destruct (String.eqb registrar "NAMECHEAP"); discriminate.
Qed.

End FactoryFacts.
End FactoryFacts.


(** ** Persistence lemmas *)

Module StoreFacts.
Import Store.


Lemma with_status_subscription st r sub :
  has_subscription sub (with_status st r) = has_subscription sub r.
Proof. reflexivity. Qed.

Lemma with_status_idem st r : with_status st (with_status st r) = with_status st r.
Proof. reflexivity. Qed.


Lemma find_map_preserved {A} (p : A -> bool) (f : A -> A) l :
  (forall x, p (f x) = p x) ->
  find p (map f l) = option_map f (find p l).
Proof.
  intros Hp. induction l as [|x l IH]; simpl; [reflexivity|].
  rewrite Hp. destruct (p x); [reflexivity|exact IH].
Qed.

Lemma findRental_of_member db r :
  In r (rentals db) -> exists r', findRental db (r_id r) = Some r'.
Proof.
  intros Hin. unfold findRental.
  destruct (find (fun x => Nat.eqb (r_id x) (r_id r)) (rentals db)) as [r'|] eqn:E.
  - now exists r'.
  - apply (find_none _ _ E) in Hin. now rewrite Nat.eqb_refl in Hin.
Qed.

Lemma findRentalBySubscription_member db sub r :
  findRentalBySubscription db sub = Some r ->
  In r (rentals db) /\ has_subscription sub r = true.
Proof. apply find_some. Qed.

(** An update of a row that was just read succeeds and rewrites the table. *)
Lemma updateRentalStatus_found db r st :
  In r (rentals db) ->
  updateRentalStatus db (r_id r) st
  = Ok {| listings := listings db;
          rentals := map (set_status_of (r_id r) st) (rentals db);
          transactions := transactions db |}.
Proof.
  intros Hin. unfold updateRentalStatus.
  destruct (findRental_of_member db r Hin) as [r' ->]. reflexivity.
Qed.

Lemma count_status_app st l1 l2 ls ts :
  count_status st {| listings := ls; rentals := (l1 ++ l2)%list; transactions := ts |}
  = count_status st {| listings := ls; rentals := l1; transactions := ts |}
    + count_status st {| listings := ls; rentals := l2; transactions := ts |}.
Proof. unfold count_status. simpl. now rewrite filter_app, length_app. Qed.


End StoreFacts.

(** ** Webhook handlers *)

Module WebhookFacts.
Import Store Proc Webhook StoreFacts Samples.

(** Reading the billing data leaves the world as it was. *)
Lemma billing_of_world env session w :
  snd (billing_of env session w) = w.
Proof.
  unfold billing_of.
  destruct (subscription session) as [s|]; [|reflexivity].
  destruct (Js.truthy (Some s)); [|reflexivity].
  step. destruct (retrieveSubscription env s); reflexivity.
Qed.

(** The DNS creation never faults outward and never touches the tables;
    it builds a client and makes at most one call on it, a [createRecord]. *)
Lemma provision_safe env listing md w :
  exists rid w',
    provision env listing md w = (Ok rid, w')
    /\ db w' = db w
    /\ (dns_calls w' = (dns_calls w ++ [CallFactory (registrar listing)])%list
        \/ exists record,
             dns_calls w'
             = ((dns_calls w ++ [CallFactory (registrar listing)]) ++ [CallCreate record])%list).
Proof.
  unfold provision. step.
  destruct (createDNSProvider env _ _) as [p|m]; cbn [db dns_calls console].
  - destruct (Dns.createRecord p _) as [res|m]; cbn [db dns_calls console].
    + destruct (Dns.cr_success res); do 2 eexists;
        (split; [reflexivity|split; [reflexivity|right; eexists; reflexivity]]).
    + do 2 eexists.
      split; [reflexivity|split; [reflexivity|right; eexists; reflexivity]].
  - do 2 eexists. split; [reflexivity|split; [reflexivity|left; reflexivity]].
Qed.

(** The DNS deletion never faults outward and never touches the tables,
    whatever the client construction, the listing, the search and the
    deletion do. *)
Lemma deprovision_safe env listing rental w :
  exists w', deprovision env listing rental w = (Ok tt, w') /\ db w' = db w.
Proof.
  unfold deprovision. step.
  destruct (createDNSProvider env _ _) as [p|m]; cbn [db dns_calls console];
    [|eexists; split; reflexivity].
  destruct (Dns.listRecords p _) as [res|m]; cbn [db dns_calls console];
    [|eexists; split; reflexivity].
  destruct (Dns.lr_success res); [|eexists; split; reflexivity].
  destruct (Dns.lr_records res) as [records|]; [|eexists; split; reflexivity].
  destruct (Dns.find_throwing _ records) as [[record|]|m]; cbn [db dns_calls console];
    try (eexists; split; reflexivity).
  destruct (Dns.deleteRecord p _) as [del|m]; cbn [db dns_calls console];
    [|eexists; split; reflexivity].
  destruct (Dns.op_success del); eexists; split; reflexivity.
Qed.

(** What [handleSubscriptionDeleted] does to a world whose tables hold the
    rental and its listing. *)
Lemma handleSubscriptionDeleted_found env sub w rental listing :
  findRentalBySubscription (db w) sub = Some rental ->
  findListing (db w) (listingId rental) = Some listing ->
  exists w',
    handleSubscriptionDeleted env sub w = (Ok tt, w')
    /\ db w' = {| listings := listings (db w);
                  rentals := map (set_status_of (r_id rental) CANCELLED) (rentals (db w));
                  transactions := transactions (db w) |}.
Proof.
  intros Hr Hl.
  destruct (findRentalBySubscription_member _ _ _ Hr) as [Hin _].
  unfold handleSubscriptionDeleted. step. rewrite Hr, Hl.
  assert (exists w1, (if isVerified listing then deprovision env listing rental else ret tt) w
                     = (Ok tt, w1) /\ db w1 = db w) as [w1 [Hd Hdb]].
  { destruct (isVerified listing); [apply deprovision_safe|].
    exists w. split; reflexivity. }
  unfold ret in Hd. rewrite Hd. rewrite Hdb.
  rewrite (updateRentalStatus_found (db w) rental CANCELLED Hin).
  eexists. split; reflexivity.
Qed.

(** The registrar calls of a cancellation are those of its DNS deletion. *)
Lemma handleSubscriptionDeleted_calls env sub w rental listing :
  findRentalBySubscription (db w) sub = Some rental ->
  findListing (db w) (listingId rental) = Some listing ->
  dns_calls (snd (handleSubscriptionDeleted env sub w))
  = if isVerified listing
    then dns_calls (snd (deprovision env listing rental w))
    else dns_calls w.
Proof.
  intros Hr Hl.
  destruct (findRentalBySubscription_member _ _ _ Hr) as [Hin _].
  unfold handleSubscriptionDeleted. step. rewrite Hr, Hl.
  destruct (isVerified listing).
  - destruct (deprovision_safe env listing rental w) as [w1 [Hd Hdb]].
    rewrite Hd, Hdb. rewrite (updateRentalStatus_found (db w) rental CANCELLED Hin).
    reflexivity.
  - unfold ret. rewrite (updateRentalStatus_found (db w) rental CANCELLED Hin).
    reflexivity.
Qed.

(** The DNS deletion turns to the client factory first, whatever follows. *)
Lemma deprovision_starts_with_factory env listing rental w :
  exists rest,
    dns_calls (snd (deprovision env listing rental w))
    = (dns_calls w ++ CallFactory (registrar listing) :: rest)%list.
Proof.
  unfold deprovision. step.
  destruct (createDNSProvider env _ _) as [p|m]; cbn [db dns_calls console];
    [|now exists []].
  destruct (Dns.listRecords p _) as [res|m]; cbn [db dns_calls console];
    [|eexists; cbn; now rewrite <- app_assoc].
  destruct (Dns.lr_success res); [|eexists; cbn; now rewrite <- app_assoc].
  destruct (Dns.lr_records res) as [records|]; [|eexists; cbn; now rewrite <- app_assoc].
  destruct (Dns.find_throwing _ records) as [[record|]|m]; cbn [db dns_calls console];
    try (eexists; cbn; now rewrite <- app_assoc).
  destruct (Dns.deleteRecord p _) as [del|m]; cbn [db dns_calls console];
    [destruct (Dns.op_success del)|]; eexists; cbn; now rewrite <- !app_assoc.
Qed.

(** C3.  For every subscription_deleted event whose subscription
    reference matches an existing rental (of a stored listing), the
    handler returns normally and that rental has status Cancelled
    afterwards, whatever the registrar did: client construction, record
    lookup and deleteRecord may each succeed, report failure, or throw. *)
Theorem subscription_deleted_always_cancels env sub w rental listing :
  findRentalBySubscription (db w) sub = Some rental ->
  findListing (db w) (listingId rental) = Some listing ->
  fst (handleSubscriptionDeleted env sub w) = Ok tt
  /\ In (with_status CANCELLED rental)
        (rentals (db (snd (handleSubscriptionDeleted env sub w))))
  /\ (forall r', findRental (db (snd (handleSubscriptionDeleted env sub w))) (r_id rental)
                 = Some r' -> r_status r' = CANCELLED).
Proof.
  intros Hr Hl.
  destruct (handleSubscriptionDeleted_found env sub w rental listing Hr Hl)
    as [w' [Hrun Hdb]].
  rewrite Hrun. cbn [fst snd]. rewrite Hdb. cbn [rentals].
  destruct (findRentalBySubscription_member _ _ _ Hr) as [Hin _].
  split; [reflexivity|split].
  - apply in_map_iff. exists rental. split; [|exact Hin].
    unfold set_status_of. now rewrite Nat.eqb_refl.
  - intros r' Hf. unfold findRental in Hf. cbn [rentals] in Hf.
    apply find_some in Hf as [Hin' Hid].
    apply in_map_iff in Hin' as [x [<- _]].
    unfold set_status_of in *.
    destruct (Nat.eqb (r_id x) (r_id rental)) eqn:E; [reflexivity|].
    rewrite E in Hid. discriminate.
Qed.

Lemma set_status_of_subscription id st sub r :
  has_subscription sub (set_status_of id st r) = has_subscription sub r.
Proof. unfold set_status_of. now destruct (Nat.eqb (r_id r) id). Qed.






(** C1.  For every checkout_completed event whose referenced listing is
    unverified, or whose DNS record kind is not in the listing's allowed
    set, the handler rejects the event: no call is made on a registrar
    client (so no createRecord) and no table changes (so no rental row is
    created); when the billing data could be read the handler returns
    after logging the rejection. *)
Theorem checkout_rejected_without_provisioning env session w md listing :
  metadata session = Some md ->
  findListing (db w) (md_listingId md) = Some listing ->
  isVerified listing = false
  \/ existsb (String.eqb (md_dnsRecordType md)) (allowedRecordTypes listing) = false ->
  let after := handleCheckoutSessionCompleted env session w in
  db (snd after) = db w
  /\ dns_calls (snd after) = dns_calls w
  /\ (is_ok (fst (billing_of env session w)) = true ->
      fst after = Ok tt
      /\ exists message detail,
           console (snd after) = (console w ++ [LogError message detail])%list).
Proof.
  intros Hmd Hl Hrej after. subst after.
  unfold handleCheckoutSessionCompleted. step. rewrite Hmd.
  pose proof (billing_of_world env session w) as Hw.
  destruct (billing_of env session w) as [[bill|m] wb]; cbn [fst snd] in *; subst wb.
  - destruct bill as [[[amount subscriptionId] periodStart] periodEnd].
    rewrite Hl.
    destruct (isVerified listing) eqn:Hv; cbn [negb].
    + destruct Hrej as [Hrej|Hrej]; [discriminate|]. rewrite Hrej. cbn [negb].
      split; [reflexivity|split; [reflexivity|]]. intros _.
      split; [reflexivity|]. do 2 eexists. reflexivity.
    + split; [reflexivity|split; [reflexivity|]]. intros _.
      split; [reflexivity|]. do 2 eexists. reflexivity.
  - split; [reflexivity|split; [reflexivity|]]. discriminate.
Qed.

(** C4, as amended.  For every checkout_completed event that passes the
    verified and allowed-record-kind checks, whatever the registrar does
    (client construction or createRecord succeeding, reporting failure or
    throwing), the handler returns normally, one rental row is added with
    status Active for the event's listing and name, and, when the session
    carries a payment intent reference, one transaction row is added for
    that rental with status Completed. *)
Theorem checkout_persists_whatever_dns_does env session w md listing bill :
  metadata session = Some md ->
  fst (billing_of env session w) = Ok bill ->
  findListing (db w) (md_listingId md) = Some listing ->
  isVerified listing = true ->
  existsb (String.eqb (md_dnsRecordType md)) (allowedRecordTypes listing) = true ->
  let after := handleCheckoutSessionCompleted env session w in
  fst after = Ok tt
  /\ exists rental,
       rentals (db (snd after)) = (rentals (db w) ++ [rental])%list
       /\ r_status rental = ACTIVE
       /\ listingId rental = md_listingId md
       /\ subdomain rental = md_subdomain md
       /\ fullDomain rental = md_fullDomain md
       /\ (forall intent,
             payment_intent session = Some intent -> intent <> "" ->
             exists t,
               transactions (db (snd after)) = (transactions (db w) ++ [t])%list
               /\ t_status t = COMPLETED
               /\ rentalId t = r_id rental
               /\ stripePaymentIntentId t = intent).
Proof.
  intros Hmd Hbill Hl Hv Hallowed after. subst after.
  unfold handleCheckoutSessionCompleted. step. rewrite Hmd.
  pose proof (billing_of_world env session w) as Hw.
  destruct (billing_of env session w) as [r wb]; cbn [fst snd] in *; subst wb r.
  destruct bill as [[[amount subscriptionId] periodStart] periodEnd].
  rewrite Hl, Hv, Hallowed. cbn [negb].
  destruct (provision_safe env listing md w) as [rid [w1 [Hp [Hdb _]]]].
  rewrite Hp, Hdb. unfold createRental. cbn [db dns_calls console].
  destruct (payment_intent session) as [intent|] eqn:Hpi.
  - destruct (Js.truthy (Some intent)) eqn:Ht; cbn [fst snd db rentals transactions].
    + split; [reflexivity|]. eexists. repeat split.
      intros intent' Hi _. injection Hi as <-.
      eexists. repeat split.
    + split; [reflexivity|]. eexists. repeat split.
      intros intent' Hi Hne. injection Hi as <-.
      unfold Js.truthy in Ht. apply negb_false_iff, String.eqb_eq in Ht. contradiction.
  - cbn [fst snd db rentals transactions].
    split; [reflexivity|]. eexists. repeat split. intros intent' Hi. discriminate.
Qed.

Lemma subscription_deleted_always_cancels_witness :
  fst (handleSubscriptionDeleted refusing_env "sub_9" (store_with true [blog_rental ACTIVE]))
  = Ok tt
  /\ In (with_status CANCELLED (blog_rental ACTIVE))
        (rentals (db (snd (handleSubscriptionDeleted refusing_env "sub_9"
                             (store_with true [blog_rental ACTIVE])))))
  /\ (forall r',
        findRental (db (snd (handleSubscriptionDeleted refusing_env "sub_9"
                               (store_with true [blog_rental ACTIVE]))))
          (r_id (blog_rental ACTIVE)) = Some r' ->
        r_status r' = CANCELLED).
Proof.
  apply (subscription_deleted_always_cancels refusing_env "sub_9"
           (store_with true [blog_rental ACTIVE]) (blog_rental ACTIVE) (example_listing true)).
  - reflexivity.
  - reflexivity.
Defined.



Lemma checkout_rejected_without_provisioning_witness :
  db (snd (handleCheckoutSessionCompleted refusing_env
             (subscription_checkout "A" (Some "pi_3")) (store_with false [])))
  = db (store_with false [])
  /\ dns_calls (snd (handleCheckoutSessionCompleted refusing_env
                       (subscription_checkout "A" (Some "pi_3")) (store_with false [])))
     = [].
Proof.
  pose proof (checkout_rejected_without_provisioning refusing_env
                (subscription_checkout "A" (Some "pi_3")) (store_with false [])
                (blog_metadata "A") (example_listing false) eq_refl eq_refl
                (or_introl eq_refl)) as H.
  cbv zeta in H. destruct H as [H1 [H2 _]]. split; [exact H1|exact H2].
Defined.

Lemma checkout_persists_whatever_dns_does_witness :
  fst (handleCheckoutSessionCompleted refusing_env
         (subscription_checkout "A" (Some "pi_3")) (store_with true []))
  = Ok tt.
Proof.
  apply (checkout_persists_whatever_dns_does refusing_env
           (subscription_checkout "A" (Some "pi_3")) (store_with true [])
           (blog_metadata "A") (example_listing true)
           (1000%Z, Some "sub_9", 1700000000000%Z, 1702592000000%Z)
           eq_refl eq_refl eq_refl eq_refl eq_refl).
Defined.

(** C4, the claim as stated fails: a subscription checkout whose session
    carries no payment intent passes both checks, meets a refused
    createRecord, and ends with the Active rental but no transaction row. *)
Lemma checkout_without_payment_intent_adds_no_transaction :
  fst (handleCheckoutSessionCompleted refusing_env
         (subscription_checkout "A" None) (store_with true []))
  = Ok tt
  /\ map r_status
       (rentals (db (snd (handleCheckoutSessionCompleted refusing_env
                            (subscription_checkout "A" None) (store_with true [])))))
     = [ACTIVE]
  /\ transactions
       (db (snd (handleCheckoutSessionCompleted refusing_env
                   (subscription_checkout "A" None) (store_with true []))))
     = []
  /\ console (snd (handleCheckoutSessionCompleted refusing_env
                     (subscription_checkout "A" None) (store_with true [])))
     = [LogError "Failed to create DNS record:" "fetch failed";
        LogInfo "Rental created successfully:" ""].
Proof. repeat split. Qed.

(** The same event with a payment intent reference does add the row. *)
Example checkout_with_payment_intent_adds_transaction :
  map (fun t => (rentalId t, stripePaymentIntentId t, t_status t))
    (transactions (db (snd (handleCheckoutSessionCompleted refusing_env
                              (subscription_checkout "A" (Some "pi_3"))
                              (store_with true [])))))
  = [(1, "pi_3", COMPLETED)].
Proof. reflexivity. Qed.

(** A second delivery does look the record up again when the listing is
    verified; what it meets there stays inside the handler. *)
Example second_delivery_repeats_the_lookup :
  dns_calls (snd (handleSubscriptionDeleted refusing_env "sub_9"
                    (store_with true [blog_rental CANCELLED])))
  = [CallFactory "CLOUDFLARE"; CallList (Some "A")].
Proof. reflexivity. Qed.

End WebhookFacts.

(** ** Availability check *)

Module AvailabilityFacts.
Import Store Proc Availability Samples.

Lemma subdomainRegex_test_nonempty label :
  subdomainRegex_test label = true -> Js.truthy (Some label) = true.
Proof. destruct label; [discriminate|reflexivity]. Qed.

Lemma truthy_nonempty s : s <> "" -> Js.truthy (Some s) = true.
Proof.
  intros H. unfold Js.truthy. apply negb_true_iff.
  destruct (String.eqb_spec s ""); [contradiction|reflexivity].
Qed.

(** When no callback faults, [find] returns a record as soon as one passes. *)
Lemma find_throwing_total {A} (cb : A -> Result bool) (p : A -> bool) l :
  (forall x, In x l -> cb x = Ok (p x)) ->
  Dns.find_throwing cb l = Ok (find p l).
Proof.
  induction l as [|x l IH]; intros H; simpl; [reflexivity|].
  rewrite (H x (or_introl eq_refl)).
  destruct (p x); [reflexivity|]. apply IH. intros y Hy. apply H. now right.
Qed.

Lemma conflicts_on_named label listing records :
  Forall (fun r => Dns.recordName r <> None) records ->
  forall r, In r records -> conflicts label listing r = Ok (conflicts_named label listing r).
Proof.
  intros Hall r Hin. apply (proj1 (Forall_forall _ _) Hall) in Hin.
  unfold conflicts, conflicts_named.
  destruct (Dns.recordName r); [reflexivity|contradiction].
Qed.

Section Check.
Variable factory : string -> string -> Result Dns.DNSProvider.
Variables (label : string) (listing : Listing).

(** The guarded block never faults outward and never touches the tables. *)
Lemma liveConflictCheck_safe w :
  exists answer w',
    liveConflictCheck factory label listing w = (Ok answer, w')
    /\ db w' = db w
    /\ (answer = None \/ answer = Some (Unavailable dns_conflict_reason))
    /\ (dns_calls w' = (dns_calls w ++ [CallFactory (registrar listing)])%list
        \/ dns_calls w'
           = ((dns_calls w ++ [CallFactory (registrar listing)]) ++ [CallList None])%list).
Proof.
  unfold liveConflictCheck. step.
  destruct (factory _ _) as [client|m]; cbn [db dns_calls console];
    [|do 2 eexists; repeat split; now left].
  destruct (Dns.listRecords client None) as [result|m]; cbn [db dns_calls console];
    [|do 2 eexists; repeat split; [now left|now right]].
  destruct (Dns.lr_success result);
    [|do 2 eexists; repeat split; [now left|now right]].
  destruct (Dns.lr_records result) as [records|];
    [|do 2 eexists; repeat split; [now left|now right]].
  destruct (Dns.find_throwing _ records) as [[r|]|m]; cbn [db dns_calls console];
    do 2 eexists; repeat split; solve [now left|now right].
Qed.

(** With a client at hand, the block calls [listRecords()] once, unfiltered. *)
Lemma liveConflictCheck_lists w client :
  factory (registrar listing) (apiCredentialsEncrypted listing) = Ok client ->
  dns_calls (snd (liveConflictCheck factory label listing w))
  = ((dns_calls w ++ [CallFactory (registrar listing)]) ++ [CallList None])%list.
Proof.
  intros Hf. unfold liveConflictCheck. step. rewrite Hf.
  cbn [db dns_calls console].
  destruct (Dns.listRecords client None) as [result|m]; [|reflexivity].
  destruct (Dns.lr_success result); [|reflexivity].
  destruct (Dns.lr_records result) as [records|]; [|reflexivity].
  destruct (Dns.find_throwing _ records) as [[r|]|m]; reflexivity.
Qed.

(** A conflicting record among named records ends the check early. *)
Lemma liveConflictCheck_conflict w client result records :
  factory (registrar listing) (apiCredentialsEncrypted listing) = Ok client ->
  Dns.listRecords client None = Ok result ->
  Dns.lr_success result = true ->
  Dns.lr_records result = Some records ->
  Forall (fun r => Dns.recordName r <> None) records ->
  (exists r name, In r records /\ Dns.recordName r = Some name
                  /\ name_conflicts label listing name = true) ->
  fst (liveConflictCheck factory label listing w) = Ok (Some (Unavailable dns_conflict_reason)).
Proof.
  intros Hf Hl Hs Hr Hnamed [r [name [Hin [Hname Hc]]]].
  unfold liveConflictCheck. step. rewrite Hf. cbn [db dns_calls console].
  rewrite Hl, Hs, Hr.
  rewrite (find_throwing_total _ (conflicts_named label listing) records
             (conflicts_on_named label listing records Hnamed)).
  destruct (find (conflicts_named label listing) records) as [r'|] eqn:E; [reflexivity|].
  apply (find_none _ _ E) in Hin. unfold conflicts_named in Hin.
  rewrite Hname, Hc in Hin. discriminate.
Qed.

(** A lookup that cannot be made, throws, or reports failure falls through. *)
Lemma liveConflictCheck_failure w :
  is_ok (factory (registrar listing) (apiCredentialsEncrypted listing)) = false
  \/ (exists client,
        factory (registrar listing) (apiCredentialsEncrypted listing) = Ok client
        /\ (is_ok (Dns.listRecords client None) = false
            \/ exists result, Dns.listRecords client None = Ok result
                              /\ Dns.lr_success result = false)) ->
  fst (liveConflictCheck factory label listing w) = Ok None.
Proof.
  unfold liveConflictCheck. step.
  intros [Hf|[client [Hf [Hl|[result [Hl Hs]]]]]].
  - destruct (factory _ _); [discriminate|reflexivity].
  - rewrite Hf. cbn [db dns_calls console].
    destruct (Dns.listRecords client None); [discriminate|reflexivity].
  - rewrite Hf. cbn [db dns_calls console]. rewrite Hl, Hs. reflexivity.
Qed.

End Check.

Lemma app_neq_self {A} (l l' : list A) : l' <> [] -> (l ++ l')%list <> l.
Proof.
  intros Hne Heq. apply (f_equal (@List.length A)) in Heq.
  rewrite length_app in Heq. destruct l'; [contradiction|simpl in Heq; lia].
Qed.

(** The route past its database checks: the answer is that of the guarded
    block when the listing is verified, and the offer otherwise. *)
Lemma POST_past_database_checks factory w listingId label listing :
  subdomainRegex_test label = true ->
  listingId <> "" ->
  findListing (db w) listingId = Some listing ->
  l_status listing = "ACTIVE" ->
  (Z.of_nat (countActiveRentals (db w) listingId) < maxSubdomainsAllowed listing)%Z ->
  findActiveRental (db w) listingId label = None ->
  POST factory {| body_listingId := Some listingId; body_subdomain := Some label |} w
  = let offer := Available (label ++ "." ++ domainName listing) (pricePerSubdomain listing)
                   (pricingPeriod listing) (allowedRecordTypes listing) in
    if isVerified listing then
      match liveConflictCheck factory label listing w with
      | (Ok (Some answer), w') => (Ok answer, w')
      | (Ok None, w') => (Ok offer, w')
      | (Throw e, w') =>
          (Ok (ServerError "Failed to check availability"),
           {| db := db w'; dns_calls := dns_calls w';
              console := (console w' ++ [LogError "Error checking availability:" e])%list |})
      end
    else (Ok offer, w).
Proof.
  intros Hre Hid Hl Hst Hmax Hnone.
  unfold POST. cbn [body_listingId body_subdomain].
  rewrite (truthy_nonempty _ Hid), (subdomainRegex_test_nonempty _ Hre), Hre.
  cbn [negb orb]. step. rewrite Hl, Hst.
  replace (String.eqb "ACTIVE" "ACTIVE") with true by reflexivity. cbn [negb].
  destruct (Z.leb_spec (maxSubdomainsAllowed listing)
              (Z.of_nat (countActiveRentals (db w) listingId))) as [Hle|_]; [lia|].
  rewrite Hnone.
  destruct (isVerified listing); [|reflexivity].
  destruct (liveConflictCheck factory label listing w) as [[[answer|]|e] w']; reflexivity.
Qed.

(** C7.  For every availability request whose label is well-formed and
    whose listing is active, below its rental maximum and without an
    active rental for the label: the live conflict check is entered (the
    registrar library is called) if and only if the listing is verified,
    and with a client at hand it is one unfiltered listRecords call; a
    returned record whose name equals the fully-qualified candidate,
    equals it with a trailing dot, or starts with the label and a dot
    makes the answer unavailable; and a lookup that fails (the client
    cannot be built, listRecords throws or reports failure) does not
    block availability: the subdomain is still reported available. *)
Theorem availability_live_conflict_check factory w listingId label listing :
  subdomainRegex_test label = true ->
  listingId <> "" ->
  findListing (db w) listingId = Some listing ->
  l_status listing = "ACTIVE" ->
  (Z.of_nat (countActiveRentals (db w) listingId) < maxSubdomainsAllowed listing)%Z ->
  findActiveRental (db w) listingId label = None ->
  let after :=
    POST factory {| body_listingId := Some listingId; body_subdomain := Some label |} w in
  let offer := Available (label ++ "." ++ domainName listing) (pricePerSubdomain listing)
                 (pricingPeriod listing) (allowedRecordTypes listing) in
  let credentials := apiCredentialsEncrypted listing in
  (dns_calls (snd after) <> dns_calls w <-> isVerified listing = true)
  /\ (forall client,
        isVerified listing = true ->
        factory (registrar listing) credentials = Ok client ->
        dns_calls (snd after)
        = (dns_calls w ++ [CallFactory (registrar listing); CallList None])%list)
  /\ (isVerified listing = false -> fst after = Ok offer)
  /\ (forall client result records,
        isVerified listing = true ->
        factory (registrar listing) credentials = Ok client ->
        Dns.listRecords client None = Ok result ->
        Dns.lr_success result = true ->
        Dns.lr_records result = Some records ->
        Forall (fun r => Dns.recordName r <> None) records ->
        (exists r name, In r records /\ Dns.recordName r = Some name
                        /\ name_conflicts label listing name = true) ->
        fst after = Ok (Unavailable dns_conflict_reason))
  /\ (isVerified listing = true ->
      is_ok (factory (registrar listing) credentials) = false
      \/ (exists client,
            factory (registrar listing) credentials = Ok client
            /\ (is_ok (Dns.listRecords client None) = false
                \/ exists result, Dns.listRecords client None = Ok result
                                  /\ Dns.lr_success result = false)) ->
      fst after = Ok offer).
Proof.
  intros Hre Hid Hl Hst Hmax Hnone after offer credentials.
  subst after credentials.
  rewrite (POST_past_database_checks factory w listingId label listing
             Hre Hid Hl Hst Hmax Hnone).
  cbv zeta. fold offer.
  destruct (liveConflictCheck_safe factory label listing w)
    as [answer [w' [Hrun [_ [_ Hcalls]]]]].
  destruct (isVerified listing) eqn:Hv.
  - rewrite Hrun.
    assert (Hgrew : dns_calls w' <> dns_calls w).
    { destruct Hcalls as [->| ->].
      - apply app_neq_self. discriminate.
      - rewrite <- app_assoc. apply app_neq_self. discriminate. }
    split; [|split; [|split; [|split]]].
    + destruct answer; cbn [fst snd]; split; intros; [reflexivity|exact Hgrew
                                                      |reflexivity|exact Hgrew].
    + intros client _ Hf.
      pose proof (liveConflictCheck_lists factory label listing w client Hf) as Hlist.
      rewrite Hrun in Hlist. cbn [snd] in Hlist.
      destruct answer; cbn [snd]; rewrite Hlist; now rewrite <- app_assoc.
    + discriminate.
    + intros client result records _ Hf Hlr Hs Hr Hnamed Hex.
      pose proof (liveConflictCheck_conflict factory label listing w client result records
                    Hf Hlr Hs Hr Hnamed Hex) as Hc.
      rewrite Hrun in Hc. cbn [fst] in Hc. injection Hc as ->. reflexivity.
    + intros _ Hfail.
      pose proof (liveConflictCheck_failure factory label listing w Hfail) as Hc.
      rewrite Hrun in Hc. cbn [fst] in Hc. injection Hc as ->. reflexivity.
  - cbn [fst snd]. split; [|split; [|split; [|split]]].
    + split; [intros H; now destruct H|discriminate].
    + discriminate.
    + reflexivity.
    + discriminate.
    + discriminate.
Qed.

Lemma availability_live_conflict_check_witness :
  fst (POST (zone_factory (zone_with [outside_record])) blog_request
         (store_with true []))
  = Ok (Unavailable dns_conflict_reason).
Proof.
  pose proof (availability_live_conflict_check (zone_factory (zone_with [outside_record]))
                (store_with true []) "lst_1" "blog"
                (example_listing true)
                eq_refl ltac:(discriminate) eq_refl eq_refl ltac:(vm_compute; reflexivity)
                eq_refl) as H.
  cbv zeta in H. destruct H as [_ [_ [_ [Hconflict _]]]].
  apply (Hconflict
           (Dns.Cloudflare.provider (zone_with [outside_record]) cloudflare_credentials)
           (Dns.list_ok [Dns.CfRaw outside_record]) [Dns.CfRaw outside_record]);
    try reflexivity.
  - constructor; [discriminate|constructor].
  - exists (Dns.CfRaw outside_record), "blog.example.com".
    split; [now left|split; reflexivity].
Defined.

(** The same request when the registrar refuses every exchange, and when
    the listing is not verified: the subdomain is offered. *)
Example availability_when_lookup_fails :
  POST (zone_factory refusing_network) blog_request
    (store_with true [])
  = (Ok (Available "blog.example.com" 10%Z "MONTHLY" ["A"]),
     {| db := db (store_with true []);
        dns_calls := [CallFactory "CLOUDFLARE"; CallList None];
        console := [] |}).
Proof. reflexivity. Qed.

Example availability_when_unverified :
  POST (zone_factory (zone_with [outside_record])) blog_request (store_with false [])
  = (Ok (Available "blog.example.com" 10%Z "MONTHLY" ["A"]),
     store_with false []).
Proof. reflexivity. Qed.

(** Labels the pattern refuses, whatever the listing. *)
Example malformed_labels_refused :
  map subdomainRegex_test ["my_sub"; "-lead"; "trail-"; "blog"; "a-b"; "x"]
  = [false; false; false; true; true; true].
Proof. reflexivity. Qed.

End AvailabilityFacts.

(** ** More on the credential codec *)

Module CodecFacts.
Import Js JsFacts Encryption EncryptionFacts Text.

Lemma split_length_count sep s :
  List.length (split sep s) = S (count_char sep s).
Proof.
  induction s as [|c s IH]; [reflexivity|].
  simpl. destruct (Ascii.eqb c sep); simpl.
  - now rewrite IH.
  - pose proof (split_nonempty sep s) as Hne.
    destruct (split sep s); [contradiction|]. simpl in *. exact IH.
Qed.

Lemma length_hex_of_byte b : String.length (hex_of_byte b) = 2.
Proof. reflexivity. Qed.

Lemma length_append a b : String.length (a ++ b) = String.length a + String.length b.
Proof. induction a as [|c a IH]; simpl; [reflexivity|now rewrite IH]. Qed.

Lemma length_toHex bs : String.length (toHex bs) = 2 * List.length bs.
Proof.
  induction bs as [|b bs IH]; [reflexivity|].
  cbn [toHex List.length]. rewrite length_append, length_hex_of_byte, IH. lia.
Qed.

Lemma toHex_injective a b : toHex a = toHex b -> a = b.
Proof.
  intros H. rewrite <- (fromHex_toHex a), <- (fromHex_toHex b). now rewrite H.
Qed.

Section Codec.
Context {cipher : AesGcm}.

(** Unsealing what was sealed, for keys that are cut to the same 32
    characters. *)
Lemma decrypt_of_encrypt key key' iv salt text payload :
  32 <= String.length key ->
  32 <= String.length key' ->
  slice0 32 key' = slice0 32 key ->
  List.length iv = IV_LENGTH ->
  encrypt (Some key) iv salt text = Ok payload ->
  decrypt (Some key') payload = Ok text.
Proof.
  intros Hlen Hlen' Hsame Hiv Henc.
  destruct (getKey_long key Hlen) as [Hk Hk32].
  destruct (getKey_long key' Hlen') as [Hk' _].
  rewrite Hsame in Hk'.
  destruct (encrypt_sealed _ _ iv salt text payload Hk Henc) as [Hc ->].
  rewrite (decrypt_fields _ _ _ _ _ _ Hk'); try apply toHex_colon_free.
  now apply open_sealed.
Qed.

(** X1.  The sealed payload always has the layout [iv:salt:ciphertext:tag]:
    it splits at its colons into exactly four fields, each the
    hexadecimal text of its component, the first of 32 digits and the
    second of 128. *)
Theorem sealed_payload_layout key iv salt text payload :
  32 <= String.length key ->
  List.length iv = IV_LENGTH ->
  List.length salt = SALT_LENGTH ->
  encrypt (Some key) iv salt text = Ok payload ->
  exists ciphertext tag,
    split ":" payload = [toHex iv; toHex salt; toHex ciphertext; toHex tag]
    /\ count_char ":" payload = 3
    /\ String.length (toHex iv) = 32
    /\ String.length (toHex salt) = 128
    /\ map fromHex (split ":" payload) = [iv; salt; ciphertext; tag].
Proof.
  intros Hlen Hiv Hsalt Henc.
  destruct (getKey_long key Hlen) as [Hk _].
  destruct (encrypt_sealed _ _ iv salt text payload Hk Henc) as [_ ->].
  do 2 eexists.
  assert (Hsplit : split ":" (payload_of (toHex iv) (toHex salt)
                     (toHex (fst (gcm_seal (slice0 32 key) iv (list_byte_of_string text))))
                     (toHex (snd (gcm_seal (slice0 32 key) iv (list_byte_of_string text)))))
                   = [toHex iv; toHex salt;
                      toHex (fst (gcm_seal (slice0 32 key) iv (list_byte_of_string text)));
                      toHex (snd (gcm_seal (slice0 32 key) iv (list_byte_of_string text)))])
    by (apply split_payload; apply toHex_colon_free).
  split; [exact Hsplit|].
  split.
  { pose proof (split_length_count ":" (payload_of (toHex iv) (toHex salt)
       (toHex (fst (gcm_seal (slice0 32 key) iv (list_byte_of_string text))))
       (toHex (snd (gcm_seal (slice0 32 key) iv (list_byte_of_string text)))))) as Hc.
    rewrite Hsplit in Hc. simpl in Hc. lia. }
  split; [rewrite length_toHex, Hiv; reflexivity|].
  split; [rewrite length_toHex, Hsalt; reflexivity|].
  rewrite Hsplit. cbn [map]. now rewrite !fromHex_toHex.
Qed.

(** X2.  Two seals of the same plaintext under the same key differ as
    soon as the drawn initialization vectors or the drawn salts differ. *)
Theorem fresh_draws_give_distinct_payloads key iv1 salt1 iv2 salt2 text p1 p2 :
  32 <= String.length key ->
  encrypt (Some key) iv1 salt1 text = Ok p1 ->
  encrypt (Some key) iv2 salt2 text = Ok p2 ->
  iv1 <> iv2 \/ salt1 <> salt2 ->
  p1 <> p2.
Proof.
  intros Hlen H1 H2 Hdiff Heq.
  destruct (getKey_long key Hlen) as [Hk _].
  destruct (encrypt_sealed _ _ iv1 salt1 text p1 Hk H1) as [_ ->].
  destruct (encrypt_sealed _ _ iv2 salt2 text p2 Hk H2) as [_ ->].
  apply (f_equal (split ":")) in Heq.
  rewrite !split_payload in Heq by apply toHex_colon_free.
  injection Heq as Hiv Hsalt _ _.
  apply toHex_injective in Hiv. apply toHex_injective in Hsalt.
  destruct Hdiff as [Hd|Hd]; now apply Hd.
Qed.


(** X4.  [decrypt] refuses, with the format error and before the cipher
    is consulted, every text whose number of colons is not three: the
    empty text, a text without colons, a payload with a field missing or
    added. *)
Theorem decrypt_rejects_wrong_field_count key data :
  32 <= String.length key ->
  count_char ":" data <> 3 ->
  decrypt (Some key) data = Throw "Invalid encrypted data format".
Proof.
  intros Hlen Hcount.
  destruct (getKey_long key Hlen) as [Hk _].
  unfold decrypt. rewrite Hk. cbn [rbind].
  pose proof (split_length_count ":" data) as Hl.
  destruct (Nat.eqb_spec (List.length (split ":" data)) 4) as [E|_]; [lia|reflexivity].
Qed.

End Codec.

Import Samples.

Definition sample_payload : string :=
  match encrypt (cipher := MirrorCipher) (Some sample_key) sample_iv sample_salt
          sample_plaintext with
  | Ok p => p
  | Throw _ => ""
  end.

Lemma sealed_payload_layout_witness :
  exists ciphertext tag,
    split ":" sample_payload
    = [toHex sample_iv; toHex sample_salt; toHex ciphertext; toHex tag]
    /\ count_char ":" sample_payload = 3
    /\ String.length (toHex sample_iv) = 32
    /\ String.length (toHex sample_salt) = 128
    /\ map fromHex (split ":" sample_payload) = [sample_iv; sample_salt; ciphertext; tag].
Proof.
  apply (sealed_payload_layout (cipher := MirrorCipher) sample_key sample_iv sample_salt
           sample_plaintext sample_payload).
  - vm_compute. lia.
  - reflexivity.
  - reflexivity.
  - reflexivity.
Defined.

Lemma fresh_draws_give_distinct_payloads_witness :
  sample_payload
  <> match encrypt (cipher := MirrorCipher) (Some sample_key) (repeat x2b 16) sample_salt
             sample_plaintext with
     | Ok p => p
     | Throw _ => ""
     end.
Proof.
  apply (fresh_draws_give_distinct_payloads (cipher := MirrorCipher) sample_key
           sample_iv sample_salt (repeat x2b 16) sample_salt sample_plaintext).
  - vm_compute. lia.
  - reflexivity.
  - reflexivity.
  - left. discriminate.
Defined.


Lemma decrypt_rejects_wrong_field_count_witness :
  decrypt (cipher := MirrorCipher) (Some sample_key) "not:a:payload"
  = Throw "Invalid encrypted data format".
Proof.
  apply (decrypt_rejects_wrong_field_count (cipher := MirrorCipher) sample_key
           "not:a:payload").
  - vm_compute. lia.
  - vm_compute. lia.
Defined.

End CodecFacts.

(** ** More on the Query-API client *)

Module NamecheapMore.
Import Js JsFacts Dns Dns.Namecheap Text.

(** Splitting distributes over a separator. *)
Lemma split_app_parts sep a b :
  split sep (a ++ String sep b) = (split sep a ++ split sep b)%list.
Proof.
  induction a as [|c a IH]; simpl.
  - now rewrite Ascii.eqb_refl.
  - destruct (Ascii.eqb c sep); rewrite IH; [reflexivity|].
    pose proof (split_nonempty sep a) as Hne.
    destruct (split sep a); [contradiction|reflexivity].
Qed.

(** Joining the parts with the separator gives the text back. *)
Lemma join_split sep s : join (String sep EmptyString) (split sep s) = s.
Proof.
  unfold join. induction s as [|c s IH]; [reflexivity|].
  simpl. destruct (Ascii.eqb_spec c sep) as [->|Hne].
  - pose proof (split_nonempty sep s) as Hn.
    destruct (split sep s) as [|p ps] eqn:E; [contradiction|].
    change (String.concat (String sep "") ("" :: p :: ps))
      with (String sep (String.concat (String sep "") (p :: ps))).
    now rewrite IH.
  - pose proof (split_nonempty sep s) as Hn.
    destruct (split sep s) as [|p ps] eqn:E; [contradiction|].
    destruct ps as [|q qs].
    + simpl in *. now rewrite IH.
    + change (String.concat (String sep "") (String c p :: q :: qs))
        with (String c (p ++ String sep (String.concat (String sep "") (q :: qs)))).
      change (String.concat (String sep "") (p :: q :: qs))
        with (p ++ String sep (String.concat (String sep "") (q :: qs))) in IH.
      now rewrite IH.
Qed.

Lemma firstn_all_but_two {A} (l : list A) x y :
  firstn (List.length (l ++ [x; y]) - 2) (l ++ [x; y]) = l.
Proof.
  rewrite length_app. cbn [List.length].
  replace (List.length l + 2 - 2) with (List.length l) by lia.
  rewrite firstn_app, Nat.sub_diag, firstn_all. simpl. apply app_nil_r.
Qed.

(** The parts of a name that ends in two dot-free labels. *)
Lemma split_name host sld tld :
  mem_char "." sld = false -> mem_char "." tld = false ->
  split "." (host ++ "." ++ sld ++ "." ++ tld) = (split "." host ++ [sld; tld])%list.
Proof.
  intros Hs Ht.
  change (host ++ "." ++ sld ++ "." ++ tld) with (host ++ String "." (sld ++ String "." tld)).
  rewrite split_app_parts, (split_app "." sld tld Hs), (split_colon_free "." tld Ht).
  reflexivity.
Qed.

Lemma host_of_subdomain host sld tld :
  mem_char "." sld = false -> mem_char "." tld = false -> host <> "" ->
  host_of (host ++ "." ++ sld ++ "." ++ tld) = host.
Proof.
  intros Hs Ht Hne. unfold host_of. rewrite (split_name host sld tld Hs Ht).
  rewrite (firstn_all_but_two (split "." host) sld tld).
  rewrite (join_split "." host).
  destruct (String.eqb_spec host ""); [contradiction|reflexivity].
Qed.

Lemma nth_error_app_at {A} (l : list A) x y :
  nth_error (l ++ [x; y]) (List.length (l ++ [x; y]) - 2) = Some x
  /\ nth_error (l ++ [x; y]) (List.length (l ++ [x; y]) - 1) = Some y
  /\ Nat.ltb (List.length (l ++ [x; y])) 2 = false.
Proof.
  rewrite length_app. cbn [List.length].
  replace (List.length l + 2 - 2) with (List.length l + 0) by lia.
  replace (List.length l + 2 - 1) with (List.length l + 1) by lia.
  rewrite !nth_error_app2 by lia.
  replace (List.length l + 0 - List.length l) with 0 by lia.
  replace (List.length l + 1 - List.length l) with 1 by lia.
  repeat split. apply Nat.ltb_ge. lia.
Qed.

(** The requests and the result of [createRecord] once the name has been
    taken apart into [host], [sld] and [tld]. *)
Lemma createRecord_traced_parts fetch credentials record host sld tld :
  (let parts := split "." (rec_name record) in
   (if Nat.ltb (List.length parts) 2 then None
    else at_index parts (List.length parts - 2)) = Some sld
   /\ at_index parts (List.length parts - 1) = Some tld)
  -> host_of (rec_name record) = host ->
  let run := createRecord_traced fetch credentials record in
  (forall req, In req (snd run) ->
               param_of "SLD" req = Some sld /\ param_of "TLD" req = Some tld)
  /\ (forall req, In req (snd run) -> command_of req = Some setHosts ->
                  param_of "HostName1" req = Some host
                  /\ param_of "RecordType1" req = Some (rec_type record)
                  /\ param_of "Address1" req = Some (rec_content record))
  /\ (cr_success (fst run) = true ->
      cr_recordId (fst run) = Some (host ++ ":" ++ rec_type record)).
Proof.
  cbv zeta. intros [Hsld Htld] Hhost.
  unfold createRecord_traced, makeRequest; cbn beta iota zeta.
  unfold host_of in Hhost. rewrite Hsld, Htld, Hhost. cbn [param_value].
  match goal with
  | |- context [rbind (fetch ?p) ?k] => destruct (rbind (fetch p) k) as [text|m]
  end.
  - match goal with
    | |- context [rbind (fetch ?p) ?k] => destruct (rbind (fetch p) k) as [text2|m2]
    end; cbn [fst snd].
    + split; [|split].
      * intros req [<-|[<-|[]]]; split; reflexivity.
      * intros req [<-|[<-|[]]] Hc; [discriminate Hc|]. repeat split.
      * reflexivity.
    + split; [|split].
      * intros req [<-|[<-|[]]]; split; reflexivity.
      * intros req [<-|[<-|[]]] Hc; [discriminate Hc|]. repeat split.
      * discriminate.
  - cbn [fst snd]. split; [|split].
    + intros req [<-|[]]; split; reflexivity.
    + intros req [<-|[]] Hc. discriminate Hc.
    + discriminate.
Qed.

(** X5.  [createRecord] takes the record name apart at its dots: the last
    two labels are sent as [SLD] and [TLD] on every request, what
    precedes them is the host of the new entry and of the record id, and
    a name of exactly two labels is filed under the host [@]. *)
Theorem createRecord_decomposes_name fetch credentials record sld tld :
  mem_char "." sld = false -> mem_char "." tld = false ->
  (forall host, host <> "" ->
      rec_name record = host ++ "." ++ sld ++ "." ++ tld ->
      let run := createRecord_traced fetch credentials record in
      (forall req, In req (snd run) ->
                   param_of "SLD" req = Some sld /\ param_of "TLD" req = Some tld)
      /\ (forall req, In req (snd run) -> command_of req = Some setHosts ->
                      param_of "HostName1" req = Some host
                      /\ param_of "RecordType1" req = Some (rec_type record)
                      /\ param_of "Address1" req = Some (rec_content record))
      /\ (cr_success (fst run) = true ->
          cr_recordId (fst run) = Some (host ++ ":" ++ rec_type record)))
  /\ (rec_name record = sld ++ "." ++ tld ->
      let run := createRecord_traced fetch credentials record in
      (forall req, In req (snd run) ->
                   param_of "SLD" req = Some sld /\ param_of "TLD" req = Some tld)
      /\ (forall req, In req (snd run) -> command_of req = Some setHosts ->
                      param_of "HostName1" req = Some "@"
                      /\ param_of "RecordType1" req = Some (rec_type record)
                      /\ param_of "Address1" req = Some (rec_content record))
      /\ (cr_success (fst run) = true ->
          cr_recordId (fst run) = Some ("@:" ++ rec_type record))).
Proof.
  intros Hs Ht. split.
  - intros host Hne Hname.
    apply createRecord_traced_parts.
    + cbv zeta. rewrite Hname, (split_name host sld tld Hs Ht).
      destruct (nth_error_app_at (split "." host) sld tld) as [H2 [H1 Hlt]].
      unfold at_index. rewrite Hlt. split; [exact H2|exact H1].
    + rewrite Hname. now apply host_of_subdomain.
  - intros Hname.
    apply createRecord_traced_parts.
    + cbv zeta. rewrite Hname.
      change (sld ++ "." ++ tld) with (sld ++ String "." tld).
      rewrite (split_app "." sld tld Hs), (split_colon_free "." tld Ht). split; reflexivity.
    + rewrite Hname. unfold host_of.
      change (sld ++ "." ++ tld) with (sld ++ String "." tld).
      rewrite (split_app "." sld tld Hs), (split_colon_free "." tld Ht). reflexivity.
Qed.

Lemma prefix_app p r : String.prefix p (p ++ r) = true.
Proof.
  induction p as [|c p IH]; simpl; [now destruct r|].
  destruct (Ascii.ascii_dec c c) as [_|n]; [exact IH|now destruct n].
Qed.

Lemma substring_skip p r : String.substring (String.length p) (String.length r) (p ++ r) = r.
Proof.
  induction p as [|c p IH]; simpl; [|exact IH].
  induction r as [|d r IHr]; simpl; [reflexivity|now rewrite IHr].
Qed.

Lemma drop_prefix_app p r : drop_prefix p (p ++ r) = Some r.
Proof.
  unfold drop_prefix. rewrite prefix_app. f_equal.
  replace (String.length (p ++ r) - String.length p) with (String.length r).
  - apply substring_skip.
  - rewrite CodecFacts.length_append. lia.
Qed.

Lemma drop_prefix_other c s :
  Ascii.eqb c "<" = false -> drop_prefix "<Error" (String c s) = None.
Proof.
  intros H. unfold drop_prefix.
  replace (String.prefix "<Error" (String c s)) with false; [reflexivity|].
  change (String.prefix "<Error" (String c s))
    with (if Ascii.ascii_dec "<" c then String.prefix "Error" s else false).
  destruct (Ascii.ascii_dec "<" c) as [E|_]; [|reflexivity].
  subst c. discriminate H.
Qed.

(** The run of characters other than [stop] before its first occurrence. *)
Lemma span_until stop a b :
  mem_char stop a = false ->
  span (fun c => negb (Ascii.eqb c stop)) (a ++ String stop b) = (a, String stop b).
Proof.
  induction a as [|c a IH]; simpl; intros H.
  - now rewrite Ascii.eqb_refl.
  - apply orb_false_iff in H as [Hc Ha]. rewrite Hc. simpl. now rewrite (IH Ha).
Qed.

Lemma error_element_here_matches attrs message post :
  mem_char ">" attrs = false -> mem_char "<" message = false -> message <> "" ->
  error_element_here ("<Error" ++ attrs ++ ">" ++ message ++ "</Error>" ++ post)
  = Some message.
Proof.
  intros Ha Hm Hne. unfold error_element_here.
  rewrite (drop_prefix_app "<Error").
  change (attrs ++ ">" ++ message ++ "</Error>" ++ post)
    with (attrs ++ String ">" (message ++ String "<" ("/Error>" ++ post))).
  rewrite (span_until ">" attrs _ Ha).
  rewrite (span_until "<" message _ Hm).
  change (String "<" ("/Error>" ++ post)) with ("</Error>" ++ post).
  rewrite (prefix_app "</Error>" post).
  destruct (String.eqb_spec message ""); [contradiction|reflexivity].
Qed.

Lemma error_element_skips pre rest :
  mem_char "<" pre = false -> error_element (pre ++ rest) = error_element rest.
Proof.
  induction pre as [|c pre IH]; intros H; [reflexivity|].
  simpl in H. apply orb_false_iff in H as [Hc Hp].
  change (String c pre ++ rest) with (String c (pre ++ rest)).
  cbn [error_element]. unfold error_element_here at 1.
  rewrite (drop_prefix_other c _ Hc). now apply IH.
Qed.

Lemma error_element_found pre attrs message post :
  mem_char "<" pre = false ->
  mem_char ">" attrs = false -> mem_char "<" message = false -> message <> "" ->
  error_element (pre ++ "<Error" ++ attrs ++ ">" ++ message ++ "</Error>" ++ post)
  = Some message.
Proof.
  intros Hp Ha Hm Hne. rewrite (error_element_skips pre _ Hp).
  change ("<Error" ++ attrs ++ ">" ++ message ++ "</Error>" ++ post)
    with (String "<" ("Error" ++ attrs ++ ">" ++ message ++ "</Error>" ++ post)).
  cbn [error_element].
  change (String "<" ("Error" ++ attrs ++ ">" ++ message ++ "</Error>" ++ post))
    with ("<Error" ++ attrs ++ ">" ++ message ++ "</Error>" ++ post).
  now rewrite (error_element_here_matches attrs message post Ha Hm Hne).
Qed.

(** A pattern without [<] cannot match across a following [<]. *)
Lemma prefix_before_lt p suf r :
  mem_char "<" p = false ->
  String.prefix p (suf ++ String "<" r) = String.prefix p suf.
Proof.
  revert suf. induction p as [|a p IH]; intros suf Hp.
  - now destruct suf.
  - simpl in Hp. apply orb_false_iff in Hp as [Ha Hp].
    destruct suf as [|c suf].
    + change (String.prefix (String a p) ("" ++ String "<" r))
        with (if Ascii.ascii_dec a "<" then String.prefix p r else false).
      destruct (Ascii.ascii_dec a "<") as [E|_]; [|reflexivity].
      subst a. discriminate Ha.
    + change (String.prefix (String a p) (String c suf ++ String "<" r))
        with (if Ascii.ascii_dec a c then String.prefix p (suf ++ String "<" r) else false).
      change (String.prefix (String a p) (String c suf))
        with (if Ascii.ascii_dec a c then String.prefix p suf else false).
      destruct (Ascii.ascii_dec a c); [now apply IH|reflexivity].
Qed.

(** No element starts inside a text that does not contain [<Error], when
    what follows starts with [<]. *)
Lemma error_element_skips_text pre r :
  Js.includes "<Error" pre = false ->
  error_element (pre ++ String "<" r) = error_element (String "<" r).
Proof.
  induction pre as [|c pre IH]; intros H; [reflexivity|].
  cbn [Js.includes] in H. apply orb_false_iff in H as [Hhere Hrest].
  change (String c pre ++ String "<" r) with (String c (pre ++ String "<" r)).
  cbn [error_element].
  assert (error_element_here (String c (pre ++ String "<" r)) = None) as ->.
  { unfold error_element_here, drop_prefix.
    change (String c (pre ++ String "<" r)) with (String c pre ++ String "<" r).
    change "<Error" with (String "<" "Error").
    change (String.prefix (String "<" "Error") (String c pre ++ String "<" r))
      with (if Ascii.ascii_dec "<" c
            then String.prefix "Error" (pre ++ String "<" r) else false).
    change (String.prefix "<Error" (String c pre))
      with (if Ascii.ascii_dec "<" c then String.prefix "Error" pre else false) in Hhere.
    destruct (Ascii.ascii_dec "<" c); [|reflexivity].
    rewrite (prefix_before_lt "Error" pre r eq_refl), Hhere. reflexivity. }
  now apply IH.
Qed.

(** The enclosing [<Errors>] tag is tried and given up. *)
Lemma error_element_here_wrapper ws rest :
  mem_char "<" ws = false ->
  error_element_here ("<Errors>" ++ ws ++ String "<" (String "E" rest)) = None.
Proof.
  intros Hw. unfold error_element_here.
  change ("<Errors>" ++ ws ++ String "<" (String "E" rest))
    with ("<Error" ++ ("s" ++ String ">" (ws ++ String "<" (String "E" rest)))).
  rewrite (drop_prefix_app "<Error").
  rewrite (span_until ">" "s" _ eq_refl).
  rewrite (span_until "<" ws _ Hw).
  destruct (String.eqb ws ""); reflexivity.
Qed.

Lemma error_element_in_errors pre ws attrs message post :
  Js.includes "<Error" pre = false ->
  mem_char "<" ws = false ->
  mem_char ">" attrs = false -> mem_char "<" message = false -> message <> "" ->
  error_element (pre ++ "<Errors>" ++ ws ++ "<Error" ++ attrs ++ ">" ++ message
                 ++ "</Error>" ++ post)
  = Some message.
Proof.
  intros Hp Hw Ha Hm Hne.
  change (pre ++ "<Errors>" ++ ws ++ "<Error" ++ attrs ++ ">" ++ message
          ++ "</Error>" ++ post)
    with (pre ++ String "<" ("Errors>" ++ ws ++ "<Error" ++ attrs ++ ">" ++ message
                             ++ "</Error>" ++ post)).
  rewrite (error_element_skips_text pre _ Hp).
  cbn [error_element].
  change (String "<" ("Errors>" ++ ws ++ "<Error" ++ attrs ++ ">" ++ message
                      ++ "</Error>" ++ post))
    with ("<Errors>" ++ ws ++ String "<" (String "E" ("rror" ++ attrs ++ ">" ++ message
                                                       ++ "</Error>" ++ post))).
  rewrite (error_element_here_wrapper ws _ Hw).
  change ("Errors>" ++ ws ++ "<Error" ++ attrs ++ ">" ++ message ++ "</Error>" ++ post)
    with (("Errors>" ++ ws) ++ ("<Error" ++ attrs ++ ">" ++ message ++ "</Error>" ++ post)).
  apply error_element_found; assumption.
Qed.

(** X6.  When the registrar answers a request with [Status="ERROR"] and an
    [<Errors>] list, [makeRequest] throws the text of its first
    [<Error ...>] element, whatever the attributes of the element and
    whatever precedes the list and follows the element. *)
Theorem makeRequest_throws_registrar_message
  fetch credentials command extra pre ws attrs message post :
  let text := pre ++ "<Errors>" ++ ws ++ "<Error" ++ attrs ++ ">" ++ message
              ++ "</Error>" ++ post in
  (forall req, In req (snd (makeRequest fetch credentials command extra)) ->
               fetch req = Ok text) ->
  Js.includes error_marker text = true ->
  Js.includes "<Error" pre = false ->
  mem_char "<" ws = false ->
  mem_char ">" attrs = false ->
  mem_char "<" message = false ->
  message <> "" ->
  fst (makeRequest fetch credentials command extra) = Throw message.
Proof.
  intros text Hfetch Hmark Hp Hw Ha Hm Hne.
  unfold makeRequest in *. cbn [fst snd] in *.
  rewrite (Hfetch _ (or_introl eq_refl)). cbn [rbind]. rewrite Hmark.
  subst text.
  now rewrite (error_element_in_errors pre ws attrs message post Hp Hw Ha Hm Hne).
Qed.

(** X7.  A read of the host list that fails (the exchange faults, or the
    registrar answers with [Status="ERROR"]) ends [createRecord]: it
    reports failure and the one request it sent is [getHosts]; no
    [setHosts] follows. *)
Theorem createRecord_stops_after_failed_read fetch credentials record :
  (forall req, command_of req = Some getHosts ->
               is_ok (fetch req) = false
               \/ exists text, fetch req = Ok text /\ Js.includes error_marker text = true) ->
  exists req message,
    createRecord_traced fetch credentials record = (create_failed message, [req])
    /\ command_of req = Some getHosts.
Proof.
  intros Hread.
  unfold createRecord_traced, makeRequest; cbn beta iota zeta.
  match goal with
  | |- context [rbind (fetch ?p) ?k] =>
      destruct (Hread p eq_refl) as [Hf|[text [Hf Hm]]]
  end.
  - match goal with
    | |- context [rbind (fetch ?p) ?k] => destruct (fetch p) as [t|m]; [discriminate|]
    end.
    cbn [rbind]. do 2 eexists. split; reflexivity.
  - rewrite Hf. cbn [rbind]. rewrite Hm. do 2 eexists. split; reflexivity.
Qed.

Import Samples MoreSamples.

Lemma createRecord_decomposes_name_witness :
  cr_recordId (fst (createRecord_traced zone_with_www namecheap_credentials blog_record))
  = Some "blog:A".
Proof.
  apply (proj1 (createRecord_decomposes_name zone_with_www namecheap_credentials blog_record
                  "example" "com" eq_refl eq_refl)
           "blog" ltac:(discriminate) eq_refl).
  reflexivity.
Defined.

Lemma makeRequest_throws_registrar_message_witness :
  fst (makeRequest refusing_registrar namecheap_credentials getHosts
         [("SLD", "example"); ("TLD", "com")])
  = Throw "Domain name not found".
Proof.
  apply (makeRequest_throws_registrar_message refusing_registrar namecheap_credentials
           getHosts [("SLD", "example"); ("TLD", "com")]
           refused_pre " " refused_attrs "Domain name not found" "</Errors></ApiResponse>").
  - intros req _. reflexivity.
  - reflexivity.
  - reflexivity.
  - reflexivity.
  - reflexivity.
  - reflexivity.
  - discriminate.
Defined.

Lemma createRecord_stops_after_failed_read_witness :
  exists req message,
    createRecord_traced unreachable_registrar namecheap_credentials blog_record
    = (create_failed message, [req])
    /\ command_of req = Some getHosts.
Proof.
  apply (createRecord_stops_after_failed_read unreachable_registrar namecheap_credentials
           blog_record).
  intros req _. left. reflexivity.
Defined.

End NamecheapMore.

(** ** More on the provider factory and the Token-REST client *)

Module FactoryMore.
Import Dns Dns.Factory Samples MoreSamples.

Section Facts.
Context {cipher : Encryption.AesGcm}.
Variable JSON_parse : string -> Result JsonObject.
Variable cloudflare : Cloudflare.Network.
Variable namecheap : Namecheap.Request -> Result string.

(** X8.  The liveness probe of [validateCredentials] is a record listing,
    and only the Token-REST client can answer one: for every registrar
    tag other than CLOUDFLARE the credentials are reported invalid,
    whatever they are. *)
Theorem credentials_validate_for_cloudflare_only env_key registrar sealed :
  registrar <> "CLOUDFLARE" ->
  valid (validateCredentials env_key JSON_parse cloudflare namecheap registrar sealed)
  = false.
Proof.
  intros Hne.
  destruct (valid (validateCredentials env_key JSON_parse cloudflare namecheap
                     registrar sealed)) eqn:E; [|reflexivity].
  apply FactoryFacts.validateCredentials_only_cloudflare in E. contradiction.
Qed.

(** X9.  Credentials sealed by [encrypt] under the process key come back
    out of the factory: for each of the three tags the client is built
    from the properties of the object that was sealed. *)
Theorem createDNSProvider_of_sealed_credentials key iv salt text credentials sealed :
  32 <= String.length key ->
  List.length iv = Encryption.IV_LENGTH ->
  Encryption.encrypt (Some key) iv salt text = Ok sealed ->
  JSON_parse text = Ok credentials ->
  createDNSProvider (Some key) JSON_parse cloudflare namecheap "CLOUDFLARE" sealed
  = Ok (Cloudflare.provider cloudflare
          {| Cloudflare.apiToken := property credentials "apiToken";
             Cloudflare.zoneId := property credentials "zoneId" |})
  /\ createDNSProvider (Some key) JSON_parse cloudflare namecheap "ROUTE53" sealed
     = Ok (Route53.provider
             {| Route53.accessKeyId := property credentials "accessKeyId";
                Route53.secretAccessKey := property credentials "secretAccessKey";
                Route53.hostedZoneId := property credentials "hostedZoneId";
                Route53.region := optional_property credentials "region" |})
  /\ createDNSProvider (Some key) JSON_parse cloudflare namecheap "NAMECHEAP" sealed
     = Ok (Namecheap.provider namecheap
             {| Namecheap.apiKey := property credentials "apiKey";
                Namecheap.apiUser := property credentials "apiUser";
                Namecheap.username := property credentials "username";
                Namecheap.clientIp := property credentials "clientIp" |}).
Proof.
  intros Hlen Hiv Henc Hparse.
  pose proof (CodecFacts.decrypt_of_encrypt key key iv salt text sealed
                Hlen Hlen eq_refl Hiv Henc) as Hdec.
  unfold createDNSProvider. rewrite Hdec. cbn [rbind]. rewrite Hparse. cbn [rbind].
  repeat split.
Qed.

(** X10.  A tag outside the three registrars is refused with
    [Unsupported registrar: <tag>], but only once the credentials have
    been unsealed and decoded: credentials that do not unseal fail with
    the codec's error first, whatever the tag. *)
Theorem unknown_registrar_is_refused env_key registrar sealed :
  registrar <> "CLOUDFLARE" -> registrar <> "ROUTE53" -> registrar <> "NAMECHEAP" ->
  (forall text credentials,
      Encryption.decrypt env_key sealed = Ok text ->
      JSON_parse text = Ok credentials ->
      createDNSProvider env_key JSON_parse cloudflare namecheap registrar sealed
      = Throw ("Unsupported registrar: " ++ registrar))
  /\ (forall message,
        Encryption.decrypt env_key sealed = Throw message ->
        createDNSProvider env_key JSON_parse cloudflare namecheap registrar sealed
        = Throw message).
Proof.
  intros H1 H2 H3. split.
  - intros text credentials Hd Hp.
    now apply (FactoryFacts.createDNSProvider_unsupported env_key JSON_parse cloudflare
                 namecheap registrar sealed text credentials).
  - intros message Hd. unfold createDNSProvider. now rewrite Hd.
Qed.

End Facts.

Lemma credentials_validate_for_cloudflare_only_witness :
  valid (validateCredentials (cipher := EncryptionFacts.MirrorCipher) (Some sample_key)
           decode (zone_with []) zone_with_www "ROUTE53" CodecFacts.sample_payload)
  = false.
Proof.
  apply (credentials_validate_for_cloudflare_only (cipher := EncryptionFacts.MirrorCipher)
           decode (zone_with []) zone_with_www (Some sample_key) "ROUTE53"
           CodecFacts.sample_payload).
  discriminate.
Defined.

Lemma createDNSProvider_of_sealed_credentials_witness :
  createDNSProvider (cipher := EncryptionFacts.MirrorCipher) (Some sample_key) decode
    (zone_with []) zone_with_www "CLOUDFLARE" CodecFacts.sample_payload
  = Ok (Cloudflare.provider (zone_with [])
          {| Cloudflare.apiToken := "t0k3n"; Cloudflare.zoneId := "z1" |}).
Proof.
  apply (proj1 (createDNSProvider_of_sealed_credentials
                  (cipher := EncryptionFacts.MirrorCipher) decode (zone_with [])
                  zone_with_www sample_key sample_iv sample_salt sample_plaintext
                  decoded_credentials CodecFacts.sample_payload
                  ltac:(vm_compute; lia) eq_refl eq_refl eq_refl)).
Defined.

Lemma unknown_registrar_is_refused_witness :
  createDNSProvider (cipher := EncryptionFacts.MirrorCipher) (Some sample_key) decode
    (zone_with []) zone_with_www "GODADDY" CodecFacts.sample_payload
  = Throw "Unsupported registrar: GODADDY".
Proof.
  apply (proj1 (unknown_registrar_is_refused (cipher := EncryptionFacts.MirrorCipher)
                  decode (zone_with []) zone_with_www (Some sample_key) "GODADDY"
                  CodecFacts.sample_payload
                  ltac:(discriminate) ltac:(discriminate) ltac:(discriminate))
           sample_plaintext decoded_credentials eq_refl eq_refl).
Defined.

End FactoryMore.

Module CloudflareMore.
Import Dns Dns.Cloudflare Text Samples MoreSamples.

Lemma checked_refused {P} (r : Result (Response P)) message :
  refused_with r message -> checked r = Throw message.
Proof.
  unfold refused_with, checked. destruct r as [resp|fault]; cbn [rbind].
  - intros [Hbad ->].
    assert (negb (resp_ok resp) || negb (data_success resp) = true) as ->.
    { destruct Hbad as [-> | ->]; [reflexivity|apply orb_true_r]. }
    unfold Js.or_else, Js.truthy.
    destruct (data_first_error resp) as [e|]; [|reflexivity].
    destruct (String.eqb e ""); reflexivity.
  - now intros ->.
Qed.

(** X11.  No failure of the Token-REST registrar escapes as a fault: when
    every exchange is refused with one message (the exchange faults, or
    the answer carries a negative status or [success: false]), each of
    the five operations returns [success: false] with that message as its
    error, the provider's own first error message when it sent one. *)
Theorem cloudflare_failures_are_reported net credentials message
  (record : DNSRecord) (recordId : string) (fields : PartialDNSRecord)
  (type : option string) (token : string) :
  (forall req, refused_with (fetch_list net req) message) ->
  (forall req, refused_with (fetch_one net req) message) ->
  createRecord net credentials record = create_failed message
  /\ deleteRecord net credentials recordId = op_failed message
  /\ updateRecord net credentials recordId fields = op_failed message
  /\ listRecords net credentials type = list_failed message
  /\ verifyOwnership net credentials token = op_failed message.
Proof.
  intros Hlist Hone.
  unfold createRecord, deleteRecord, updateRecord, listRecords, verifyOwnership,
    fetched_txt_records, makeRequest_one, makeRequest_list.
  rewrite !(checked_refused _ message (Hone _)).
  rewrite !(checked_refused _ message (Hlist _)).
  repeat split.
Qed.

Lemma cloudflare_failures_are_reported_witness :
  createRecord unauthorized_network cloudflare_credentials blog_record
  = create_failed "Authentication error"
  /\ deleteRecord unauthorized_network cloudflare_credentials "rec_77"
     = op_failed "Authentication error"
  /\ updateRecord unauthorized_network cloudflare_credentials "rec_77"
       {| upd_type := None; upd_name := None; upd_content := Some "192.0.2.2";
          upd_ttl := None; upd_priority := None |}
     = op_failed "Authentication error"
  /\ listRecords unauthorized_network cloudflare_credentials None
     = list_failed "Authentication error"
  /\ verifyOwnership unauthorized_network cloudflare_credentials "9f3a"
     = op_failed "Authentication error".
Proof.
  apply (cloudflare_failures_are_reported unauthorized_network cloudflare_credentials
           "Authentication error").
  - intros req. split; [now left|reflexivity].
  - intros req. split; [now left|reflexivity].
Defined.

End CloudflareMore.

(** ** More on the webhook *)

Module WebhookMore.
Import Store Proc Webhook StoreFacts WebhookFacts Text.

Lemma truthy_some s : s <> "" -> Js.truthy (Some s) = true.
Proof.
  intros H. unfold Js.truthy. destruct (String.eqb_spec s ""); [contradiction|reflexivity].
Qed.

(** X12.  An event that is not authenticated is not processed: without a
    [stripe-signature] header the route answers 400 and changes nothing;
    when the signature does not verify it answers 400 with the verifier's
    message, and neither a table nor a registrar is touched. *)
Theorem unauthenticated_events_are_not_processed env request w :
  (Js.truthy (req_signature request) = false ->
   POST env request w = (Ok (BadRequest "Missing stripe-signature header"), w))
  /\ (forall signature message,
        req_signature request = Some signature -> signature <> "" ->
        constructEvent env (req_body request) signature = Throw message ->
        fst (POST env request w) = Ok (BadRequest ("Webhook Error: " ++ message))
        /\ db (snd (POST env request w)) = db w
        /\ dns_calls (snd (POST env request w)) = dns_calls w).
Proof.
  split.
  - intros Hsig. unfold POST.
    destruct (req_signature request) as [signature|]; [|reflexivity].
    rewrite Hsig. reflexivity.
  - intros signature message Hsig Hne Hev. unfold POST.
    rewrite Hsig, (truthy_some _ Hne), Hev. repeat split.
Qed.

Lemma updateTransactionStatus_found d t st :
  In t (transactions d) ->
  exists d', updateTransactionStatus d (t_id t) st = Ok d'
             /\ listings d' = listings d /\ rentals d' = rentals d
             /\ transactions d'
                = map (fun x => if Nat.eqb (t_id x) (t_id t) then with_t_status st x else x)
                      (transactions d).
Proof.
  intros Hin. unfold updateTransactionStatus.
  destruct (find (fun x => Nat.eqb (t_id x) (t_id t)) (transactions d)) as [x|] eqn:E.
  - eexists. repeat split.
  - apply (find_none _ _ E) in Hin. now rewrite Nat.eqb_refl in Hin.
Qed.

Lemma findTransactionByIntent_member d intent t :
  findTransactionByIntent d intent = Some t ->
  In t (transactions d) /\ stripePaymentIntentId t = intent.
Proof.
  intros H. apply find_some in H as [Hin Heq]. split; [exact Hin|].
  now apply String.eqb_eq.
Qed.

Lemma findRental_member d id r :
  findRental d id = Some r -> In r (rentals d) /\ r_id r = id.
Proof.
  intros H. apply find_some in H as [Hin Heq]. split; [exact Hin|].
  now apply Nat.eqb_eq.
Qed.

(** X13.  A failed payment marks its transaction Failed and cascades its
    rental to Cancelled, and that is all it does: the handler returns
    normally and makes no call on a registrar, so the DNS record of the
    rental is left in place. *)
Theorem payment_failed_cancels_without_dns intent w transaction rental :
  findTransactionByIntent (db w) intent = Some transaction ->
  findRental (db w) (rentalId transaction) = Some rental ->
  let after := handlePaymentIntentFailed intent w in
  fst after = Ok tt
  /\ listings (db (snd after)) = listings (db w)
  /\ rentals (db (snd after))
     = map (set_status_of (rentalId transaction) CANCELLED) (rentals (db w))
  /\ In (with_status CANCELLED rental) (rentals (db (snd after)))
  /\ transactions (db (snd after))
     = map (fun t => if Nat.eqb (t_id t) (t_id transaction)
                     then with_t_status FAILED t else t)
           (transactions (db w))
  /\ dns_calls (snd after) = dns_calls w.
Proof.
  intros Ht Hr after. subst after.
  destruct (findTransactionByIntent_member _ _ _ Ht) as [Hin _].
  destruct (findRental_member _ _ _ Hr) as [Hrin Hrid].
  destruct (updateTransactionStatus_found (db w) transaction FAILED Hin)
    as [d1 [Hu [Hl1 [Hr1 Ht1]]]].
  unfold handlePaymentIntentFailed. step. rewrite Ht, Hu. cbn [db dns_calls console].
  assert (Hin1 : In rental (rentals d1)) by now rewrite Hr1.
  pose proof (updateRentalStatus_found d1 rental CANCELLED Hin1) as Hu2.
  rewrite Hrid in Hu2. rewrite Hu2. cbn [fst snd db dns_calls listings rentals transactions].
  rewrite Hl1, Hr1, Ht1. repeat split.
  apply in_map_iff. exists rental. split; [|exact Hrin].
  unfold set_status_of. rewrite Hrid, Nat.eqb_refl. reflexivity.
Qed.

(** X14.  A succeeded payment only ever touches transactions: the handler
    returns normally, listings and rentals are as before (a rental
    Cancelled by an earlier failure stays Cancelled) and no registrar is
    called; the transaction of the payment, when there is one, becomes
    Completed, and an unknown payment changes no table. *)
Theorem payment_succeeded_touches_transactions_only intent w :
  let after := handlePaymentIntentSucceeded intent w in
  fst after = Ok tt
  /\ listings (db (snd after)) = listings (db w)
  /\ rentals (db (snd after)) = rentals (db w)
  /\ dns_calls (snd after) = dns_calls w
  /\ (forall t, findTransactionByIntent (db w) intent = Some t ->
                findTransactionByIntent (db (snd after)) intent
                = Some (with_t_status COMPLETED t))
  /\ (findTransactionByIntent (db w) intent = None -> db (snd after) = db w).
Proof.
  cbv zeta. unfold handlePaymentIntentSucceeded. step.
  destruct (findTransactionByIntent (db w) intent) as [t|] eqn:Ht.
  - destruct (findTransactionByIntent_member _ _ _ Ht) as [Hin Hintent].
    destruct (updateTransactionStatus_found (db w) t COMPLETED Hin)
      as [d1 [Hu [Hl1 [Hr1 Ht1]]]].
    rewrite Hu. cbn [fst snd db dns_calls console].
    split; [reflexivity|split; [exact Hl1|split; [exact Hr1|split; [reflexivity|split]]]].
    + intros t0 Heq. injection Heq as <-.
      unfold findTransactionByIntent. rewrite Ht1.
      rewrite (find_map_preserved
                 (fun x => String.eqb (stripePaymentIntentId x) intent)
                 (fun x => if Nat.eqb (t_id x) (t_id t) then with_t_status COMPLETED x else x)).
      * unfold findTransactionByIntent in Ht. rewrite Ht. cbn [option_map].
        now rewrite Nat.eqb_refl.
      * intros x. now destruct (Nat.eqb (t_id x) (t_id t)).
    + discriminate.
  - cbn [fst snd db dns_calls console]. repeat split. discriminate.
Qed.

(** *** The store under the webhook *)

Lemma evolves_write d d' : store_write d d' -> evolves d d'.
Proof. intros H. exact (evolves_step d d d' (evolves_refl d) H). Qed.

Lemma evolves_trans d1 d2 d3 : evolves d1 d2 -> evolves d2 d3 -> evolves d1 d3.
Proof.
  intros H12 H23. induction H23 as [|d d' d'' _ IH Hw]; [exact H12|].
  exact (evolves_step _ _ _ (IH H12) Hw).
Qed.

Lemma handlePaymentIntentSucceeded_evolves intent w :
  evolves (db w) (db (snd (handlePaymentIntentSucceeded intent w))).
Proof.
  unfold handlePaymentIntentSucceeded. step.
  destruct (findTransactionByIntent (db w) intent) as [t|]; [|apply evolves_refl].
  destruct (updateTransactionStatus (db w) (t_id t) COMPLETED) as [d1|m] eqn:E;
    cbn [snd db]; [|apply evolves_refl].
  apply evolves_write. now apply (write_transactionStatus _ (t_id t) COMPLETED).
Qed.

Lemma handlePaymentIntentFailed_evolves intent w :
  evolves (db w) (db (snd (handlePaymentIntentFailed intent w))).
Proof.
  unfold handlePaymentIntentFailed. step.
  destruct (findTransactionByIntent (db w) intent) as [t|]; [|apply evolves_refl].
  destruct (updateTransactionStatus (db w) (t_id t) FAILED) as [d1|m] eqn:E1;
    cbn [snd db]; [|apply evolves_refl].
  pose proof (evolves_write _ _ (write_transactionStatus _ (t_id t) FAILED _ E1)) as H1.
  destruct (updateRentalStatus d1 (rentalId t) CANCELLED) as [d2|m] eqn:E2;
    cbn [snd db]; [|exact H1].
  exact (evolves_step _ _ _ H1 (write_cancelRental _ _ _ E2)).
Qed.

Lemma handleSubscriptionDeleted_evolves env sub w :
  evolves (db w) (db (snd (handleSubscriptionDeleted env sub w))).
Proof.
  unfold handleSubscriptionDeleted. step.
  destruct (findRentalBySubscription (db w) sub) as [rental|]; [|apply evolves_refl].
  destruct (findListing (db w) (listingId rental)) as [listing|]; [|apply evolves_refl].
  assert (exists w1, (if isVerified listing then deprovision env listing rental else ret tt) w
                     = (Ok tt, w1) /\ db w1 = db w) as [w1 [Hd Hdb]].
  { destruct (isVerified listing); [apply deprovision_safe|].
    exists w. split; reflexivity. }
  unfold ret in Hd. rewrite Hd, Hdb.
  destruct (updateRentalStatus (db w) (r_id rental) CANCELLED) as [d1|m] eqn:E;
    cbn [snd db]; [|rewrite Hdb; apply evolves_refl].
  apply evolves_write. exact (write_cancelRental _ _ _ E).
Qed.

Lemma handleCheckoutSessionCompleted_evolves env session w :
  evolves (db w) (db (snd (handleCheckoutSessionCompleted env session w))).
Proof.
  unfold handleCheckoutSessionCompleted. step.
  destruct (metadata session) as [md|]; [|apply evolves_refl].
  pose proof (billing_of_world env session w) as Hw.
  destruct (billing_of env session w) as [[bill|m] wb]; cbn [fst snd] in *; subst wb;
    [|apply evolves_refl].
  destruct bill as [[[amount subscriptionId] periodStart] periodEnd].
  destruct (findListing (db w) (md_listingId md)) as [listing|]; [|apply evolves_refl].
  destruct (isVerified listing); cbn [negb]; [|apply evolves_refl].
  destruct (existsb (String.eqb (md_dnsRecordType md)) (allowedRecordTypes listing));
    cbn [negb]; [|apply evolves_refl].
  destruct (provision_safe env listing md w) as [rid [w1 [Hp [Hdb _]]]].
  rewrite Hp, Hdb.
  match goal with
  | |- context [createRental (db w) ?data] =>
      pose proof (evolves_write _ _ (write_createRental (db w) data)) as H1;
      destruct (createRental (db w) data) as [rental d1] eqn:E1
  end.
  cbn [snd] in H1. cbn [db dns_calls console].
  destruct (payment_intent session) as [intent|]; [|exact H1].
  destruct (Js.truthy (Some intent)); [|exact H1].
  match goal with
  | |- context [createTransaction d1 ?data] =>
      pose proof (write_createTransaction d1 data) as H2;
      destruct (createTransaction d1 data) as [t d2] eqn:E2
  end.
  cbn [snd] in H2. cbn [snd db]. exact (evolves_step _ _ _ H1 H2).
Qed.

Lemma POST_evolves env request w :
  evolves (db w) (db (snd (POST env request w))).
Proof.
  unfold POST.
  destruct (req_signature request) as [signature|]; [|apply evolves_refl].
  destruct (Js.truthy (Some signature)); [|apply evolves_refl].
  destruct (constructEvent env (req_body request) signature) as [event|m];
    [|apply evolves_refl].
  assert (forall (h : M unit),
             evolves (db w) (db (snd (h w))) ->
             evolves (db w)
               (db (snd (try_catch (bind h (fun _ => ret Received))
                           (fun error =>
                              bind (log (LogError "Error processing webhook:" error))
                                   (fun _ => ret (ProcessingFailed
                                                    "Webhook processing failed"))) w))))
    as Hwrap.
  { intros h Hh. step. destruct (h w) as [[u|e] w']; exact Hh. }
  destruct event; apply Hwrap.
  - apply handleCheckoutSessionCompleted_evolves.
  - apply handlePaymentIntentSucceeded_evolves.
  - apply handlePaymentIntentFailed_evolves.
  - apply handleSubscriptionDeleted_evolves.
  - apply evolves_refl.
Qed.

Lemma store_write_keeps d d' : store_write d d' -> keeps_rentals d d'.
Proof.
  intros [d0 data|d0 data|d0 id d1 H|d0 id st d1 H]; unfold keeps_rentals.
  - cbn. split; [reflexivity|]. intros r Hin. left. apply in_or_app. now left.
  - cbn. split; [reflexivity|]. intros r Hin. now left.
  - unfold updateRentalStatus in H. destruct (findRental d0 id) as [found|]; [|discriminate].
    injection H as <-. cbn. split; [reflexivity|]. intros r Hin.
    apply (in_map (set_status_of id CANCELLED)) in Hin. unfold set_status_of at 1 in Hin.
    destruct (Nat.eqb (r_id r) id); [now right|now left].
  - unfold updateTransactionStatus in H.
    destruct (find (fun t => Nat.eqb (t_id t) id) (transactions d0)) as [found|];
      [|discriminate].
    injection H as <-. cbn. split; [reflexivity|]. intros r Hin. now left.
Qed.

Lemma evolves_keeps d d' : evolves d d' -> keeps_rentals d d'.
Proof.
  induction 1 as [d|d d1 d2 _ [IHl IHr] Hw].
  - split; [reflexivity|]. intros r Hin. now left.
  - destruct (store_write_keeps _ _ Hw) as [Hl Hr]. split; [now rewrite Hl|].
    intros r Hin. destruct (IHr r Hin) as [H|H].
    + exact (Hr r H).
    + right. destruct (Hr _ H) as [H'|H']; [exact H'|].
      now rewrite with_status_idem in H'.
Qed.

(** X15.  Whatever event is delivered and whatever the registrar and the
    payment service answer, the webhook leaves the listings as they are
    and removes no rental: every rental row of the store is still there
    afterwards, unchanged or with its status set to Cancelled.  No event
    expires a rental or makes a cancelled rental active again. *)
Theorem webhook_keeps_listings_and_rentals env request w :
  keeps_rentals (db w) (db (snd (POST env request w))).
Proof. apply evolves_keeps, POST_evolves. Qed.

Lemma fresh_id_above ids x : In x ids -> x < fresh_id ids.
Proof.
  unfold fresh_id. induction ids as [|y ids IH]; intros Hin; [destruct Hin|].
  cbn [fold_right]. destruct Hin as [->|Hin]; [lia|]. specialize (IH Hin). lia.
Qed.

(** *** Dispatch and the checkout handler *)

(** An authenticated delivery runs the handler of its event; a handler
    that throws is answered with the 500 body. *)
Lemma POST_dispatch env request signature event w :
  req_signature request = Some signature ->
  signature <> "" ->
  constructEvent env (req_body request) signature = Ok event ->
  POST env request w
  = match dispatch env event w with
    | (Ok _, w') => (Ok Received, w')
    | (Throw e, w') =>
        (Ok (ProcessingFailed "Webhook processing failed"),
         {| db := db w'; dns_calls := dns_calls w';
            console := (console w' ++ [LogError "Error processing webhook:" e])%list |})
    end.
Proof.
  intros Hsig Hne Hev. unfold POST. rewrite Hsig, (truthy_some _ Hne), Hev.
  change (match event with
          | CheckoutSessionCompleted session => handleCheckoutSessionCompleted env session
          | PaymentIntentSucceeded i => handlePaymentIntentSucceeded i
          | PaymentIntentFailed i => handlePaymentIntentFailed i
          | SubscriptionDeleted s => handleSubscriptionDeleted env s
          | OtherEvent type => log (LogInfo "Unhandled event type:" type)
          end) with (dispatch env event).
  unfold try_catch, bind. destruct (dispatch env event w) as [[u|e] w']; reflexivity.
Qed.

Lemma billing_of_result env session w w' :
  fst (billing_of env session w) = fst (billing_of env session w').
Proof.
  unfold billing_of.
  destruct (subscription session) as [s|]; [|reflexivity].
  destruct (Js.truthy (Some s)); [|reflexivity].
  step. destruct (retrieveSubscription env s); reflexivity.
Qed.

(** A checkout that passes the checks: the DNS attempt, then the writes. *)
Lemma checkout_passing env session w md listing amount subscriptionId periodStart periodEnd :
  metadata session = Some md ->
  fst (billing_of env session w) = Ok (amount, subscriptionId, periodStart, periodEnd) ->
  findListing (db w) (md_listingId md) = Some listing ->
  isVerified listing = true ->
  existsb (String.eqb (md_dnsRecordType md)) (allowedRecordTypes listing) = true ->
  exists rid w1,
    provision env listing md w = (Ok rid, w1)
    /\ fst (handleCheckoutSessionCompleted env session w) = Ok tt
    /\ dns_calls (snd (handleCheckoutSessionCompleted env session w)) = dns_calls w1
    /\ db (snd (handleCheckoutSessionCompleted env session w))
       = checkout_writes (db w) md amount subscriptionId periodStart periodEnd
           (payment_intent session).
Proof.
  intros Hmd Hbill Hl Hv Hallowed.
  destruct (provision_safe env listing md w) as [rid [w1 [Hp [Hdb _]]]].
  exists rid, w1. split; [exact Hp|].
  unfold handleCheckoutSessionCompleted. step. rewrite Hmd.
  pose proof (billing_of_world env session w) as Hw.
  destruct (billing_of env session w) as [r wb]; cbn [fst snd] in *; subst wb r.
  rewrite Hl, Hv, Hallowed. cbn [negb]. rewrite Hp, Hdb.
  unfold checkout_writes, createRental, createTransaction, rental_data, transaction_data.
  cbn [fst snd db dns_calls console r_id].
  destruct (payment_intent session) as [intent|]; [|repeat split].
  destruct (Js.truthy (Some intent)); repeat split.
Qed.

(** What the DNS attempt of a checkout asks of [lib/dns] when the factory
    yields a client. *)
Lemma provision_calls env listing md w client :
  createDNSProvider env (registrar listing) (apiCredentialsEncrypted listing) = Ok client ->
  dns_calls (snd (provision env listing md w))
  = (dns_calls w ++ [CallFactory (registrar listing); CallCreate (requested_record md)])%list.
Proof.
  intros Hc. unfold provision, requested_record. step. rewrite Hc.
  cbn [db dns_calls console].
  destruct (Dns.createRecord client _) as [res|m]; cbn [snd db dns_calls console].
  - destruct (Dns.cr_success res); cbn [snd dns_calls]; now rewrite <- app_assoc.
  - now rewrite <- app_assoc.
Qed.

(** X17.  A checkout that passes the checks asks the registrar for exactly
    one record, once: the factory is called with the listing's registrar,
    and [createRecord] with the kind, full domain and value of the event
    and a TTL of 3600.  The rental row that is stored names the same full
    domain, kind and value.  Nothing else is asked of the registrar: no
    listing of the zone first, and no second attempt when the creation is
    refused or throws. *)
Theorem checkout_requests_the_rented_record env session w md listing bill client :
  metadata session = Some md ->
  fst (billing_of env session w) = Ok bill ->
  findListing (db w) (md_listingId md) = Some listing ->
  isVerified listing = true ->
  existsb (String.eqb (md_dnsRecordType md)) (allowedRecordTypes listing) = true ->
  createDNSProvider env (registrar listing) (apiCredentialsEncrypted listing) = Ok client ->
  let after := handleCheckoutSessionCompleted env session w in
  dns_calls (snd after)
  = (dns_calls w
     ++ [CallFactory (registrar listing);
         CallCreate {| Dns.rec_type := md_dnsRecordType md;
                       Dns.rec_name := md_fullDomain md;
                       Dns.rec_content := md_dnsRecordValue md;
                       Dns.rec_ttl := Some 3600;
                       Dns.rec_priority := None |}])%list
  /\ exists rental,
       rentals (db (snd after)) = (rentals (db w) ++ [rental])%list
       /\ fullDomain rental = md_fullDomain md
       /\ dnsRecordType rental = md_dnsRecordType md
       /\ dnsRecordValue rental = md_dnsRecordValue md.
Proof.
  intros Hmd Hbill Hl Hv Hallowed Hc after. subst after.
  destruct bill as [[[amount subscriptionId] periodStart] periodEnd].
  destruct (checkout_passing env session w md listing _ _ _ _ Hmd Hbill Hl Hv Hallowed)
    as [rid [w1 [Hp [_ [Hcalls Hdb]]]]].
  rewrite Hcalls, Hdb. split.
  - pose proof (provision_calls env listing md w client Hc) as H.
    rewrite Hp in H. exact H.
  - unfold checkout_writes, createRental, createTransaction.
    destruct (payment_intent session) as [intent|];
      [destruct (Js.truthy (Some intent))|]; eexists; repeat split.
Qed.

(** X18.  The rental of a subscription checkout is dated by the
    subscription: its period runs from [current_period_start] to
    [current_period_end] (seconds, stored as milliseconds), and it
    carries the id of the retrieved subscription and the renter of the
    event. *)
Theorem subscription_checkout_row env session w md listing s sub :
  metadata session = Some md ->
  subscription session = Some s ->
  s <> "" ->
  retrieveSubscription env s = Ok sub ->
  findListing (db w) (md_listingId md) = Some listing ->
  isVerified listing = true ->
  existsb (String.eqb (md_dnsRecordType md)) (allowedRecordTypes listing) = true ->
  let after := handleCheckoutSessionCompleted env session w in
  exists rental,
    rentals (db (snd after)) = (rentals (db w) ++ [rental])%list
    /\ rentalPeriodStart rental = (current_period_start sub * 1000)%Z
    /\ rentalPeriodEnd rental = (current_period_end sub * 1000)%Z
    /\ stripeSubscriptionId rental = Some (sub_id sub)
    /\ renterUserId rental = md_renterUserId md.
Proof.
  intros Hmd Hs Hne Hsub Hl Hv Hallowed after. subst after.
  assert (Hbill : fst (billing_of env session w)
                  = Ok (match first_unit_amount sub with
                        | Some price => unit_amount_or_zero price
                        | None => 0%Z
                        end, Some (sub_id sub),
                        (current_period_start sub * 1000)%Z,
                        (current_period_end sub * 1000)%Z)).
  { unfold billing_of. rewrite Hs, (truthy_some _ Hne). step. now rewrite Hsub. }
  destruct (checkout_passing env session w md listing _ _ _ _ Hmd Hbill Hl Hv Hallowed)
    as [rid [w1 [_ [_ [_ Hdb]]]]].
  rewrite Hdb.
  exists (fst (createRental (db w)
                 (rental_data md (Some (sub_id sub)) (current_period_start sub * 1000)%Z
                    (current_period_end sub * 1000)%Z))).
  unfold checkout_writes, createRental, createTransaction, rental_data, transaction_data.
  cbn [fst snd r_id].
  split; [|repeat split].
  destruct (payment_intent session) as [intent|];
    [destruct (Js.truthy (Some intent))|]; reflexivity.
Qed.

Lemma checkout_writes_shape d md amount subscriptionId periodStart periodEnd intent :
  listings (checkout_writes d md amount subscriptionId periodStart periodEnd intent)
  = listings d
  /\ rentals (checkout_writes d md amount subscriptionId periodStart periodEnd intent)
     = (rentals d
        ++ [fst (createRental d (rental_data md subscriptionId periodStart periodEnd))])%list.
Proof.
  unfold checkout_writes, createRental, createTransaction.
  destruct intent as [i|]; [destruct (Js.truthy (Some i))|]; split; reflexivity.
Qed.

Lemma find_snoc {A} (p : A -> bool) l x :
  find p (l ++ [x])%list
  = match find p l with
    | Some y => Some y
    | None => if p x then Some x else None
    end.
Proof.
  induction l as [|y l IH]; cbn; [reflexivity|]. destruct (p y); [reflexivity|exact IH].
Qed.

(** X19.  A checkout without a subscription stores a rental that no
    subscription event can reach: the row carries no subscription id, its
    period starts and ends at the clock readings of the handler, and a
    later subscription_deleted event finds either nothing or a rental
    that was already there before. *)
Theorem one_time_checkout_row env session w md listing :
  metadata session = Some md ->
  Js.truthy (subscription session) = false ->
  findListing (db w) (md_listingId md) = Some listing ->
  isVerified listing = true ->
  existsb (String.eqb (md_dnsRecordType md)) (allowedRecordTypes listing) = true ->
  let after := handleCheckoutSessionCompleted env session w in
  exists rental,
    rentals (db (snd after)) = (rentals (db w) ++ [rental])%list
    /\ stripeSubscriptionId rental = None
    /\ rentalPeriodStart rental = now_start env
    /\ rentalPeriodEnd rental = now_end env
    /\ forall sub,
         findRentalBySubscription (db (snd after)) sub
         = findRentalBySubscription (db w) sub.
Proof.
  intros Hmd Hs Hl Hv Hallowed after. subst after.
  assert (Hbill : fst (billing_of env session w)
                  = Ok (0%Z, None, now_start env, now_end env)).
  { unfold billing_of. destruct (subscription session) as [s|]; [|reflexivity].
    cbn [Js.truthy] in Hs. unfold Js.truthy. now rewrite Hs. }
  destruct (checkout_passing env session w md listing _ _ _ _ Hmd Hbill Hl Hv Hallowed)
    as [rid [w1 [_ [_ [_ Hdb]]]]].
  rewrite Hdb.
  destruct (checkout_writes_shape (db w) md 0%Z None (now_start env) (now_end env)
              (payment_intent session)) as [_ Hr].
  eexists. split; [exact Hr|]. repeat split.
  intros sub. unfold findRentalBySubscription. rewrite Hr.
  rewrite find_snoc.
  destruct (find (has_subscription sub) (rentals (db w))); reflexivity.
Qed.

(** *** The record removed on cancellation *)

Lemma find_throwing_first {A} (cb : A -> Result bool) before x rest :
  Forall (fun y => cb y = Ok false) before ->
  cb x = Ok true ->
  Dns.find_throwing cb (before ++ x :: rest) = Ok (Some x).
Proof.
  intros Hb Hx. induction Hb as [|y before Hy _ IH]; cbn.
  - now rewrite Hx.
  - now rewrite Hy.
Qed.

Lemma find_throwing_none {A} (cb : A -> Result bool) l :
  Forall (fun y => cb y = Ok false) l -> Dns.find_throwing cb l = Ok None.
Proof.
  intros H. induction H as [|y l Hy _ IH]; cbn; [reflexivity|now rewrite Hy].
Qed.

(** The calls of the DNS deletion when the zone could be listed. *)
Lemma deprovision_calls env listing rental w client result records :
  createDNSProvider env (registrar listing) (apiCredentialsEncrypted listing) = Ok client ->
  Dns.listRecords client (Some (dnsRecordType rental)) = Ok result ->
  Dns.lr_success result = true ->
  Dns.lr_records result = Some records ->
  forall found,
    Dns.find_throwing (matches_rental rental) records = Ok found ->
    dns_calls (snd (deprovision env listing rental w))
    = (dns_calls w
       ++ [CallFactory (registrar listing); CallList (Some (dnsRecordType rental))]
       ++ match found with
          | Some record => [CallDelete (record_id_for rental record)]
          | None => []
          end)%list.
Proof.
  intros Hc Hlist Hok Hrecords found Hfound.
  unfold deprovision. step. rewrite Hc. cbn [db dns_calls console].
  rewrite Hlist, Hok, Hrecords, Hfound. cbn [db dns_calls console].
  destruct found as [record|]; cbn [snd dns_calls].
  - destruct (Dns.deleteRecord client _) as [del|m]; cbn [snd db dns_calls console].
    + destruct (Dns.op_success del); cbn [snd dns_calls]; now rewrite <- !app_assoc.
    + now rewrite <- !app_assoc.
  - now rewrite <- !app_assoc.
Qed.

(** X20.  On cancellation the zone is listed once, for the rental's record
    kind, and at most one record is deleted: the first listed record
    whose name is the rental's full domain or starts with its label.  It
    is deleted under its own id when the registrar lists ids, and under
    [fullDomain:kind] for a record set that carries none.  When no listed
    record matches, nothing is deleted. *)
Theorem cancellation_deletes_first_matching_record
  env sub w rental listing client result records :
  findRentalBySubscription (db w) sub = Some rental ->
  findListing (db w) (listingId rental) = Some listing ->
  isVerified listing = true ->
  createDNSProvider env (registrar listing) (apiCredentialsEncrypted listing) = Ok client ->
  Dns.listRecords client (Some (dnsRecordType rental)) = Ok result ->
  Dns.lr_success result = true ->
  Dns.lr_records result = Some records ->
  let calls := dns_calls (snd (handleSubscriptionDeleted env sub w)) in
  let asked := [CallFactory (registrar listing); CallList (Some (dnsRecordType rental))] in
  (forall before record rest,
      records = (before ++ record :: rest)%list ->
      Forall (fun r => matches_named rental r = false /\ Dns.recordName r <> None) before ->
      matches_named rental record = true ->
      calls = (dns_calls w ++ asked ++ [CallDelete (record_id_for rental record)])%list
      /\ (forall c, record = Dns.CfRaw c -> Dns.cf_id c <> "" ->
                    record_id_for rental record = Dns.cf_id c)
      /\ (forall set, record = Dns.R53Raw set ->
                      record_id_for rental record
                      = fullDomain rental ++ ":" ++ dnsRecordType rental))
  /\ (Forall (fun r => matches_named rental r = false /\ Dns.recordName r <> None) records ->
      calls = (dns_calls w ++ asked)%list).
Proof.
  intros Hr Hl Hv Hc Hlist Hok Hrecords calls asked. subst calls asked.
  rewrite (handleSubscriptionDeleted_calls env sub w rental listing Hr Hl), Hv.
  assert (Hno : forall l,
             Forall (fun r => matches_named rental r = false /\ Dns.recordName r <> None) l ->
             Forall (fun r => matches_rental rental r = Ok false) l).
  { intros l H. induction H as [|r l [Hm Hn] _ IH]; constructor; [|exact IH].
    unfold matches_named in Hm. unfold matches_rental.
    destruct (Dns.recordName r); [now rewrite Hm|contradiction]. }
  split.
  - intros before record rest -> Hbefore Hmatch.
    assert (Hyes : matches_rental rental record = Ok true).
    { unfold matches_named in Hmatch. unfold matches_rental.
      destruct (Dns.recordName record); [now rewrite Hmatch|discriminate]. }
    rewrite (deprovision_calls env listing rental w client result _ Hc Hlist Hok Hrecords
               (Some record) (find_throwing_first _ _ _ _ (Hno _ Hbefore) Hyes)).
    split; [reflexivity|split].
    + intros c -> Hid. unfold record_id_for. cbn [Dns.raw_id Dns.raw_Id].
      unfold Js.or_else at 2. rewrite (truthy_some _ Hid).
      unfold Js.or_else. now rewrite (truthy_some _ Hid).
    + intros set ->. reflexivity.
  - intros Hall.
    rewrite (deprovision_calls env listing rental w client result _ Hc Hlist Hok Hrecords
               None (find_throwing_none _ _ (Hno _ Hall))).
    reflexivity.
Qed.

(** X21.  The match is on a prefix of the name: when the first record the
    registrar lists has a name that merely begins with the rental's label
    (the record of a longer label, say), that record is the one deleted,
    whether or not it is the record of the rental. *)
Theorem cancellation_deletes_record_sharing_the_label
  env sub w rental listing client result c suffix rest :
  findRentalBySubscription (db w) sub = Some rental ->
  findListing (db w) (listingId rental) = Some listing ->
  isVerified listing = true ->
  createDNSProvider env (registrar listing) (apiCredentialsEncrypted listing) = Ok client ->
  Dns.listRecords client (Some (dnsRecordType rental)) = Ok result ->
  Dns.lr_success result = true ->
  Dns.lr_records result = Some (Dns.CfRaw c :: rest) ->
  Dns.cf_name c = subdomain rental ++ suffix ->
  Dns.cf_name c <> "" ->
  Dns.cf_id c <> "" ->
  dns_calls (snd (handleSubscriptionDeleted env sub w))
  = (dns_calls w
     ++ [CallFactory (registrar listing); CallList (Some (dnsRecordType rental));
         CallDelete (Dns.cf_id c)])%list.
Proof.
  intros Hr Hl Hv Hc Hlist Hok Hrecords Hname Hne Hid.
  rewrite (handleSubscriptionDeleted_calls env sub w rental listing Hr Hl), Hv.
  assert (Hyes : matches_rental rental (Dns.CfRaw c) = Ok true).
  { unfold matches_rental, Dns.recordName, Js.or_else. cbn [Dns.raw_name Dns.raw_Name].
    rewrite (truthy_some _ Hne). unfold Js.startsWith.
    rewrite Hname, NamecheapMore.prefix_app. now rewrite orb_true_r. }
  rewrite (deprovision_calls env listing rental w client result _ Hc Hlist Hok Hrecords
             (Some (Dns.CfRaw c)) (find_throwing_first (matches_rental rental) [] (Dns.CfRaw c) rest
                (Forall_nil _) Hyes)).
  unfold record_id_for. cbn [Dns.raw_id Dns.raw_Id].
  unfold Js.or_else at 2. rewrite (truthy_some _ Hid).
  unfold Js.or_else. now rewrite (truthy_some _ Hid).
Qed.

(** X22.  A subscription_deleted event for a subscription no rental
    carries changes nothing and asks nothing of a registrar; and for a
    rental of an unverified listing the cancellation is recorded without
    any call on [lib/dns]. *)
Theorem cancellation_without_registrar env sub w :
  (findRentalBySubscription (db w) sub = None ->
   fst (handleSubscriptionDeleted env sub w) = Ok tt
   /\ db (snd (handleSubscriptionDeleted env sub w)) = db w
   /\ dns_calls (snd (handleSubscriptionDeleted env sub w)) = dns_calls w)
  /\ (forall rental listing,
        findRentalBySubscription (db w) sub = Some rental ->
        findListing (db w) (listingId rental) = Some listing ->
        isVerified listing = false ->
        dns_calls (snd (handleSubscriptionDeleted env sub w)) = dns_calls w
        /\ In (with_status CANCELLED rental)
              (rentals (db (snd (handleSubscriptionDeleted env sub w))))).
Proof.
  split.
  - intros Hnone. unfold handleSubscriptionDeleted. step. rewrite Hnone. repeat split.
  - intros rental listing Hr Hl Hv.
    rewrite (handleSubscriptionDeleted_calls env sub w rental listing Hr Hl), Hv.
    split; [reflexivity|].
    destruct (handleSubscriptionDeleted_found env sub w rental listing Hr Hl)
      as [w' [Hrun Hdb]].
    rewrite Hrun. cbn [snd]. rewrite Hdb. cbn [rentals].
    destruct (findRentalBySubscription_member _ _ _ Hr) as [Hin _].
    apply in_map_iff. exists rental. split; [|exact Hin].
    unfold set_status_of. now rewrite Nat.eqb_refl.
Qed.

(** X23.  When the subscription of a checkout cannot be retrieved, the
    event is not processed at all: the route answers 500 with the fixed
    body (so the payment service will deliver it again), no table is
    changed and no registrar is called. *)
Theorem failed_subscription_lookup_is_answered_500
  env request signature session md s message w :
  req_signature request = Some signature ->
  signature <> "" ->
  constructEvent env (req_body request) signature = Ok (CheckoutSessionCompleted session) ->
  metadata session = Some md ->
  subscription session = Some s ->
  s <> "" ->
  retrieveSubscription env s = Throw message ->
  fst (POST env request w) = Ok (ProcessingFailed "Webhook processing failed")
  /\ option_map status_code
       (match fst (POST env request w) with Ok r => Some r | Throw _ => None end)
     = Some 500
  /\ db (snd (POST env request w)) = db w
  /\ dns_calls (snd (POST env request w)) = dns_calls w.
Proof.
  intros Hsig Hne Hev Hmd Hs Hsne Hsub.
  rewrite (POST_dispatch env request signature _ w Hsig Hne Hev). cbn [dispatch].
  unfold handleCheckoutSessionCompleted, billing_of. rewrite Hmd, Hs, (truthy_some _ Hsne).
  step. rewrite Hsub. repeat split.
Qed.

(** X24.  Deliveries of a checkout event are not deduplicated: when the
    same event passes the checks and is delivered twice, both deliveries
    are answered [received] and the store ends with two Active rentals
    under different keys for the same listing, label and subscription. *)
Theorem repeated_checkout_delivery_creates_two_rentals
  env request signature session md listing bill w :
  req_signature request = Some signature ->
  signature <> "" ->
  constructEvent env (req_body request) signature = Ok (CheckoutSessionCompleted session) ->
  metadata session = Some md ->
  fst (billing_of env session w) = Ok bill ->
  findListing (db w) (md_listingId md) = Some listing ->
  isVerified listing = true ->
  existsb (String.eqb (md_dnsRecordType md)) (allowedRecordTypes listing) = true ->
  let first := POST env request w in
  let second := POST env request (snd first) in
  fst first = Ok Received
  /\ fst second = Ok Received
  /\ (exists r1 r2,
        rentals (db (snd second)) = (rentals (db w) ++ [r1; r2])%list
        /\ r_id r1 <> r_id r2
        /\ r_status r1 = ACTIVE /\ r_status r2 = ACTIVE
        /\ listingId r1 = md_listingId md /\ listingId r2 = md_listingId md
        /\ subdomain r1 = md_subdomain md /\ subdomain r2 = md_subdomain md
        /\ stripeSubscriptionId r1 = stripeSubscriptionId r2)
  /\ List.length (active_rentals_for (md_listingId md) (md_subdomain md) (db (snd second)))
     = 2 + List.length (active_rentals_for (md_listingId md) (md_subdomain md) (db w)).
Proof.
  intros Hsig Hne Hev Hmd Hbill Hl Hv Hallowed first second.
  destruct bill as [[[amount subscriptionId] periodStart] periodEnd].
  destruct (checkout_passing env session w md listing _ _ _ _ Hmd Hbill Hl Hv Hallowed)
    as [rid [w1 [_ [Hok1 [_ Hdb1]]]]].
  assert (Hfirst : fst first = Ok Received
                   /\ snd first = snd (handleCheckoutSessionCompleted env session w)).
  { subst first. rewrite (POST_dispatch env request signature _ w Hsig Hne Hev).
    cbn [dispatch]. destruct (handleCheckoutSessionCompleted env session w) as [[u|e] w'];
      [now split|discriminate]. }
  destruct Hfirst as [Hf1 Hw1].
  destruct (checkout_writes_shape (db w) md amount subscriptionId periodStart periodEnd
              (payment_intent session)) as [Hls1 Hrs1].
  rewrite <- Hdb1, <- Hw1 in Hls1, Hrs1.
  assert (Hbill2 : fst (billing_of env session (snd first))
                   = Ok (amount, subscriptionId, periodStart, periodEnd)).
  { now rewrite (billing_of_result env session (snd first) w). }
  assert (Hl2 : findListing (db (snd first)) (md_listingId md) = Some listing).
  { unfold findListing. now rewrite Hls1. }
  destruct (checkout_passing env session (snd first) md listing _ _ _ _
              Hmd Hbill2 Hl2 Hv Hallowed) as [rid2 [w2 [_ [Hok2 [_ Hdb2]]]]].
  assert (Hsecond : fst second = Ok Received
                    /\ snd second
                       = snd (handleCheckoutSessionCompleted env session (snd first))).
  { subst second. rewrite (POST_dispatch env request signature _ _ Hsig Hne Hev).
    cbn [dispatch].
    destruct (handleCheckoutSessionCompleted env session (snd first)) as [[u|e] w'];
      [now split|discriminate]. }
  destruct Hsecond as [Hf2 Hw2].
  destruct (checkout_writes_shape (db (snd first)) md amount subscriptionId periodStart
              periodEnd (payment_intent session)) as [_ Hrs2].
  rewrite <- Hdb2, <- Hw2 in Hrs2.
  split; [exact Hf1|split; [exact Hf2|]].
  rewrite Hrs2, Hrs1. rewrite <- app_assoc. cbn [app].
  split.
  - do 2 eexists. split; [reflexivity|]. unfold createRental. cbn [fst r_id].
    split; [|repeat split].
    rewrite Hrs1. intros Heq.
    assert (Hlt : fresh_id (map r_id (rentals (db w)))
                  < fresh_id (map r_id (rentals (db w)
                       ++ [fst (createRental (db w)
                                  (rental_data md subscriptionId periodStart periodEnd))]))).
    { apply fresh_id_above. rewrite map_app. apply in_or_app. right. left. reflexivity. }
    rewrite <- Heq in Hlt. lia.
  - unfold active_rentals_for. rewrite Hrs2, Hrs1, <- app_assoc. cbn [app].
    rewrite filter_app, length_app. unfold createRental. cbn [fst filter].
    unfold is_active_for. cbn [listingId subdomain r_status rental_data RentalStatus_eqb].
    rewrite !String.eqb_refl. cbn. lia.
Qed.

(** *** The theorems on sample deliveries *)

Import Samples MoreSamples.

Lemma payment_failed_cancels_without_dns_witness :
  fst (handlePaymentIntentFailed "pi_3" paid_store) = Ok tt
  /\ map r_status (rentals (db (snd (handlePaymentIntentFailed "pi_3" paid_store))))
     = [CANCELLED]
  /\ map t_status (transactions (db (snd (handlePaymentIntentFailed "pi_3" paid_store))))
     = [FAILED]
  /\ dns_calls (snd (handlePaymentIntentFailed "pi_3" paid_store)) = [].
Proof.
  pose proof (payment_failed_cancels_without_dns "pi_3" paid_store blog_payment
                (blog_rental ACTIVE) eq_refl eq_refl) as H.
  cbv zeta in H. destruct H as [H1 [_ [H3 [_ [H5 H6]]]]].
  split; [exact H1|split; [now rewrite H3|split; [now rewrite H5|exact H6]]].
Defined.

Lemma checkout_requests_the_rented_record_witness :
  dns_calls (snd (handleCheckoutSessionCompleted refusing_env
                    (subscription_checkout "A" (Some "pi_3")) (store_with true [])))
  = [CallFactory "CLOUDFLARE"; CallCreate blog_record].
Proof.
  pose proof (checkout_requests_the_rented_record refusing_env
                (subscription_checkout "A" (Some "pi_3")) (store_with true [])
                (blog_metadata "A") (example_listing true)
                (1000%Z, Some "sub_9", 1700000000000%Z, 1702592000000%Z)
                (Dns.Cloudflare.provider refusing_network cloudflare_credentials)
                eq_refl eq_refl eq_refl eq_refl eq_refl eq_refl) as H.
  cbv zeta in H. exact (proj1 H).
Defined.

Lemma subscription_checkout_row_witness :
  exists rental,
    rentals (db (snd (handleCheckoutSessionCompleted (zone_env true [])
                        (subscription_checkout "A" (Some "pi_3")) paid_store)))
    = [blog_rental ACTIVE; rental]
    /\ rentalPeriodStart rental = 1700000000000%Z
    /\ rentalPeriodEnd rental = 1702592000000%Z
    /\ stripeSubscriptionId rental = Some "sub_9".
Proof.
  destruct (subscription_checkout_row (zone_env true [])
              (subscription_checkout "A" (Some "pi_3")) paid_store
              (blog_metadata "A") (example_listing true) "sub_9"
              {| sub_id := "sub_9"; first_unit_amount := Some (Some 1000%Z);
                 current_period_start := 1700000000%Z;
                 current_period_end := 1702592000%Z |}
              eq_refl eq_refl ltac:(discriminate) eq_refl eq_refl eq_refl eq_refl)
    as [rental [H1 [H2 [H3 [H4 _]]]]].
  exists rental. split; [exact H1|split; [exact H2|split; [exact H3|exact H4]]].
Defined.

Lemma one_time_checkout_row_witness :
  exists rental,
    rentals (db (snd (handleCheckoutSessionCompleted (zone_env true []) one_time_checkout
                        (store_with true []))))
    = [rental]
    /\ stripeSubscriptionId rental = None
    /\ rentalPeriodStart rental = 1700000000000%Z
    /\ rentalPeriodEnd rental = 1700000000001%Z.
Proof.
  destruct (one_time_checkout_row (zone_env true []) one_time_checkout (store_with true [])
              (blog_metadata "A") (example_listing true)
              eq_refl eq_refl eq_refl eq_refl eq_refl)
    as [rental [H1 [H2 [H3 [H4 _]]]]].
  exists rental. split; [exact H1|split; [exact H2|split; [exact H3|exact H4]]].
Defined.

Lemma cancellation_deletes_first_matching_record_witness :
  dns_calls (snd (handleSubscriptionDeleted (zone_env true [mail_record; outside_record])
                    "sub_9" (store_with true [blog_rental ACTIVE])))
  = [CallFactory "CLOUDFLARE"; CallList (Some "A"); CallDelete "rec_77"].
Proof.
  pose proof (cancellation_deletes_first_matching_record
                (zone_env true [mail_record; outside_record]) "sub_9"
                (store_with true [blog_rental ACTIVE]) (blog_rental ACTIVE)
                (example_listing true)
                (Dns.Cloudflare.provider (zone_with [mail_record; outside_record])
                   cloudflare_credentials)
                (Dns.list_ok [Dns.CfRaw mail_record; Dns.CfRaw outside_record])
                [Dns.CfRaw mail_record; Dns.CfRaw outside_record]
                eq_refl eq_refl eq_refl eq_refl eq_refl eq_refl eq_refl) as H.
  cbv zeta in H. destruct H as [H _].
  destruct (H [Dns.CfRaw mail_record] (Dns.CfRaw outside_record) [] eq_refl) as [Hcalls _].
  - repeat constructor. discriminate.
  - reflexivity.
  - exact Hcalls.
Defined.

Lemma cancellation_deletes_record_sharing_the_label_witness :
  dns_calls (snd (handleSubscriptionDeleted (zone_env true [blogger_record; outside_record])
                    "sub_9" (store_with true [blog_rental ACTIVE])))
  = [CallFactory "CLOUDFLARE"; CallList (Some "A"); CallDelete "rec_12"].
Proof.
  apply (cancellation_deletes_record_sharing_the_label
           (zone_env true [blogger_record; outside_record]) "sub_9"
           (store_with true [blog_rental ACTIVE]) (blog_rental ACTIVE)
           (example_listing true)
           (Dns.Cloudflare.provider (zone_with [blogger_record; outside_record])
              cloudflare_credentials)
           (Dns.list_ok [Dns.CfRaw blogger_record; Dns.CfRaw outside_record])
           blogger_record "ger.example.com" [Dns.CfRaw outside_record]);
    try reflexivity; discriminate.
Defined.

Lemma failed_subscription_lookup_is_answered_500_witness :
  fst (POST (zone_env false []) checkout_delivery (store_with true []))
  = Ok (ProcessingFailed "Webhook processing failed")
  /\ db (snd (POST (zone_env false []) checkout_delivery (store_with true [])))
     = db (store_with true []).
Proof.
  pose proof (failed_subscription_lookup_is_answered_500 (zone_env false [])
                checkout_delivery "t=1,v1=5257a8"
                (subscription_checkout "A" (Some "pi_3")) (blog_metadata "A") "sub_9"
                "An error occurred with our connection to Stripe." (store_with true [])
                eq_refl ltac:(discriminate) eq_refl eq_refl eq_refl ltac:(discriminate)
                eq_refl) as [H1 [_ [H3 _]]].
  split; [exact H1|exact H3].
Defined.

Lemma repeated_checkout_delivery_creates_two_rentals_witness :
  List.length
    (active_rentals_for "lst_1" "blog"
       (db (snd (POST (zone_env true []) checkout_delivery
                   (snd (POST (zone_env true []) checkout_delivery
                           (store_with true [])))))))
  = 2.
Proof.
  pose proof (repeated_checkout_delivery_creates_two_rentals (zone_env true [])
                checkout_delivery "t=1,v1=5257a8"
                (subscription_checkout "A" (Some "pi_3")) (blog_metadata "A")
                (example_listing true)
                (1000%Z, Some "sub_9", 1700000000000%Z, 1702592000000%Z)
                (store_with true [])
                eq_refl ltac:(discriminate) eq_refl eq_refl eq_refl eq_refl eq_refl
                eq_refl) as H.
  cbv zeta in H. exact (proj2 (proj2 (proj2 H))).
Defined.

End WebhookMore.

(** ** Ownership verification route *)

Module VerifyFacts.
Import Store Proc Verify StoreFacts.

Lemma mark_verified_id id x :
  String.eqb (l_id (if String.eqb (l_id x) id then mark_verified x else x)) id
  = String.eqb (l_id x) id.
Proof. now destruct (String.eqb (l_id x) id) eqn:E. Qed.

Lemma updateListingVerified_found d id listing :
  findListing d id = Some listing ->
  exists d', updateListingVerified d id = Ok (mark_verified listing, d')
             /\ rentals d' = rentals d
             /\ transactions d' = transactions d
             /\ findListing d' id = Some (mark_verified listing)
             /\ (forall other, other <> id -> findListing d' other = findListing d other).
Proof.
  intros Hl. unfold updateListingVerified. rewrite Hl. eexists.
  split; [reflexivity|]. split; [reflexivity|]. split; [reflexivity|].
  unfold findListing in *. cbn [listings]. split.
  - rewrite (find_map_preserved (fun l => String.eqb (l_id l) id)
               (fun x => if String.eqb (l_id x) id then mark_verified x else x)).
    + rewrite Hl. cbn [option_map]. apply find_some in Hl as [_ Hid]. now rewrite Hid.
    + intros x. apply mark_verified_id.
  - intros other Hne.
    rewrite (find_map_preserved (fun l => String.eqb (l_id l) other)
               (fun x => if String.eqb (l_id x) id then mark_verified x else x)).
    + destruct (find (fun l => String.eqb (l_id l) other) (listings d)) as [x|] eqn:E;
        [|reflexivity].
      cbn [option_map]. apply find_some in E as [_ Hid]. apply String.eqb_eq in Hid.
      destruct (String.eqb_spec (l_id x) id); [congruence|reflexivity].
    + intros x. now destruct (String.eqb (l_id x) id).
Qed.

Lemma truthy_token s : s <> "" -> Js.truthy (Some s) = true.
Proof.
  intros H. unfold Js.truthy. destruct (String.eqb_spec s ""); [contradiction|reflexivity].
Qed.

(** The route on a listing that still carries its challenge: the factory
    is called, then [verifyOwnership] decides. *)
Lemma POST_unverified factory id w listing token :
  findListing (db w) id = Some listing ->
  isVerified listing = false ->
  verificationToken listing = Some token ->
  token <> "" ->
  let called := {| db := db w;
                   dns_calls := (dns_calls w ++ [CallFactory (registrar listing)])%list;
                   console := console w |} in
  POST factory id w
  = match factory (registrar listing) (apiCredentialsEncrypted listing) with
    | Throw m =>
        (Ok (ServerError "Failed to verify domain ownership"),
         {| db := db w; dns_calls := dns_calls called;
            console := (console w ++ [LogError "Error verifying domain:" m])%list |})
    | Ok client =>
        match Dns.verifyOwnership client token with
        | Throw m =>
            (Ok (ServerError "Failed to verify domain ownership"),
             {| db := db w; dns_calls := dns_calls called;
                console := (console w ++ [LogError "Error verifying domain:" m])%list |})
        | Ok result =>
            if Dns.op_success result then
              match updateListingVerified (db w) id with
              | Ok updated =>
                  (Ok (Verified "Domain ownership verified successfully!" (fst updated)),
                   {| db := snd updated; dns_calls := dns_calls called;
                      console := console w |})
              | Throw m =>
                  (Ok (ServerError "Failed to verify domain ownership"),
                   {| db := db w; dns_calls := dns_calls called;
                      console := (console w ++ [LogError "Error verifying domain:" m])%list |})
              end
            else
              (Ok (Failed (match Js.or_else (Dns.op_error result)
                                   (Some "Verification failed") with
                           | Some e => e
                           | None => "Verification failed"
                           end)
                     (instructions_for token)),
               called)
        end
    end.
Proof.
  intros Hl Hv Ht Hne called. subst called. unfold POST. step.
  rewrite Hl, Hv, Ht, (truthy_token _ Hne). cbn [negb db dns_calls console].
  destruct (factory _ _) as [client|m]; [|reflexivity].
  destruct (Dns.verifyOwnership client token) as [result|m]; [|reflexivity].
  destruct (Dns.op_success result); cbn [negb db dns_calls console]; [|reflexivity].
  destruct (updateListingVerified (db w) id) as [updated|m]; reflexivity.
Qed.

(** X25.  The verification route follows the registrar.  A listing that
    is already verified is answered at once, without a registrar call,
    so later removal of the TXT record does not revoke it.  For a listing
    that still carries its challenge the factory is called once; when
    [verifyOwnership] reports success the listing becomes verified and
    its token is cleared, every other row staying as it was; when it
    reports failure the answer is 400 with the registrar's error and the
    instructions naming the token, and the store is unchanged; and when
    the client cannot be built or the call throws the answer is 500 and
    the store is unchanged. *)
Theorem verification_follows_the_registrar factory id w listing :
  findListing (db w) id = Some listing ->
  let after := POST factory id w in
  (isVerified listing = true ->
   after = (Ok (AlreadyVerified "Domain is already verified"), w))
  /\ (forall token,
        isVerified listing = false ->
        verificationToken listing = Some token ->
        token <> "" ->
        dns_calls (snd after) = (dns_calls w ++ [CallFactory (registrar listing)])%list
        /\ (forall client result,
              factory (registrar listing) (apiCredentialsEncrypted listing) = Ok client ->
              Dns.verifyOwnership client token = Ok result ->
              (Dns.op_success result = true ->
               fst after = Ok (Verified "Domain ownership verified successfully!"
                                 (mark_verified listing))
               /\ findListing (db (snd after)) id = Some (mark_verified listing)
               /\ rentals (db (snd after)) = rentals (db w)
               /\ transactions (db (snd after)) = transactions (db w)
               /\ (forall other, other <> id ->
                                 findListing (db (snd after)) other
                                 = findListing (db w) other))
              /\ (Dns.op_success result = false ->
                  db (snd after) = db w
                  /\ exists error,
                       fst after = Ok (Failed error (instructions_for token))
                       /\ ins_recordValue (instructions_for token) = token
                       /\ (forall e, Dns.op_error result = Some e -> e <> "" -> error = e)
                       /\ (Js.truthy (Dns.op_error result) = false ->
                           error = "Verification failed")))
        /\ (is_ok (factory (registrar listing) (apiCredentialsEncrypted listing)) = false
            \/ (exists client,
                  factory (registrar listing) (apiCredentialsEncrypted listing) = Ok client
                  /\ is_ok (Dns.verifyOwnership client token) = false) ->
            fst after = Ok (ServerError "Failed to verify domain ownership")
            /\ db (snd after) = db w)).
Proof.
  intros Hl after. subst after. split.
  - intros Hv. unfold POST. step. now rewrite Hl, Hv.
  - intros token Hv Ht Hne.
    rewrite (POST_unverified factory id w listing token Hl Hv Ht Hne). cbv zeta.
    split; [|split].
    + destruct (factory _ _) as [client|m]; [|reflexivity].
      destruct (Dns.verifyOwnership client token) as [result|m]; [|reflexivity].
      destruct (Dns.op_success result); [|reflexivity].
      destruct (updateListingVerified (db w) id); reflexivity.
    + intros client result Hf Hr. rewrite Hf, Hr. split; intros Hs; rewrite Hs.
      * destruct (updateListingVerified_found (db w) id listing Hl)
          as [d' [Hu [Hrs [Hts [Hfound Hothers]]]]].
        rewrite Hu. cbn [fst snd db]. repeat split; assumption.
      * cbn [fst snd db]. split; [reflexivity|]. eexists.
        split; [reflexivity|]. split; [reflexivity|]. split.
        -- intros e He Hene. rewrite He. unfold Js.or_else.
           now rewrite (truthy_token _ Hene).
        -- intros Hfalsy. unfold Js.or_else. now rewrite Hfalsy.
    + intros [Hf|[client [Hf Hr]]].
      * destruct (factory _ _); [discriminate|]. split; reflexivity.
      * rewrite Hf. destruct (Dns.verifyOwnership client token); [discriminate|].
        split; reflexivity.
Qed.

Section RealClients.
Context {cipher : Encryption.AesGcm}.
Variable env_key : option string.
Variable JSON_parse : string -> Result Dns.Factory.JsonObject.
Variable cloudflare : Dns.Cloudflare.Network.
Variable namecheap : Dns.Namecheap.Request -> Result string.

(** Outside the Token-REST registrar the factory yields no client whose
    [verifyOwnership] succeeds. *)
Lemma other_clients_never_verify registrar sealed client token result :
  registrar <> "CLOUDFLARE" ->
  Dns.Factory.createDNSProvider env_key JSON_parse cloudflare namecheap registrar sealed
  = Ok client ->
  Dns.verifyOwnership client token = Ok result ->
  Dns.op_success result = false.
Proof.
  intros Hne. unfold Dns.Factory.createDNSProvider.
  destruct (Encryption.decrypt env_key sealed) as [text|m]; [|discriminate].
  cbn [rbind]. destruct (JSON_parse text) as [credentials|m]; [|discriminate].
  cbn [rbind].
  destruct (String.eqb_spec registrar "CLOUDFLARE"); [contradiction|].
  destruct (String.eqb registrar "ROUTE53").
  - intros H. injection H as <-. cbn [Dns.verifyOwnership Dns.Route53.provider].
    rewrite Route53Facts.verifyOwnership_fails. intros H. now injection H as <-.
  - destruct (String.eqb registrar "NAMECHEAP"); [|discriminate].
    intros H. injection H as <-. cbn [Dns.verifyOwnership Dns.Namecheap.provider].
    intros H. now injection H as <-.
Qed.

(** X26.  With the clients of [lib/dns] behind the route, only a listing
    of the Token-REST registrar can ever be verified.  For any other
    registrar tag the route leaves the store as it is, whatever the stored
    credentials and whatever has been published.  For a CLOUDFLARE listing
    whose credentials unseal, the listing becomes verified exactly when
    the TXT listing of its zone can be fetched and holds a TXT record
    whose content is the token and whose name contains
    [_domain-verification]. *)
Theorem verification_with_the_real_clients id w listing token :
  findListing (db w) id = Some listing ->
  isVerified listing = false ->
  verificationToken listing = Some token ->
  token <> "" ->
  let after :=
    POST (Dns.Factory.createDNSProvider env_key JSON_parse cloudflare namecheap) id w in
  (registrar listing <> "CLOUDFLARE" ->
   db (snd after) = db w /\ forall message row, fst after <> Ok (Verified message row))
  /\ (forall text credentials,
        registrar listing = "CLOUDFLARE" ->
        Encryption.decrypt env_key (apiCredentialsEncrypted listing) = Ok text ->
        JSON_parse text = Ok credentials ->
        (findListing (db (snd after)) id = Some (mark_verified listing)
         <-> exists records,
               Dns.Cloudflare.fetched_txt_records cloudflare
                 {| Dns.Cloudflare.apiToken := Dns.Factory.property credentials "apiToken";
                    Dns.Cloudflare.zoneId := Dns.Factory.property credentials "zoneId" |}
               = Ok records
               /\ exists r, In r records
                            /\ Dns.cf_type r = "TXT"
                            /\ Dns.cf_content r = token
                            /\ Dns.Cloudflare.denotes_verification_host (Dns.cf_name r)
                               = true)).
Proof.
  intros Hl Hv Ht Hne after. subst after.
  rewrite (POST_unverified _ id w listing token Hl Hv Ht Hne). cbv zeta. split.
  - intros Hreg.
    destruct (Dns.Factory.createDNSProvider env_key JSON_parse cloudflare namecheap
                (registrar listing) (apiCredentialsEncrypted listing)) as [client|m] eqn:Hf;
      [|split; [reflexivity|discriminate]].
    destruct (Dns.verifyOwnership client token) as [result|m] eqn:Hr;
      [|split; [reflexivity|discriminate]].
    rewrite (other_clients_never_verify _ _ client token result Hreg Hf Hr).
    split; [reflexivity|discriminate].
  - intros text credentials Hreg Hd Hp.
    unfold Dns.Factory.createDNSProvider. rewrite Hd. cbn [rbind]. rewrite Hp. cbn [rbind].
    rewrite Hreg. cbn [String.eqb Ascii.eqb Bool.eqb].
    cbn [Dns.verifyOwnership Dns.Cloudflare.provider].
    set (creds := {| Dns.Cloudflare.apiToken := Dns.Factory.property credentials "apiToken";
                     Dns.Cloudflare.zoneId := Dns.Factory.property credentials "zoneId" |}).
    pose proof (CloudflareFacts.verifyOwnership_success cloudflare creds token) as Hiff.
    destruct (Dns.op_success (Dns.Cloudflare.verifyOwnership cloudflare creds token)).
    + destruct (updateListingVerified_found (db w) id listing Hl)
        as [d' [Hu [_ [_ [Hfound _]]]]].
      rewrite Hu. cbn [fst snd db]. split; intros _.
      * destruct (proj1 Hiff eq_refl) as [records [Hfetch [r [Hin Hr]]]].
        exists records. split; [exact Hfetch|]. exists r. split; [exact Hin|].
        now apply CloudflareFacts.is_verification_record_spec.
      * exact Hfound.
    + cbn [fst snd db]. split.
      * rewrite Hl. intros Heq. injection Heq as Heq.
        apply (f_equal isVerified) in Heq. cbn in Heq. congruence.
      * intros [records [Hfetch [r [Hin Hr]]]].
        assert (false = true); [|discriminate]. apply Hiff.
        exists records. split; [exact Hfetch|]. exists r. split; [exact Hin|].
        now apply CloudflareFacts.is_verification_record_spec.
Qed.

End RealClients.

Import Samples MoreSamples.

Lemma verification_follows_the_registrar_witness :
  fst (POST (zone_factory (zone_with [challenge "tok"])) "lst_1"
         (pending_store "CLOUDFLARE" "sealed"))
  = Ok (Verified "Domain ownership verified successfully!"
          (mark_verified (pending_listing "CLOUDFLARE" "sealed"))).
Proof.
  pose proof (verification_follows_the_registrar (zone_factory (zone_with [challenge "tok"]))
                "lst_1" (pending_store "CLOUDFLARE" "sealed")
                (pending_listing "CLOUDFLARE" "sealed") eq_refl) as H.
  cbv zeta in H. destruct H as [_ H].
  destruct (H "tok" eq_refl eq_refl ltac:(discriminate)) as [_ [Hdecides _]].
  destruct (Hdecides (Dns.Cloudflare.provider (zone_with [challenge "tok"])
                        cloudflare_credentials)
              Dns.op_ok eq_refl eq_refl) as [Hsuccess _].
  exact (proj1 (Hsuccess eq_refl)).
Defined.

Lemma verification_with_the_real_clients_witness :
  findListing
    (db (snd (POST (Dns.Factory.createDNSProvider (cipher := EncryptionFacts.MirrorCipher)
                      (Some sample_key) decode (zone_with [challenge "tok"]) zone_with_www)
                "lst_1" (pending_store "CLOUDFLARE" CodecFacts.sample_payload))))
    "lst_1"
  = Some (mark_verified (pending_listing "CLOUDFLARE" CodecFacts.sample_payload))
  /\ db (snd (POST (Dns.Factory.createDNSProvider (cipher := EncryptionFacts.MirrorCipher)
                      (Some sample_key) decode (zone_with [challenge "tok"]) zone_with_www)
                "lst_1" (pending_store "ROUTE53" CodecFacts.sample_payload)))
     = db (pending_store "ROUTE53" CodecFacts.sample_payload).
Proof.
  split.
  - pose proof (verification_with_the_real_clients
                  (cipher := EncryptionFacts.MirrorCipher) (Some sample_key) decode
                  (zone_with [challenge "tok"]) zone_with_www "lst_1"
                  (pending_store "CLOUDFLARE" CodecFacts.sample_payload)
                  (pending_listing "CLOUDFLARE" CodecFacts.sample_payload) "tok"
                  eq_refl eq_refl eq_refl ltac:(discriminate)) as H.
    cbv zeta in H. destruct H as [_ H].
    apply (H sample_plaintext decoded_credentials eq_refl eq_refl eq_refl).
    exists [challenge "tok"]. split; [reflexivity|].
    exists (challenge "tok"). repeat split. now left.
  - pose proof (verification_with_the_real_clients
                  (cipher := EncryptionFacts.MirrorCipher) (Some sample_key) decode
                  (zone_with [challenge "tok"]) zone_with_www "lst_1"
                  (pending_store "ROUTE53" CodecFacts.sample_payload)
                  (pending_listing "ROUTE53" CodecFacts.sample_payload) "tok"
                  eq_refl eq_refl eq_refl ltac:(discriminate)) as H.
    cbv zeta in H. destruct H as [H _].
    exact (proj1 (H ltac:(discriminate))).
Defined.

End VerifyFacts.

(** ** Rental routes *)

Module RentalsFacts.
Import Store Rentals StoreFacts.

Lemma truthy_field s : s <> "" -> Js.truthy (Some s) = true.
Proof.
  intros H. unfold Js.truthy. destruct (String.eqb_spec s ""); [contradiction|reflexivity].
Qed.

(** A checkout event whose listing is unverified, or does not allow the
    record kind, changes no table and reaches no registrar. *)
Lemma checkout_refused wenv session w md listing :
  Webhook.metadata session = Some md ->
  findListing (Proc.db w) (Webhook.md_listingId md) = Some listing ->
  isVerified listing = false
  \/ existsb (String.eqb (Webhook.md_dnsRecordType md)) (allowedRecordTypes listing) = false ->
  Proc.db (snd (Webhook.handleCheckoutSessionCompleted wenv session w)) = Proc.db w
  /\ Proc.dns_calls (snd (Webhook.handleCheckoutSessionCompleted wenv session w))
     = Proc.dns_calls w.
Proof.
  intros Hmd Hl Hrej. unfold Webhook.handleCheckoutSessionCompleted. Proc.step. rewrite Hmd.
  pose proof (WebhookFacts.billing_of_world wenv session w) as Hw.
  destruct (Webhook.billing_of wenv session w) as [[bill|m] wb]; cbn [fst snd] in *; subst wb;
    [|split; reflexivity].
  destruct bill as [[[amount subscriptionId] periodStart] periodEnd].
  rewrite Hl. destruct (isVerified listing); cbn [negb]; [|split; reflexivity].
  destruct Hrej as [Hrej|Hrej]; [discriminate|]. rewrite Hrej. split; reflexivity.
Qed.

(** X27.  A rental is initiated without the checks the webhook makes
    later.  For an active listing below its maximum, a label with no
    Active rental and a known renter with a Stripe customer, the route
    asks Stripe for one subscription checkout whose metadata names the
    listing, the renter, the label, the full domain [label.domain] and
    the record kind and value as submitted, at the listing's price; it
    answers with the session when Stripe gives one, and writes no rental.
    Neither the verification of the listing, nor the allowed record kinds,
    nor the form of the label is looked at: when the listing is unverified
    or does not allow the kind, the checkout event of that very session
    is refused by the webhook, which then creates no rental and no
    record. *)
Theorem initiation_skips_the_checks_of_the_webhook
  env d st listingId renterUserId label kind value listing renter :
  listingId <> "" -> renterUserId <> "" -> label <> "" -> kind <> "" -> value <> "" ->
  findListing d listingId = Some listing ->
  l_status listing = "ACTIVE" ->
  findActiveRental d listingId label = None ->
  (Z.of_nat (countActiveRentals d listingId) < maxSubdomainsAllowed listing)%Z ->
  findUser st renterUserId = Some renter ->
  Js.truthy (stripeCustomerId renter) = true ->
  let after :=
    POST env d {| rq_listingId := Some listingId; rq_renterUserId := Some renterUserId;
                  rq_subdomain := Some label; rq_dnsRecordType := Some kind;
                  rq_dnsRecordValue := Some value |} st in
  exists params,
    stripe_calls (snd after) = (stripe_calls st ++ [SessionCreate params])%list
    /\ users (snd after) = users st
    /\ cp_mode params = "subscription"
    /\ cp_unit_amount params = cents env (pricePerSubdomain listing)
    /\ cp_metadata params
       = {| Webhook.md_listingId := listingId;
            Webhook.md_renterUserId := renterUserId;
            Webhook.md_subdomain := label;
            Webhook.md_fullDomain := label ++ "." ++ domainName listing;
            Webhook.md_dnsRecordType := kind;
            Webhook.md_dnsRecordValue := value |}
    /\ (forall sessionId sessionUrl,
          sessions_create env params = Ok (sessionId, sessionUrl) ->
          fst after = Created sessionId sessionUrl)
    /\ (isVerified listing = false
        \/ existsb (String.eqb kind) (allowedRecordTypes listing) = false ->
        forall wenv session w,
          Webhook.metadata session = Some (cp_metadata params) ->
          Proc.db w = d ->
          Proc.db (snd (Webhook.handleCheckoutSessionCompleted wenv session w)) = d
          /\ Proc.dns_calls (snd (Webhook.handleCheckoutSessionCompleted wenv session w))
             = Proc.dns_calls w).
Proof.
  intros H1 H2 H3 H4 H5 Hl Hactive Hfree Hmax Hu Hc after. subst after.
  unfold POST. cbn [rq_listingId rq_renterUserId rq_subdomain rq_dnsRecordType
                      rq_dnsRecordValue].
  rewrite (truthy_field _ H1), (truthy_field _ H2), (truthy_field _ H3),
    (truthy_field _ H4), (truthy_field _ H5). cbn [negb orb].
  rewrite Hl, Hactive. cbn [String.eqb Ascii.eqb Bool.eqb negb]. rewrite Hfree.
  replace (maxSubdomainsAllowed listing <=? Z.of_nat (countActiveRentals d listingId))%Z
    with false by (symmetry; apply Z.leb_gt; exact Hmax).
  rewrite Hu. unfold ensure_customer.
  destruct (stripeCustomerId renter) as [customer|]; [|discriminate]. rewrite Hc.
  exists (checkout_params env listing customer listingId renterUserId label kind value).
  split; [|split; [|split; [reflexivity|split; [reflexivity|split; [reflexivity|split]]]]].
  - destruct (sessions_create env _) as [[sid url]|m]; reflexivity.
  - destruct (sessions_create env _) as [[sid url]|m]; reflexivity.
  - intros sessionId sessionUrl Hs. now rewrite Hs.
  - intros Hrej wenv session w Hmd Hdb. subst d.
    apply (checkout_refused wenv session w _ listing Hmd); [exact Hl|exact Hrej].
Qed.

(** X28.  Cancelling a rental through the API marks it Cancelled
    whatever its status was and whatever Stripe answers to the
    cancellation of its subscription, which is asked for once when the
    rental carries one.  The route itself never removes the DNS record:
    that is left to the subscription_deleted event, which still finds the
    cancelled rental by its subscription and then turns to the registrar
    of a verified listing. *)
Theorem api_cancellation_leaves_the_record_to_the_webhook env id d st rental :
  findRental d id = Some rental ->
  let after := DELETE env id d st in
  fst (fst after) = Cancelled "Rental cancelled successfully" (with_status CANCELLED rental)
  /\ listings (snd (fst after)) = listings d
  /\ rentals (snd (fst after)) = map (set_status_of id CANCELLED) (rentals d)
  /\ transactions (snd (fst after)) = transactions d
  /\ stripe_calls (snd after)
     = (stripe_calls st
        ++ match stripeSubscriptionId rental with
           | Some sub => if String.eqb sub "" then [] else [SubscriptionCancel sub]
           | None => []
           end)%list
  /\ (forall wenv w sub listing,
        Proc.db w = snd (fst after) ->
        findRentalBySubscription d sub = Some rental ->
        findListing d (listingId rental) = Some listing ->
        isVerified listing = true ->
        exists rest,
          Proc.dns_calls (snd (Webhook.handleSubscriptionDeleted wenv sub w))
          = (Proc.dns_calls w ++ Proc.CallFactory (registrar listing) :: rest)%list).
Proof.
  intros Hr after. subst after. unfold DELETE. rewrite Hr.
  unfold updateRentalStatus. rewrite Hr. cbn [fst snd listings rentals transactions].
  split; [reflexivity|split; [reflexivity|split; [reflexivity|split; [reflexivity|split]]]].
  - unfold cancel_subscription. destruct (stripeSubscriptionId rental) as [sub|];
      [|now rewrite app_nil_r].
    unfold Js.truthy. destruct (String.eqb sub ""); cbn [negb]; [now rewrite app_nil_r|].
    destruct (subscriptions_cancel env sub); reflexivity.
  - intros wenv w sub listing Hdb Hsub Hl Hv.
    assert (Hid : r_id rental = id).
    { apply find_some in Hr as [_ H]. now apply Nat.eqb_eq. }
    assert (Hsub' : findRentalBySubscription (Proc.db w) sub
                    = Some (with_status CANCELLED rental)).
    { rewrite Hdb. unfold findRentalBySubscription in *. cbn [rentals].
      rewrite (find_map_preserved (has_subscription sub) (set_status_of id CANCELLED)).
      - rewrite Hsub. cbn [option_map]. unfold set_status_of.
        now rewrite Hid, Nat.eqb_refl.
      - intros x. apply WebhookFacts.set_status_of_subscription. }
    assert (Hl' : findListing (Proc.db w) (listingId (with_status CANCELLED rental))
                  = Some listing).
    { rewrite Hdb. exact Hl. }
    rewrite (WebhookFacts.handleSubscriptionDeleted_calls wenv sub w _ listing Hsub' Hl'), Hv.
    apply WebhookFacts.deprovision_starts_with_factory.
Qed.

Import Samples MoreSamples.

Lemma initiation_skips_the_checks_of_the_webhook_witness :
  fst (POST stripe_env (Proc.db (store_with false []))
         {| rq_listingId := Some "lst_1"; rq_renterUserId := Some "usr_2";
            rq_subdomain := Some "blog"; rq_dnsRecordType := Some "MX";
            rq_dnsRecordValue := Some "192.0.2.1" |} renters)
  = Created "cs_1" (Some "https://checkout.stripe.com/c/cs_1").
Proof.
  destruct (initiation_skips_the_checks_of_the_webhook stripe_env
              (Proc.db (store_with false [])) renters "lst_1" "usr_2" "blog" "MX"
              "192.0.2.1" (example_listing false)
              {| u_id := "usr_2"; u_email := "renter@example.org";
                 stripeCustomerId := Some "cus_7" |}
              ltac:(discriminate) ltac:(discriminate) ltac:(discriminate)
              ltac:(discriminate) ltac:(discriminate)
              eq_refl eq_refl eq_refl ltac:(vm_compute; reflexivity) eq_refl eq_refl)
    as [params [_ [_ [_ [_ [_ [Hcreated _]]]]]]].
  exact (Hcreated "cs_1" (Some "https://checkout.stripe.com/c/cs_1") eq_refl).
Defined.

Lemma api_cancellation_leaves_the_record_to_the_webhook_witness :
  rentals (snd (fst (DELETE stripe_env 7 (Proc.db (store_with true [blog_rental ACTIVE]))
                       renters)))
  = [blog_rental CANCELLED]
  /\ stripe_calls (snd (DELETE stripe_env 7 (Proc.db (store_with true [blog_rental ACTIVE]))
                          renters))
     = [SubscriptionCancel "sub_9"].
Proof.
  pose proof (api_cancellation_leaves_the_record_to_the_webhook stripe_env 7
                (Proc.db (store_with true [blog_rental ACTIVE])) renters
                (blog_rental ACTIVE) eq_refl) as H.
  cbv zeta in H. destruct H as [_ [_ [Hrentals [_ [Hcalls _]]]]].
  split; [exact Hrentals|exact Hcalls].
Defined.

End RentalsFacts.

(** ** Listing creation route *)

Module ListingsFacts.
Import Store Listings.

Lemma filter_nil_all {A} (p : A -> bool) l :
  List.length (filter p l) = 0 -> Forall (fun x => p x = false) l.
Proof.
  induction l as [|x l IH]; cbn; [constructor|].
  destruct (p x) eqn:E; [discriminate|]. intros H. constructor; [exact E|exact (IH H)].
Qed.

Lemma existsb_eqb_In t l : existsb (String.eqb t) l = true -> In t l.
Proof.
  intros H. apply existsb_exists in H as [x [Hin Heq]].
  apply String.eqb_eq in Heq. now subst.
Qed.

Section Route.
Context {cipher : Encryption.AesGcm}.
Variable env_key : option string.
Variable JSON_parse : string -> Result Dns.Factory.JsonObject.
Variable cloudflare : Dns.Cloudflare.Network.
Variable namecheap : Dns.Namecheap.Request -> Result string.
Variable JSON_stringify : Dns.Factory.JsonObject -> string.
Variable toUpperCase : string -> string.
Variable default_status : string.

(** X29.  Every listing the creation route stores is a listing of the
    Token-REST registrar whose credentials answered a record listing: the
    stored tag is CLOUDFLARE.  The row is appended unverified, under a
    domain name no other listing carries, with the hexadecimal text of the
    drawn bytes as its token (twice as many digits as bytes), which is
    also the value the instructions ask to publish; its allowed record
    kinds are a non-empty selection of the six known kinds; and the stored
    credentials unseal to the JSON text of the submitted object.  Every
    other answer of the route leaves the store as it was. *)
Theorem created_listings_are_cloudflare_and_unverified
  body iv salt token_bytes new_id d :
  let out := POST env_key JSON_parse cloudflare namecheap JSON_stringify toUpperCase
               default_status body iv salt token_bytes new_id d in
  match fst out with
  | Created row instructions =>
      registrar row = "CLOUDFLARE"
      /\ isVerified row = false
      /\ verificationToken row = Some (Encryption.toHex token_bytes)
      /\ vi_recordValue instructions = Encryption.toHex token_bytes
      /\ String.length (Encryption.toHex token_bytes) = 2 * List.length token_bytes
      /\ allowedRecordTypes row <> []
      /\ Forall (fun t => In t validRecordTypes) (allowedRecordTypes row)
      /\ listings (snd out) = (listings d ++ [row])%list
      /\ rentals (snd out) = rentals d
      /\ transactions (snd out) = transactions d
      /\ (forall l, In l (listings d) -> domainName l <> domainName row)
      /\ exists credentials,
           lb_apiCredentials body = Some credentials
           /\ forall key,
                env_key = Some key -> 32 <= String.length key ->
                List.length iv = Encryption.IV_LENGTH ->
                Encryption.decrypt env_key (apiCredentialsEncrypted row)
                = Ok (JSON_stringify credentials)
  | _ => snd out = d
  end.
Proof.
  cbv zeta. unfold POST.
  destruct (lb_userId body) as [userId|]; [|reflexivity].
  destruct (lb_domainName body) as [name|]; [|reflexivity].
  destruct (lb_pricePerSubdomain body) as [price|]; [|reflexivity].
  destruct (lb_registrar body) as [registrarTag|]; [|reflexivity].
  destruct (lb_apiCredentials body) as [apiCredentials|]; [|reflexivity].
  destruct (lb_maxSubdomainsAllowed body) as [maxAllowed|]; [|reflexivity].
  match goal with |- context [if ?c then _ else _] => destruct c end; [reflexivity|].
  destruct (lb_allowedRecordTypes body) as [[|t types]|]; [reflexivity| |reflexivity].
  destruct (Nat.ltb 0 _) eqn:Hinv; [reflexivity|].
  destruct (Encryption.encrypt env_key iv salt (JSON_stringify apiCredentials))
    as [sealed|m] eqn:Henc; [|reflexivity].
  destruct (Dns.Factory.valid _) eqn:Hvalid; cbn [negb]; [|reflexivity].
  unfold createListing. cbn [domainName].
  destruct (existsb _ (listings d)) eqn:Hdup; [reflexivity|].
  cbn [fst snd listings rentals transactions registrar isVerified verificationToken
         allowedRecordTypes apiCredentialsEncrypted domainName instructions_for
         vi_recordValue l_id].
  split; [exact (FactoryFacts.validateCredentials_only_cloudflare _ _ _ _ _ _ Hvalid)|].
  split; [reflexivity|]. split; [reflexivity|]. split; [reflexivity|].
  split; [apply CodecFacts.length_toHex|]. split; [discriminate|].
  split; [|split; [reflexivity|split; [reflexivity|split; [reflexivity|split]]]].
  - apply Nat.ltb_ge in Hinv. apply Nat.le_0_r in Hinv.
    apply filter_nil_all in Hinv.
    eapply Forall_impl; [|exact Hinv]. intros x Hx. cbv beta in Hx.
    apply negb_false_iff in Hx. now apply existsb_eqb_In.
  - intros l Hin Heq.
    assert (existsb (fun l0 => String.eqb (domainName l0) name) (listings d) = true);
      [|congruence].
    apply existsb_exists. exists l. split; [exact Hin|]. now apply String.eqb_eq.
  - exists apiCredentials. split; [reflexivity|].
    intros key Hkey Hlen Hiv. subst env_key.
    exact (CodecFacts.decrypt_of_encrypt key key iv salt _ sealed Hlen Hlen eq_refl Hiv Henc).
Qed.

End Route.

Import Samples MoreSamples.

(** A submission with working Token-REST credentials is stored, and the
    same submission under another registrar tag is refused. *)
Example listing_submissions :
  map (fun tag =>
         match fst (POST (cipher := EncryptionFacts.MirrorCipher) (Some sample_key) decode
                      (zone_with []) zone_with_www (fun _ => sample_plaintext) upper
                      "ACTIVE" (listing_submission tag) sample_iv sample_salt
                      (repeat x2a 32) "lst_2" (Proc.db (store_with true []))) with
         | Created row _ =>
             Some (registrar row, isVerified row,
                   option_map String.length (verificationToken row))
         | _ => None
         end)
    ["cloudflare"; "ROUTE53"; "NAMECHEAP"]
  = [Some ("CLOUDFLARE", false, Some 64); None; None].
Proof. vm_compute. reflexivity. Qed.

End ListingsFacts.

(** ** Availability route: the refusals *)

Module AvailabilityMore.
Import Store Proc Availability.

(** X30.  The availability route refuses in a fixed order, and every
    refusal is made before [lib/dns] is reached: a label of the wrong
    form is refused first (with status 200, also for a listing that does
    not exist), then an unknown listing (404), a listing that is not
    active, a listing at its maximum of Active rentals, and a label with
    an Active rental.  Each of these answers leaves the world exactly as
    it was: no registrar call, nothing logged.  Whatever the answer, the
    route changes no table. *)
Theorem availability_refusals_precede_the_registrar factory listingId label w :
  listingId <> "" ->
  label <> "" ->
  let request := {| body_listingId := Some listingId; body_subdomain := Some label |} in
  let refused reason := POST factory request w = (Ok (Unavailable reason), w) in
  (subdomainRegex_test label = false ->
   refused "Invalid subdomain format. Use only alphanumeric characters and hyphens.")
  /\ (subdomainRegex_test label = true ->
      (findListing (db w) listingId = None ->
       POST factory request w = (Ok (NotFound "Listing not found"), w))
      /\ (forall listing,
            findListing (db w) listingId = Some listing ->
            (l_status listing <> "ACTIVE" ->
             refused "This domain listing is not currently active.")
            /\ (l_status listing = "ACTIVE" ->
                (maxSubdomainsAllowed listing
                 <= Z.of_nat (countActiveRentals (db w) listingId))%Z ->
                refused "Maximum subdomains reached for this domain.")
            /\ (l_status listing = "ACTIVE" ->
                (Z.of_nat (countActiveRentals (db w) listingId)
                 < maxSubdomainsAllowed listing)%Z ->
                forall rental,
                  findActiveRental (db w) listingId label = Some rental ->
                  refused "This subdomain is already taken.")))
  /\ db (snd (POST factory request w)) = db w.
Proof.
  intros Hid Hlabel request refused. subst request refused. cbv beta.
  unfold POST. cbn [body_listingId body_subdomain].
  rewrite (AvailabilityFacts.truthy_nonempty _ Hid),
    (AvailabilityFacts.truthy_nonempty _ Hlabel). cbn [negb orb].
  split; [|split].
  - intros Hbad. now rewrite Hbad.
  - intros Hgood. rewrite Hgood. cbn [negb]. step. split.
    + intros Hnone. now rewrite Hnone.
    + intros listing Hl. rewrite Hl. split; [|split].
      * intros Hinactive.
        destruct (String.eqb_spec (l_status listing) "ACTIVE"); [contradiction|reflexivity].
      * intros Hactive Hmax. rewrite Hactive. cbn [String.eqb Ascii.eqb Bool.eqb negb].
        apply Z.leb_le in Hmax. now rewrite Hmax.
      * intros Hactive Hmax rental Htaken. rewrite Hactive.
        cbn [String.eqb Ascii.eqb Bool.eqb negb].
        apply Z.leb_gt in Hmax. now rewrite Hmax, Htaken.
  - destruct (subdomainRegex_test label); cbn [negb]; [|reflexivity]. step.
    destruct (findListing (db w) listingId) as [listing|]; [|reflexivity].
    destruct (negb (String.eqb (l_status listing) "ACTIVE")); [reflexivity|].
    destruct (maxSubdomainsAllowed listing <=? _)%Z; [reflexivity|].
    destruct (findActiveRental (db w) listingId label); [reflexivity|].
    destruct (isVerified listing); [|reflexivity].
    destruct (AvailabilityFacts.liveConflictCheck_safe factory label listing w)
      as [answer [w' [Hrun [Hdb _]]]].
    rewrite Hrun. destruct answer; cbn [snd]; exact Hdb.
Qed.

Import Samples.

Lemma availability_refusals_precede_the_registrar_witness :
  POST (zone_factory (zone_with [outside_record]))
    {| body_listingId := Some "lst_404"; body_subdomain := Some "my_sub" |}
    (store_with true [])
  = (Ok (Unavailable
           "Invalid subdomain format. Use only alphanumeric characters and hyphens."),
     store_with true []).
Proof.
  pose proof (availability_refusals_precede_the_registrar
                (zone_factory (zone_with [outside_record])) "lst_404" "my_sub"
                (store_with true []) ltac:(discriminate) ltac:(discriminate)) as H.
  cbv zeta in H. cbv beta in H. exact (proj1 H eq_refl).
Defined.

End AvailabilityMore.
